(** * Tuple visibility of zheap: the undo walkers and the snapshot predicates

    A shallow embedding of [src/backend/utils/time/ztqual.c].  The
    transaction manager, the undo log reader and the tuple accessors, which
    the file only calls, are gathered in one record of collaborators; the
    walkers and predicates are functions over it.  The build modelled is the
    one without assertion checking: an [Assert] is no statement. *)

From Stdlib Require Import ZArith List Bool Lia.
Import ListNotations.
Local Open Scope Z_scope.

(** ** Identifiers *)

Definition TransactionId := Z.
Definition CommandId := Z.
Definition UndoRecPtr := Z.
Definition BlockNumber := Z.
Definition OffsetNumber := Z.

(** Modelled from the spec: the distinguished values of transam.h, c.h and
    undolog.h, which are not among the sources ("a distinguished value means
    invalid/none").  The invalid command id is the largest 32-bit value, so
    the unsigned test [cid >= curcid] holds for it. *)
Definition InvalidTransactionId : TransactionId := 0.
Definition InvalidCommandId : CommandId := 4294967295.
Definition InvalidUndoRecPtr : UndoRecPtr := 0.

(** ** Tuples and the page *)

(** Modelled from the spec: the infomask bits of zhtup.h, which is not among
    the sources; the spec lists the five flags, each one bit of the mask. *)
Definition ZHEAP_DELETED : Z := 16.
Definition ZHEAP_INPLACE_UPDATED : Z := 32.
Definition ZHEAP_UPDATED : Z := 64.
Definition ZHEAP_XID_LOCK_ONLY : Z := 128.
Definition ZHEAP_INVALID_XACT_SLOT : Z := 256.

(** The C condition [mask & FLAG]. *)
Definition flag_set (mask flag : Z) : bool := negb (Z.land mask flag =? 0).

(** Modelled from the spec: the macro of zhtup.h, not among the sources. *)
Definition ZHEAP_XID_IS_LOCKED_ONLY (mask : Z) : bool :=
  flag_set mask ZHEAP_XID_LOCK_ONLY.

Record ItemPointerData := mkItemPointer {
  ip_blkid : BlockNumber;
  ip_posid : OffsetNumber
}.

(** The header keeps the infomask and the transaction slot index; [t_image]
    stands for the user data of the row version. *)
Record ZHeapTupleHeaderData := mkHeader {
  t_infomask : Z;
  t_xact_slot : Z;
  t_image : Z
}.

Record ZHeapTupleData := mkTuple {
  t_self : ItemPointerData;
  t_tableOid : Z;
  t_data : ZHeapTupleHeaderData
}.

(** A C pointer to a tuple: [None] is NULL. *)
Definition ZHeapTuple := option ZHeapTupleData.

Record TransInfo := mkTransInfo {
  ti_xid : TransactionId;
  ti_urec_ptr : UndoRecPtr
}.

(** The special area of a zheap page: the table of transaction slots. *)
Record ZHeapPageOpaqueData := mkOpaque {
  transinfo : Z -> TransInfo
}.

(** A pinned buffer is read only through its special area. *)
Definition Buffer := ZHeapPageOpaqueData.

(** Modelled from the spec: the frozen slot and the accessors of zhtup.h,
    which is not among the sources: "a transaction slot index into the
    page's slot table, or a distinguished frozen slot"; raw xid and raw undo
    pointer come "from the slot table". *)
Definition ZHTUP_SLOT_FROZEN : Z := 0.

Definition ZHeapTupleHeaderGetXactSlot (tup : ZHeapTupleHeaderData) : Z :=
  t_xact_slot tup.

Definition ZHeapTupleHeaderGetRawXid (tup : ZHeapTupleHeaderData)
    (opaque : ZHeapPageOpaqueData) : TransactionId :=
  ti_xid (transinfo opaque (ZHeapTupleHeaderGetXactSlot tup)).

Definition ZHeapTupleHeaderGetRawUndoPtr (tup : ZHeapTupleHeaderData)
    (opaque : ZHeapPageOpaqueData) : UndoRecPtr :=
  ti_urec_ptr (transinfo opaque (ZHeapTupleHeaderGetXactSlot tup)).

Definition ItemPointerGetBlockNumber (p : ItemPointerData) : BlockNumber :=
  ip_blkid p.
Definition ItemPointerGetOffsetNumber (p : ItemPointerData) : OffsetNumber :=
  ip_posid p.

(** ** Undo records and snapshots *)

Inductive UndoRecType :=
| UNDO_INSERT
| UNDO_DELETE
| UNDO_INPLACE_UPDATE
| UNDO_UPDATE
| UNDO_XID_LOCK_ONLY
| UNDO_INVALID_XACT_SLOT.

Definition undo_type_eqb (a b : UndoRecType) : bool :=
  match a, b with
  | UNDO_INSERT, UNDO_INSERT
  | UNDO_DELETE, UNDO_DELETE
  | UNDO_INPLACE_UPDATE, UNDO_INPLACE_UPDATE
  | UNDO_UPDATE, UNDO_UPDATE
  | UNDO_XID_LOCK_ONLY, UNDO_XID_LOCK_ONLY
  | UNDO_INVALID_XACT_SLOT, UNDO_INVALID_XACT_SLOT => true
  | _, _ => false
  end.

(** The fields of an unpacked undo record that the visibility code reads.
    [uur_payload] is the payload read as an item pointer (the new location
    kept by an UPDATE record); [uur_tuple] is the prior image. *)
Record UnpackedUndoRecord := mkUndoRecord {
  uur_type : UndoRecType;
  uur_prevxid : TransactionId;
  uur_cid : CommandId;
  uur_blkprev : UndoRecPtr;
  uur_payload : ItemPointerData;
  uur_tuple : ZHeapTupleHeaderData
}.

Record SnapshotData := mkSnapshot {
  xmin : TransactionId;
  xmax : TransactionId;
  curcid : CommandId;
  speculativeToken : Z;
  xip : list TransactionId
}.

(** ** Collaborators

    What ztqual.c consumes and does not define: the horizon, the transaction
    manager, the undo reader and two tuple helpers.  [UndoFetchRecord] yields
    [None] for a discarded record. *)
Record Collaborators := mkCollaborators {
  RecentGlobalXmin : TransactionId;
  TransactionIdPrecedes : TransactionId -> TransactionId -> bool;
  TransactionIdIsCurrentTransactionId : TransactionId -> bool;
  TransactionIdIsInProgress : TransactionId -> bool;
  TransactionIdDidCommit : TransactionId -> bool;
  XidInMVCCSnapshot : TransactionId -> SnapshotData -> bool;
  UndoFetchRecord :
    UndoRecPtr -> BlockNumber -> OffsetNumber -> TransactionId ->
    option UnpackedUndoRecord;
  CopyTupleFromUndoRecord :
    UnpackedUndoRecord -> ZHeapTupleData -> ZHeapTupleData;
  ZHeapTupleGetCid : ZHeapTupleData -> Buffer -> CommandId
}.

(** ** Runs

    A run of the C code either returns, or reads through a NULL record
    pointer, or - in the model only - uses up the fuel that bounds its loops.
    Every call of [UndoFetchRecord] is logged with its arguments. *)

Inductive outcome (A : Type) :=
| Returned (a : A)
| NullDereference
| OutOfFuel.
Arguments Returned {A} a.
Arguments NullDereference {A}.
Arguments OutOfFuel {A}.

Record FetchCall := mkFetch {
  fc_ptr : UndoRecPtr;
  fc_blk : BlockNumber;
  fc_off : OffsetNumber;
  fc_xid : TransactionId
}.

Definition Run (A : Type) : Type := (list FetchCall * outcome A)%type.

Definition ret {A} (a : A) : Run A := ([], Returned a).

Definition bind {A B} (m : Run A) (k : A -> Run B) : Run B :=
  match m with
  | (tr, Returned a) => let (tr', o) := k a in (tr ++ tr', o)
  | (tr, NullDereference) => (tr, NullDereference)
  | (tr, OutOfFuel) => (tr, OutOfFuel)
  end.

Definition null_dereference {A} : Run A := ([], NullDereference).
Definition out_of_fuel {A} : Run A := ([], OutOfFuel).

Notation "x <- m ;; k" := (bind m (fun x => k))
  (at level 61, m at next level, right associativity).
Notation "' pat <- m ;; k" := (bind m (fun x => match x with pat => k end))
  (at level 61, pat pattern, m at next level, right associativity).

Definition fetches {A} (r : Run A) : list FetchCall := fst r.
Definition result {A} (r : Run A) : outcome A := snd r.

(** The resolved identity of a tuple version: who changed it last, at which
    command, and where the walk continues. *)
Record XactInfo := mkXactInfo {
  xi_xid : TransactionId;
  xi_cid : CommandId;
  xi_urec_ptr : UndoRecPtr
}.

Section Walkers.

Context (E : Collaborators).

Definition fetch (urec_ptr : UndoRecPtr) (blk : BlockNumber)
    (off : OffsetNumber) (xid : TransactionId)
    : Run (option UnpackedUndoRecord) :=
  ([mkFetch urec_ptr blk off xid],
   Returned (UndoFetchRecord E urec_ptr blk off xid)).

(** [fetch_undo_record:] of both walkers (lines 63-80 and 273-290): fetch,
    and while the record is of the slot-reuse kind go to its [uur_blkprev]
    and fetch again.  [urec->uur_type] is read without a test of [urec]. *)
Fixpoint fetch_undo_record (fuel : nat) (urec_ptr : UndoRecPtr)
    (zhtup : ZHeapTupleData) (prev_undo_xid : TransactionId)
    : Run UnpackedUndoRecord :=
  match fuel with
  | O => out_of_fuel
  | S fuel' =>
      urec <- fetch urec_ptr
                (ItemPointerGetBlockNumber (t_self zhtup))
                (ItemPointerGetOffsetNumber (t_self zhtup))
                prev_undo_xid ;;
      match urec with
      | None => null_dereference
      | Some urec =>
          if undo_type_eqb (uur_type urec) UNDO_INVALID_XACT_SLOT
          then fetch_undo_record fuel' (uur_blkprev urec) zhtup prev_undo_xid
          else ret urec
      end
  end.

(** The do-while loop of both walkers (lines 127-162 and 350-385), entered
    with the xid of the undo tuple and the pointer of the next record. *)
Fixpoint undo_tuple_xact_info (fuel : nat) (undo_tup : ZHeapTupleData)
    (undo_tup_xid : TransactionId) (prev_urec_ptr : UndoRecPtr)
    : Run XactInfo :=
  match fuel with
  | O => out_of_fuel
  | S fuel' =>
      urec <- fetch prev_urec_ptr
                (ItemPointerGetBlockNumber (t_self undo_tup))
                (ItemPointerGetOffsetNumber (t_self undo_tup))
                InvalidTransactionId ;;
      match urec with
      | None =>
          ret (mkXactInfo InvalidTransactionId InvalidCommandId prev_urec_ptr)
      | Some urec =>
          if TransactionIdPrecedes E (uur_prevxid urec) (RecentGlobalXmin E)
          then
            ret (mkXactInfo InvalidTransactionId InvalidCommandId prev_urec_ptr)
          else
            let xid := uur_prevxid urec in
            let cid := uur_cid urec in
            let prev_urec_ptr := uur_blkprev urec in
            let uur_type := uur_type urec in
            if negb (undo_type_eqb uur_type UNDO_INVALID_XACT_SLOT)
               || negb (undo_tup_xid =? xid)
            then undo_tuple_xact_info fuel' undo_tup undo_tup_xid prev_urec_ptr
            else ret (mkXactInfo xid cid prev_urec_ptr)
      end
  end.

(** Lines 87-100 and 308-323: the operation that produced the undo tuple. *)
Definition undo_operation (undo_tup : ZHeapTupleData) : Z :=
  if flag_set (t_infomask (t_data undo_tup)) ZHEAP_INPLACE_UPDATED
  then ZHEAP_INPLACE_UPDATED
  else if flag_set (t_infomask (t_data undo_tup)) ZHEAP_XID_LOCK_ONLY
  then ZHEAP_XID_LOCK_ONLY
  else -1.

(** Lines 104-110 and 327-333: the chain is changed when the undo tuple is
    stamped with another transaction slot. *)
Definition switch_undo_chain (urec : UnpackedUndoRecord)
    (undo_tup : ZHeapTupleData) (prev_trans_slot_id : Z)
    (opaque : ZHeapPageOpaqueData) : UndoRecPtr :=
  let trans_slot_id := ZHeapTupleHeaderGetXactSlot (t_data undo_tup) in
  if negb (trans_slot_id =? ZHTUP_SLOT_FROZEN)
     && negb (trans_slot_id =? prev_trans_slot_id)
  then ZHeapTupleHeaderGetRawUndoPtr (t_data undo_tup) opaque
  else uur_blkprev urec.

(** Lines 112-175 and 335-398: xid, cid and next pointer of the undo tuple. *)
Definition resolve_undo_tuple (fuel : nat) (undo_tup : ZHeapTupleData)
    (xid : TransactionId) (prev_urec_ptr : UndoRecPtr) (buffer : Buffer)
    : Run XactInfo :=
  if negb (ZHeapTupleHeaderGetXactSlot (t_data undo_tup)
           =? ZHTUP_SLOT_FROZEN)
     && negb (TransactionIdPrecedes E xid (RecentGlobalXmin E))
  then
    if flag_set (t_infomask (t_data undo_tup)) ZHEAP_INVALID_XACT_SLOT
    then undo_tuple_xact_info fuel undo_tup xid prev_urec_ptr
    else ret (mkXactInfo xid (ZHeapTupleGetCid E undo_tup buffer)
                prev_urec_ptr)
  else ret (mkXactInfo xid InvalidCommandId prev_urec_ptr).

(** [GetTupleFromUndo] (lines 43-236). *)
Fixpoint GetTupleFromUndo (fuel : nat) (urec_ptr : UndoRecPtr)
    (zhtup : ZHeapTupleData) (snapshot : SnapshotData) (buffer : Buffer)
    (prev_undo_xid : TransactionId) : Run ZHeapTuple :=
  match fuel with
  | O => out_of_fuel
  | S fuel' =>
      let opaque := buffer in
      let prev_trans_slot_id := ZHeapTupleHeaderGetXactSlot (t_data zhtup) in
      urec <- fetch_undo_record fuel urec_ptr zhtup prev_undo_xid ;;
      let undo_tup := CopyTupleFromUndoRecord E urec zhtup in
      let trans_slot_id := ZHeapTupleHeaderGetXactSlot (t_data undo_tup) in
      let undo_oper := undo_operation undo_tup in
      let prev_urec_ptr :=
        switch_undo_chain urec undo_tup prev_trans_slot_id opaque in
      info <- resolve_undo_tuple fuel undo_tup (uur_prevxid urec)
                prev_urec_ptr buffer ;;
      let xid := xi_xid info in
      let cid := xi_cid info in
      let prev_urec_ptr := xi_urec_ptr info in
      if (trans_slot_id =? ZHTUP_SLOT_FROZEN)
         || TransactionIdPrecedes E xid (RecentGlobalXmin E)
      then ret (Some undo_tup)
      else if (undo_oper =? ZHEAP_INPLACE_UPDATED)
              || (undo_oper =? ZHEAP_XID_LOCK_ONLY)
      then
        if TransactionIdIsCurrentTransactionId E xid
        then
          if undo_oper =? ZHEAP_XID_LOCK_ONLY
          then ret (Some undo_tup)
          else if curcid snapshot <=? cid
          then GetTupleFromUndo fuel' prev_urec_ptr undo_tup snapshot buffer
                 xid
          else ret (Some undo_tup)
        else if XidInMVCCSnapshot E xid snapshot
        then GetTupleFromUndo fuel' prev_urec_ptr undo_tup snapshot buffer xid
        else if TransactionIdDidCommit E xid
        then ret (Some undo_tup)
        else GetTupleFromUndo fuel' prev_urec_ptr undo_tup snapshot buffer xid
      else
        if TransactionIdIsCurrentTransactionId E xid
        then
          if curcid snapshot <=? cid
          then ret None
          else ret (Some undo_tup)
        else if XidInMVCCSnapshot E xid snapshot
        then ret None
        else if TransactionIdDidCommit E xid
        then ret (Some undo_tup)
        else ret None
  end.

(** [UndoTupleSatisfiesUpdate] (lines 250-479).  [ctid] is the caller's
    item pointer, [None] when the caller passed NULL; the flag is the content
    of [*in_place_updated_or_locked].  Both are returned as the call leaves
    them. *)
Fixpoint UndoTupleSatisfiesUpdate (fuel : nat) (urec_ptr : UndoRecPtr)
    (zhtup : ZHeapTupleData) (curcid : CommandId) (buffer : Buffer)
    (ctid : option ItemPointerData) (prev_undo_xid : TransactionId)
    (free_zhtup : bool) (in_place_updated_or_locked : bool)
    : Run (bool * option ItemPointerData * bool) :=
  match fuel with
  | O => out_of_fuel
  | S fuel' =>
      let opaque := buffer in
      let prev_trans_slot_id := ZHeapTupleHeaderGetXactSlot (t_data zhtup) in
      urec <- fetch_undo_record fuel urec_ptr zhtup prev_undo_xid ;;
      let undo_tup := CopyTupleFromUndoRecord E urec zhtup in
      let trans_slot_id := ZHeapTupleHeaderGetXactSlot (t_data undo_tup) in
      let ctid :=
        match ctid with
        | Some _ =>
            if undo_type_eqb (uur_type urec) UNDO_UPDATE
            then Some (uur_payload urec)
            else Some (t_self undo_tup)
        | None => None
        end in
      let undo_oper := undo_operation undo_tup in
      let in_place_updated_or_locked :=
        if (undo_oper =? ZHEAP_INPLACE_UPDATED)
           || (undo_oper =? ZHEAP_XID_LOCK_ONLY)
        then true else in_place_updated_or_locked in
      let prev_urec_ptr :=
        switch_undo_chain urec undo_tup prev_trans_slot_id opaque in
      info <- resolve_undo_tuple fuel undo_tup (uur_prevxid urec)
                prev_urec_ptr buffer ;;
      let xid := xi_xid info in
      let cid := xi_cid info in
      let prev_urec_ptr := xi_urec_ptr info in
      let result_available (result : bool) :=
        ret (result, ctid, in_place_updated_or_locked) in
      let dig_deeper :=
        UndoTupleSatisfiesUpdate fuel' prev_urec_ptr undo_tup curcid buffer
          ctid xid true in_place_updated_or_locked in
      if (trans_slot_id =? ZHTUP_SLOT_FROZEN)
         || TransactionIdPrecedes E xid (RecentGlobalXmin E)
      then result_available true
      else if (undo_oper =? ZHEAP_INPLACE_UPDATED)
              || (undo_oper =? ZHEAP_XID_LOCK_ONLY)
      then
        if TransactionIdIsCurrentTransactionId E xid
        then
          if undo_oper =? ZHEAP_XID_LOCK_ONLY
          then result_available true
          else if curcid <=? cid
          then dig_deeper
          else result_available true
        else if TransactionIdIsInProgress E xid
        then dig_deeper
        else if TransactionIdDidCommit E xid
        then result_available true
        else dig_deeper
      else
        if TransactionIdIsCurrentTransactionId E xid
        then
          if curcid <=? cid
          then result_available false
          else result_available true
        else if TransactionIdIsInProgress E xid
        then result_available false
        else if TransactionIdDidCommit E xid
        then result_available true
        else result_available false
  end.

(** ** Identity of the tuple on the page *)

(** The do-while loop that opens every predicate (lines 539-570, 740-771,
    1010-1039, 1113-1142): read records from the slot's undo pointer until
    one of the slot-reuse kind, or until a record is discarded. *)
Fixpoint tuple_xact_info (fuel : nat) (zhtup : ZHeapTupleData)
    (urec_ptr : UndoRecPtr) : Run XactInfo :=
  match fuel with
  | O => out_of_fuel
  | S fuel' =>
      urec <- fetch urec_ptr
                (ItemPointerGetBlockNumber (t_self zhtup))
                (ItemPointerGetOffsetNumber (t_self zhtup))
                InvalidTransactionId ;;
      match urec with
      | None => ret (mkXactInfo InvalidTransactionId InvalidCommandId urec_ptr)
      | Some urec =>
          let xid := uur_prevxid urec in
          let cid := uur_cid urec in
          let urec_ptr := uur_blkprev urec in
          let uur_type := uur_type urec in
          if negb (undo_type_eqb uur_type UNDO_INVALID_XACT_SLOT)
          then tuple_xact_info fuel' zhtup urec_ptr
          else ret (mkXactInfo xid cid urec_ptr)
      end
  end.

(** Lines 531-580 of [ZHeapTupleSatisfiesMVCC]; [cid] and [urec_ptr] start
    as the invalid values of their declarations. *)
Definition mvcc_xact_info (fuel : nat) (zhtup : ZHeapTupleData)
    (buffer : Buffer) : Run XactInfo :=
  let opaque := buffer in
  let tuple := t_data zhtup in
  if negb (ZHeapTupleHeaderGetXactSlot tuple =? ZHTUP_SLOT_FROZEN)
  then
    if flag_set (t_infomask tuple) ZHEAP_INVALID_XACT_SLOT
    then tuple_xact_info fuel zhtup
           (ZHeapTupleHeaderGetRawUndoPtr tuple opaque)
    else ret (mkXactInfo (ZHeapTupleHeaderGetRawXid tuple opaque)
                (ZHeapTupleGetCid E zhtup buffer)
                (ZHeapTupleHeaderGetRawUndoPtr tuple opaque))
  else ret (mkXactInfo InvalidTransactionId InvalidCommandId
              InvalidUndoRecPtr).

(** Lines 1002-1047 and 1105-1150: [ZHeapTupleIsSurelyDead] and
    [ZHeapTupleSatisfiesDirty] keep the xid only. *)
Definition raw_xact_xid (fuel : nat) (zhtup : ZHeapTupleData)
    (buffer : Buffer) : Run TransactionId :=
  let opaque := buffer in
  let tuple := t_data zhtup in
  if negb (ZHeapTupleHeaderGetXactSlot tuple =? ZHTUP_SLOT_FROZEN)
  then
    if flag_set (t_infomask tuple) ZHEAP_INVALID_XACT_SLOT
    then
      info <- tuple_xact_info fuel zhtup
                (ZHeapTupleHeaderGetRawUndoPtr tuple opaque) ;;
      ret (xi_xid info)
    else ret (ZHeapTupleHeaderGetRawXid tuple opaque)
  else ret InvalidTransactionId.

(** Modelled from the spec: ZHeapTupleGetCtid is defined in zheapam.c, which
    is not among the sources.  "For UPDATED tuples, populates the moved-to
    pointer from the most recent undo UPDATE record": the records of the
    tuple are read from the undo pointer of its slot towards the older ones
    and the first of type UPDATE gives the pointer; [None] says that no such
    record is left, and the caller's pointer is then not written. *)
Fixpoint most_recent_update (fuel : nat) (zhtup : ZHeapTupleData)
    (urec_ptr : UndoRecPtr) : Run (option ItemPointerData) :=
  match fuel with
  | O => out_of_fuel
  | S fuel' =>
      urec <- fetch urec_ptr
                (ItemPointerGetBlockNumber (t_self zhtup))
                (ItemPointerGetOffsetNumber (t_self zhtup))
                InvalidTransactionId ;;
      match urec with
      | None => ret None
      | Some urec =>
          if undo_type_eqb (uur_type urec) UNDO_UPDATE
          then ret (Some (uur_payload urec))
          else most_recent_update fuel' zhtup (uur_blkprev urec)
      end
  end.

(** Modelled from the spec: see [most_recent_update]. *)
Definition ZHeapTupleGetCtid (fuel : nat) (zhtup : ZHeapTupleData)
    (buffer : Buffer) (ctid : ItemPointerData) : Run ItemPointerData :=
  found <- most_recent_update fuel zhtup
             (ZHeapTupleHeaderGetRawUndoPtr (t_data zhtup) buffer) ;;
  match found with
  | Some moved_to => ret moved_to
  | None => ret ctid
  end.

(** [if (tuple->t_infomask & ZHEAP_UPDATED && ctid) ZHeapTupleGetCtid(...)]
    (lines 839-840, 1170-1171, 1185-1186). *)
Definition get_ctid_if_updated (fuel : nat) (zhtup : ZHeapTupleData)
    (buffer : Buffer) (ctid : option ItemPointerData)
    : Run (option ItemPointerData) :=
  match ctid with
  | Some c =>
      if flag_set (t_infomask (t_data zhtup)) ZHEAP_UPDATED
      then c' <- ZHeapTupleGetCtid fuel zhtup buffer c ;; ret (Some c')
      else ret ctid
  | None => ret ctid
  end.

(** ** The predicates *)

Definition deleted_or_updated (tuple : ZHeapTupleHeaderData) : bool :=
  flag_set (t_infomask tuple) ZHEAP_DELETED
  || flag_set (t_infomask tuple) ZHEAP_UPDATED.

Definition inplace_updated_or_locked (tuple : ZHeapTupleHeaderData) : bool :=
  flag_set (t_infomask tuple) ZHEAP_INPLACE_UPDATED
  || flag_set (t_infomask tuple) ZHEAP_XID_LOCK_ONLY.

(** The test that recurs in every predicate: the slot is cleared, or the xid
    precedes the smallest xid that has undo. *)
Definition all_visible (tuple : ZHeapTupleHeaderData) (xid : TransactionId)
    : bool :=
  (ZHeapTupleHeaderGetXactSlot tuple =? ZHTUP_SLOT_FROZEN)
  || TransactionIdPrecedes E xid (RecentGlobalXmin E).

(** [ZHeapTupleSatisfiesMVCC] (lines 510-691). *)
Definition ZHeapTupleSatisfiesMVCC (fuel : nat) (zhtup : ZHeapTupleData)
    (snapshot : SnapshotData) (buffer : Buffer)
    (ctid : option ItemPointerData) : Run ZHeapTuple :=
  let tuple := t_data zhtup in
  info <- mvcc_xact_info fuel zhtup buffer ;;
  let xid := xi_xid info in
  let cid := xi_cid info in
  let urec_ptr := xi_urec_ptr info in
  let from_undo :=
    GetTupleFromUndo fuel urec_ptr zhtup snapshot buffer
      InvalidTransactionId in
  if deleted_or_updated tuple
  then
    if all_visible tuple xid
    then ret None
    else if TransactionIdIsCurrentTransactionId E xid
    then
      if curcid snapshot <=? cid
      then from_undo
      else ret None
    else if XidInMVCCSnapshot E xid snapshot
    then from_undo
    else if TransactionIdDidCommit E xid
    then ret None
    else from_undo
  else if inplace_updated_or_locked tuple
  then
    if all_visible tuple xid
    then ret (Some zhtup)
    else if TransactionIdIsCurrentTransactionId E xid
    then
      if ZHEAP_XID_IS_LOCKED_ONLY (t_infomask tuple)
      then ret (Some zhtup)
      else if curcid snapshot <=? cid
      then from_undo
      else ret (Some zhtup)
    else if XidInMVCCSnapshot E xid snapshot
    then from_undo
    else if TransactionIdDidCommit E xid
    then ret (Some zhtup)
    else from_undo
  else
    if all_visible tuple xid
    then ret (Some zhtup)
    else if TransactionIdIsCurrentTransactionId E xid
    then
      if curcid snapshot <=? cid
      then ret None
      else ret (Some zhtup)
    else if XidInMVCCSnapshot E xid snapshot
    then ret None
    else if TransactionIdDidCommit E xid
    then ret (Some zhtup)
    else ret None.

Inductive HTSU_Result :=
| HeapTupleMayBeUpdated
| HeapTupleInvisible
| HeapTupleSelfUpdated
| HeapTupleUpdated
| HeapTupleBeingUpdated
| HeapTupleWouldBlock.

(** What [ZHeapTupleSatisfiesUpdate] writes through its pointer arguments;
    [uo_ctid] is [None] when the caller passed a NULL [ctid]. *)
Record UpdateOutputs := mkUpdateOutputs {
  uo_ctid : option ItemPointerData;
  uo_xid : TransactionId;
  uo_cid : CommandId;
  uo_in_place_updated_or_locked : bool
}.

(** Lines 732-781 of [ZHeapTupleSatisfiesUpdate]: [*cid] is not written for a
    frozen slot. *)
Definition update_xact_info (fuel : nat) (zhtup : ZHeapTupleData)
    (buffer : Buffer) (cid : CommandId) : Run XactInfo :=
  let opaque := buffer in
  let tuple := t_data zhtup in
  if negb (ZHeapTupleHeaderGetXactSlot tuple =? ZHTUP_SLOT_FROZEN)
  then
    if flag_set (t_infomask tuple) ZHEAP_INVALID_XACT_SLOT
    then tuple_xact_info fuel zhtup
           (ZHeapTupleHeaderGetRawUndoPtr tuple opaque)
    else ret (mkXactInfo (ZHeapTupleHeaderGetRawXid tuple opaque)
                (ZHeapTupleGetCid E zhtup buffer)
                (ZHeapTupleHeaderGetRawUndoPtr tuple opaque))
  else ret (mkXactInfo InvalidTransactionId cid InvalidUndoRecPtr).

(** [ZHeapTupleSatisfiesUpdate] (lines 709-976). *)
Definition ZHeapTupleSatisfiesUpdate (fuel : nat) (zhtup : ZHeapTupleData)
    (curcid : CommandId) (buffer : Buffer) (out : UpdateOutputs)
    (free_zhtup lock_allowed : bool) (snapshot : SnapshotData)
    : Run (HTSU_Result * UpdateOutputs) :=
  let opaque := buffer in
  let tuple := t_data zhtup in
  let ctid := uo_ctid out in
  info <- update_xact_info fuel zhtup buffer (uo_cid out) ;;
  let xid := xi_xid info in
  let cid := xi_cid info in
  let urec_ptr := xi_urec_ptr info in
  let answer (r : HTSU_Result) (ctid : option ItemPointerData)
      (in_place_updated_or_locked : bool) :=
    ret (r, mkUpdateOutputs ctid xid cid in_place_updated_or_locked) in
  let probe_undo (urec_ptr : UndoRecPtr) (in_place_updated_or_locked : bool)
      (if_visible : HTSU_Result) :=
    v <- UndoTupleSatisfiesUpdate fuel urec_ptr zhtup curcid buffer ctid
           InvalidTransactionId free_zhtup in_place_updated_or_locked ;;
    match v with
    | (visible, ctid, in_place_updated_or_locked) =>
        if visible
        then answer if_visible ctid in_place_updated_or_locked
        else answer HeapTupleInvisible ctid in_place_updated_or_locked
    end in
  if deleted_or_updated tuple
  then
    if TransactionIdIsCurrentTransactionId E xid
    then
      if curcid <=? cid
      then probe_undo urec_ptr false HeapTupleSelfUpdated
      else answer HeapTupleInvisible ctid false
    else if TransactionIdIsInProgress E xid
    then probe_undo urec_ptr false HeapTupleBeingUpdated
    else if TransactionIdDidCommit E xid
    then
      ctid <- get_ctid_if_updated fuel zhtup buffer ctid ;;
      answer HeapTupleUpdated ctid false
    else
      probe_undo (ZHeapTupleHeaderGetRawUndoPtr tuple opaque) false
        HeapTupleMayBeUpdated
  else if inplace_updated_or_locked tuple
  then
    if all_visible tuple xid
    then answer HeapTupleMayBeUpdated ctid true
    else if TransactionIdIsCurrentTransactionId E xid
    then
      if ZHEAP_XID_IS_LOCKED_ONLY (t_infomask tuple)
      then answer HeapTupleBeingUpdated ctid true
      else if curcid <=? cid
      then probe_undo urec_ptr true HeapTupleSelfUpdated
      else answer HeapTupleMayBeUpdated ctid true
    else if TransactionIdIsInProgress E xid
    then probe_undo urec_ptr true HeapTupleBeingUpdated
    else if TransactionIdDidCommit E xid
    then
      if lock_allowed || negb (XidInMVCCSnapshot E xid snapshot)
      then answer HeapTupleMayBeUpdated ctid true
      else answer HeapTupleUpdated ctid true
    else probe_undo urec_ptr true HeapTupleMayBeUpdated
  else
    if all_visible tuple xid
    then answer HeapTupleMayBeUpdated ctid false
    else if TransactionIdIsCurrentTransactionId E xid
    then
      if curcid <=? cid
      then answer HeapTupleInvisible ctid false
      else answer HeapTupleMayBeUpdated ctid false
    else if TransactionIdIsInProgress E xid
    then answer HeapTupleInvisible ctid false
    else if TransactionIdDidCommit E xid
    then answer HeapTupleMayBeUpdated ctid false
    else answer HeapTupleInvisible ctid false.

(** [ZHeapTupleIsSurelyDead] (lines 983-1063). *)
Definition ZHeapTupleIsSurelyDead (fuel : nat) (zhtup : ZHeapTupleData)
    (OldestXmin : TransactionId) (buffer : Buffer) : Run bool :=
  let tuple := t_data zhtup in
  xid <- raw_xact_xid fuel zhtup buffer ;;
  if deleted_or_updated tuple
  then
    if all_visible tuple xid
    then ret true
    else ret false
  else ret false.

(** [ZHeapTupleSatisfiesDirty] (lines 1082-1263): the tuple or NULL, with
    the snapshot and the caller's [ctid] as the call leaves them. *)
Definition ZHeapTupleSatisfiesDirty (fuel : nat) (zhtup : ZHeapTupleData)
    (snapshot : SnapshotData) (buffer : Buffer)
    (ctid : option ItemPointerData)
    : Run (ZHeapTuple * SnapshotData * option ItemPointerData) :=
  let tuple := t_data zhtup in
  let snapshot :=
    mkSnapshot InvalidTransactionId InvalidTransactionId (curcid snapshot)
      0 (xip snapshot) in
  let set_xmax (s : SnapshotData) (xid : TransactionId) :=
    mkSnapshot (xmin s) xid (curcid s) (speculativeToken s) (xip s) in
  let set_xmin (s : SnapshotData) (xid : TransactionId) :=
    mkSnapshot xid (xmax s) (curcid s) (speculativeToken s) (xip s) in
  xid <- raw_xact_xid fuel zhtup buffer ;;
  if deleted_or_updated tuple
  then
    if TransactionIdIsCurrentTransactionId E xid
    then
      ctid <- get_ctid_if_updated fuel zhtup buffer ctid ;;
      ret (None, snapshot, ctid)
    else if TransactionIdIsInProgress E xid
    then ret (Some zhtup, set_xmax snapshot xid, ctid)
    else if TransactionIdDidCommit E xid
    then
      ctid <- get_ctid_if_updated fuel zhtup buffer ctid ;;
      ret (None, snapshot, ctid)
    else ret (None, snapshot, ctid)
  else if inplace_updated_or_locked tuple
  then
    if all_visible tuple xid
    then ret (Some zhtup, snapshot, ctid)
    else if TransactionIdIsCurrentTransactionId E xid
    then ret (Some zhtup, snapshot, ctid)
    else if TransactionIdIsInProgress E xid
    then
      if negb (ZHEAP_XID_IS_LOCKED_ONLY (t_infomask tuple))
      then ret (Some zhtup, set_xmax snapshot xid, ctid)
      else ret (Some zhtup, snapshot, ctid)
    else if TransactionIdDidCommit E xid
    then ret (Some zhtup, snapshot, ctid)
    else ret (None, snapshot, ctid)
  else
    if all_visible tuple xid
    then ret (Some zhtup, snapshot, ctid)
    else if TransactionIdIsCurrentTransactionId E xid
    then ret (Some zhtup, snapshot, ctid)
    else if TransactionIdIsInProgress E xid
    then ret (Some zhtup, set_xmin snapshot xid, ctid)
    else if TransactionIdDidCommit E xid
    then ret (Some zhtup, snapshot, ctid)
    else ret (None, snapshot, ctid).

(** [ZHeapTupleSatisfiesAny] (lines 1269-1274). *)
Definition ZHeapTupleSatisfiesAny (zhtup : ZHeapTupleData)
    (snapshot : SnapshotData) (buffer : Buffer)
    (ctid : option ItemPointerData) : ZHeapTuple :=
  Some zhtup.

End Walkers.

(** ** The vacuum predicate *)

Inductive HTSV_Result :=
| HEAPTUPLE_DEAD
| HEAPTUPLE_LIVE
| HEAPTUPLE_RECENTLY_DEAD
| HEAPTUPLE_INSERT_IN_PROGRESS
| HEAPTUPLE_DELETE_IN_PROGRESS.

Section OldestXmin.

Context (E : Collaborators).

(** Lines 1300-1350 of [ZHeapTupleSatisfiesOldestXmin]: the undo records are
    read only when the slot is not frozen and the xid of the slot does not
    precede the horizon; the result is what the code leaves in [*xid]. *)
Definition oldest_xmin_xact_xid (fuel : nat) (zhtup : ZHeapTupleData)
    (buffer : Buffer) : Run TransactionId :=
  let opaque := buffer in
  let tuple := t_data zhtup in
  if negb (ZHeapTupleHeaderGetXactSlot tuple =? ZHTUP_SLOT_FROZEN)
     && negb (TransactionIdPrecedes E
                (ZHeapTupleHeaderGetRawXid tuple opaque)
                (RecentGlobalXmin E))
  then
    if flag_set (t_infomask tuple) ZHEAP_INVALID_XACT_SLOT
    then
      info <- tuple_xact_info E fuel zhtup
                (ZHeapTupleHeaderGetRawUndoPtr tuple opaque) ;;
      ret (xi_xid info)
    else ret (ZHeapTupleHeaderGetRawXid tuple opaque)
  else if negb (ZHeapTupleHeaderGetXactSlot tuple =? ZHTUP_SLOT_FROZEN)
  then ret (ZHeapTupleHeaderGetRawXid tuple opaque)
  else ret InvalidTransactionId.

(** [ZHeapTupleSatisfiesOldestXmin] (lines 1281-1428): the verdict and the
    xid written through the [xid] argument. *)
Definition ZHeapTupleSatisfiesOldestXmin (fuel : nat)
    (zhtup : ZHeapTupleData) (OldestXmin : TransactionId) (buffer : Buffer)
    : Run (HTSV_Result * TransactionId) :=
  let tuple := t_data zhtup in
  xid <- oldest_xmin_xact_xid fuel zhtup buffer ;;
  if deleted_or_updated tuple
  then
    if all_visible E tuple xid
    then ret (HEAPTUPLE_DEAD, xid)
    else if TransactionIdIsCurrentTransactionId E xid
    then ret (HEAPTUPLE_DELETE_IN_PROGRESS, xid)
    else if TransactionIdIsInProgress E xid
    then ret (HEAPTUPLE_DELETE_IN_PROGRESS, xid)
    else if TransactionIdDidCommit E xid
    then
      if negb (TransactionIdPrecedes E xid OldestXmin)
      then ret (HEAPTUPLE_RECENTLY_DEAD, xid)
      else ret (HEAPTUPLE_DEAD, xid)
    else ret (HEAPTUPLE_LIVE, xid)
  else if flag_set (t_infomask tuple) ZHEAP_XID_LOCK_ONLY
  then ret (HEAPTUPLE_LIVE, xid)
  else
    if all_visible E tuple xid
    then ret (HEAPTUPLE_LIVE, xid)
    else if TransactionIdIsCurrentTransactionId E xid
    then ret (HEAPTUPLE_INSERT_IN_PROGRESS, xid)
    else if TransactionIdIsInProgress E xid
    then ret (HEAPTUPLE_INSERT_IN_PROGRESS, xid)
    else if TransactionIdDidCommit E xid
    then ret (HEAPTUPLE_LIVE, xid)
    else ret (HEAPTUPLE_DEAD, xid).

End OldestXmin.

(** ** Measures of a walk *)

(** The number of calls of [UndoFetchRecord] in a run. *)
Definition fetch_count {A} (r : Run A) : nat := length (fetches r).

(** The records of the undo chain that starts at [urec_ptr]: those met by
    following [uur_blkprev] until a record is discarded. *)
Fixpoint undo_chain (E : Collaborators) (fuel : nat) (urec_ptr : UndoRecPtr)
    (blk : BlockNumber) (off : OffsetNumber) : list UnpackedUndoRecord :=
  match fuel with
  | O => []
  | S fuel' =>
      match UndoFetchRecord E urec_ptr blk off InvalidTransactionId with
      | None => []
      | Some urec => urec :: undo_chain E fuel' (uur_blkprev urec) blk off
      end
  end.

Definition chain_length (E : Collaborators) (fuel : nat)
    (urec_ptr : UndoRecPtr) (zhtup : ZHeapTupleData) : nat :=
  length (undo_chain E fuel urec_ptr
            (ItemPointerGetBlockNumber (t_self zhtup))
            (ItemPointerGetOffsetNumber (t_self zhtup))).

Definition fetched_record (E : Collaborators) (c : FetchCall)
    : option UnpackedUndoRecord :=
  UndoFetchRecord E (fc_ptr c) (fc_blk c) (fc_off c) (fc_xid c).

Definition is_slot_invalidation (E : Collaborators) (c : FetchCall) : bool :=
  match fetched_record E c with
  | Some urec => undo_type_eqb (uur_type urec) UNDO_INVALID_XACT_SLOT
  | None => false
  end.

(** The slot-invalidation records that a run has met. *)
Definition slot_invalidations {A} (E : Collaborators) (r : Run A) : nat :=
  length (filter (is_slot_invalidation E) (fetches r)).

(** ** The undo chain of a tuple, as a walk follows it *)

(** Where a walk stands before a fetch: at the record of the next version
    (the label [fetch_undo_record] of the walkers, with the previous xid
    that the fetch is given), in the identity loop of a walker (with the
    xid captured before the loop), or in the loop that opens a predicate
    ([then_walk] says that the predicate starts a walk where the loop
    ends). *)
Inductive WalkPosition :=
| AtRecord (prev_undo_xid : TransactionId)
| InIdentityLoop (undo_tup_xid : TransactionId)
| InTupleLoop (then_walk : bool).

(** The tests [undo_oper == ZHEAP_INPLACE_UPDATED || undo_oper ==
    ZHEAP_XID_LOCK_ONLY] of lines 186-187 and 408-409: the undo tuple is the
    image before an in-place update or a lock, so that an older version may
    be looked for; otherwise it is the first version of the row. *)
Definition has_older_version (undo_tup : ZHeapTupleData) : bool :=
  (undo_operation undo_tup =? ZHEAP_INPLACE_UPDATED)
  || (undo_operation undo_tup =? ZHEAP_XID_LOCK_ONLY).

(** The records on the way of a walk once the record [urec] of a version
    of [zhtup] is read, [rest] counting from the next position: none when
    the undo tuple is all-visible (lines 182-184); those of the identity
    loop, entered at the pointer that lines 104-110 choose, when the undo
    tuple points to a reused slot; else those of the older versions, if
    there are any. *)
Definition chain_after_record (E : Collaborators) (buffer : Buffer)
    (rest : WalkPosition -> UndoRecPtr -> ZHeapTupleData -> nat)
    (urec : UnpackedUndoRecord) (zhtup : ZHeapTupleData) : nat :=
  let undo_tup := CopyTupleFromUndoRecord E urec zhtup in
  let next :=
    switch_undo_chain urec undo_tup
      (ZHeapTupleHeaderGetXactSlot (t_data zhtup)) buffer in
  let xid := uur_prevxid urec in
  if all_visible E (t_data undo_tup) xid
  then O
  else if flag_set (t_infomask (t_data undo_tup)) ZHEAP_INVALID_XACT_SLOT
  then rest (InIdentityLoop xid) next undo_tup
  else if has_older_version undo_tup
  then rest (AtRecord xid) next undo_tup
  else O.

(** The records on the way from a position, [rest] counting from the next
    one.  A discarded record ends the way.  At the record of a version a
    slot-reuse record is skipped along [uur_blkprev] (lines 74-80).  The
    identity loop of a walker goes along [uur_blkprev] up to a record whose
    prev xid precedes the horizon or to the slot-reuse record of the
    captured xid (lines 127-162), below which older versions may be looked
    for.  The loop of a predicate goes along [uur_blkprev] up to the first
    slot-reuse record (lines 539-570), where ZHeapTupleSatisfiesMVCC starts
    its walk unless the tuple is all-visible or a first version. *)
Definition walk_chain_step (E : Collaborators) (buffer : Buffer)
    (rest : WalkPosition -> UndoRecPtr -> ZHeapTupleData -> nat)
    (pos : WalkPosition) (urec_ptr : UndoRecPtr) (zhtup : ZHeapTupleData)
    : nat :=
  let blk := ItemPointerGetBlockNumber (t_self zhtup) in
  let off := ItemPointerGetOffsetNumber (t_self zhtup) in
  match pos with
  | AtRecord prev_undo_xid =>
      match UndoFetchRecord E urec_ptr blk off prev_undo_xid with
      | None => O
      | Some urec =>
          S (if undo_type_eqb (uur_type urec) UNDO_INVALID_XACT_SLOT
             then rest pos (uur_blkprev urec) zhtup
             else chain_after_record E buffer rest urec zhtup)
      end
  | InIdentityLoop undo_tup_xid =>
      match UndoFetchRecord E urec_ptr blk off InvalidTransactionId with
      | None => O
      | Some urec =>
          S (if TransactionIdPrecedes E (uur_prevxid urec)
                  (RecentGlobalXmin E)
             then O
             else if negb (undo_type_eqb (uur_type urec)
                             UNDO_INVALID_XACT_SLOT)
                     || negb (undo_tup_xid =? uur_prevxid urec)
             then rest pos (uur_blkprev urec) zhtup
             else if has_older_version zhtup
             then rest (AtRecord (uur_prevxid urec)) (uur_blkprev urec) zhtup
             else O)
      end
  | InTupleLoop then_walk =>
      match UndoFetchRecord E urec_ptr blk off InvalidTransactionId with
      | None => O
      | Some urec =>
          S (if negb (undo_type_eqb (uur_type urec) UNDO_INVALID_XACT_SLOT)
             then rest pos (uur_blkprev urec) zhtup
             else if then_walk
                     && negb (all_visible E (t_data zhtup) (uur_prevxid urec))
                     && (deleted_or_updated (t_data zhtup)
                         || inplace_updated_or_locked (t_data zhtup))
             then rest (AtRecord InvalidTransactionId) (uur_blkprev urec)
                    zhtup
             else O)
      end
  end.

(** The number of undo records on the way that a walk can go from a
    position, slot-invalidation records included, counted up to [fuel]:
    the chain is finite when the number stays below [fuel]. *)
Fixpoint walk_chain_length (E : Collaborators) (buffer : Buffer) (fuel : nat)
    : WalkPosition -> UndoRecPtr -> ZHeapTupleData -> nat :=
  match fuel with
  | O => fun _ _ _ => O
  | S fuel' => walk_chain_step E buffer (walk_chain_length E buffer fuel')
  end.

(** The records on the way of ZHeapTupleSatisfiesMVCC for the tuple [zhtup]
    of the page: none for a frozen slot; from the loop that resolves the
    identity when the tuple points to a reused slot; else from the record
    that the slot points to, unless the tuple is all-visible or a first
    version. *)
Definition mvcc_chain_length (E : Collaborators) (buffer : Buffer)
    (fuel : nat) (zhtup : ZHeapTupleData) : nat :=
  let tuple := t_data zhtup in
  let raw := ZHeapTupleHeaderGetRawUndoPtr tuple buffer in
  if ZHeapTupleHeaderGetXactSlot tuple =? ZHTUP_SLOT_FROZEN
  then O
  else if flag_set (t_infomask tuple) ZHEAP_INVALID_XACT_SLOT
  then walk_chain_length E buffer fuel (InTupleLoop true) raw zhtup
  else if negb (all_visible E tuple (ZHeapTupleHeaderGetRawXid tuple buffer))
          && (deleted_or_updated tuple || inplace_updated_or_locked tuple)
  then walk_chain_length E buffer fuel (AtRecord InvalidTransactionId) raw
         zhtup
  else O.

(** ** The identity loop of the walkers, fetch by fetch *)

(** The fetch [c] of the loop at lines 127-162 sends the loop round again:
    it found a record whose prev xid does not precede the horizon and that
    is not the slot-reuse record of the captured xid. *)
Definition identity_loop_continues (E : Collaborators)
    (undo_tup_xid : TransactionId) (c : FetchCall) : Prop :=
  exists urec,
    fetched_record E c = Some urec /\
    TransactionIdPrecedes E (uur_prevxid urec) (RecentGlobalXmin E) = false /\
    ~ (uur_type urec = UNDO_INVALID_XACT_SLOT /\
       uur_prevxid urec = undo_tup_xid).

(** The fetch [c] ends the loop with the identity [info]: the record is
    discarded, or its prev xid precedes the horizon - xid and cid are then
    invalid and the pointer stays where the fetch was made - or it is the
    slot-reuse record of the captured xid, whose xid, cid and blkprev are
    taken. *)
Definition identity_loop_exits (E : Collaborators)
    (undo_tup_xid : TransactionId) (c : FetchCall) (info : XactInfo) : Prop :=
  (fetched_record E c = None /\
   info = mkXactInfo InvalidTransactionId InvalidCommandId (fc_ptr c)) \/
  (exists urec,
     fetched_record E c = Some urec /\
     TransactionIdPrecedes E (uur_prevxid urec) (RecentGlobalXmin E) = true /\
     info = mkXactInfo InvalidTransactionId InvalidCommandId (fc_ptr c)) \/
  (exists urec,
     fetched_record E c = Some urec /\
     TransactionIdPrecedes E (uur_prevxid urec) (RecentGlobalXmin E) = false /\
     uur_type urec = UNDO_INVALID_XACT_SLOT /\
     uur_prevxid urec = undo_tup_xid /\
     info = mkXactInfo (uur_prevxid urec) (uur_cid urec) (uur_blkprev urec)).

(** The fetches [tr] start at [urec_ptr] and go from each record to its
    [uur_blkprev]. *)
Fixpoint along_blkprev (E : Collaborators) (urec_ptr : UndoRecPtr)
    (tr : list FetchCall) : Prop :=
  match tr with
  | [] => True
  | c :: tr' =>
      fc_ptr c = urec_ptr /\
      match fetched_record E c with
      | Some urec => along_blkprev E (uur_blkprev urec) tr'
      | None => tr' = []
      end
  end.

(** The first fetch of [tr], if there is one, is made at [urec_ptr]. *)
Definition first_fetch_at (urec_ptr : UndoRecPtr) (tr : list FetchCall)
    : Prop :=
  forall c, hd_error tr = Some c -> fc_ptr c = urec_ptr.

(** A run that ends - it returns or faults, the fuel was enough - after at
    most [n] fetches. *)
Definition ends_within {A} (n : nat) (r : Run A) : Prop :=
  result r <> OutOfFuel /\ (fetch_count r <= n)%nat.

(** The snapshot as [ZHeapTupleSatisfiesDirty] sets it on entry. *)
Definition dirty_entry (snapshot : SnapshotData) : SnapshotData :=
  mkSnapshot InvalidTransactionId InvalidTransactionId (curcid snapshot) 0
    (xip snapshot).

(** A transaction other than the current one that the transaction manager
    reports in progress: the [else if (TransactionIdIsInProgress(xid))] arm
    of the predicates. *)
Definition in_progress_elsewhere (E : Collaborators) (xid : TransactionId)
    : bool :=
  negb (TransactionIdIsCurrentTransactionId E xid)
  && TransactionIdIsInProgress E xid.

(** ** Notions for the properties of the predicates *)

(** The fetch [c] of the loop that opens the predicates (lines 539-570)
    sends the loop round again: it found a record that is not of the
    slot-reuse kind. *)
Definition tuple_loop_continues (E : Collaborators) (c : FetchCall) : Prop :=
  exists urec,
    fetched_record E c = Some urec /\
    uur_type urec <> UNDO_INVALID_XACT_SLOT.

(** The fetch [c] ends that loop with the identity [info]. *)
Definition tuple_loop_exits (E : Collaborators) (c : FetchCall)
    (info : XactInfo) : Prop :=
  (fetched_record E c = None /\
   info = mkXactInfo InvalidTransactionId InvalidCommandId (fc_ptr c)) \/
  (exists urec,
     fetched_record E c = Some urec /\
     uur_type urec = UNDO_INVALID_XACT_SLOT /\
     info = mkXactInfo (uur_prevxid urec) (uur_cid urec) (uur_blkprev urec)).

(** The fetch [c] was made for the tuple [zhtup] without a previous xid. *)
Definition fetch_for (zhtup : ZHeapTupleData) (c : FetchCall) : Prop :=
  fc_blk c = ItemPointerGetBlockNumber (t_self zhtup) /\
  fc_off c = ItemPointerGetOffsetNumber (t_self zhtup) /\
  fc_xid c = InvalidTransactionId.

(** The rule by which the MVCC code takes a version [tup] of identity
    [info] as visible without looking further: all-visible, or a change of
    the current transaction that is a lock or was made before the command
    of the snapshot, or the change of a committed transaction that the
    snapshot does not hold in progress.  [locked] says that the change is
    only a lock. *)
Definition visible_by_rule (E : Collaborators) (snapshot : SnapshotData)
    (tup : ZHeapTupleData) (locked : bool) (info : XactInfo) : Prop :=
  all_visible E (t_data tup) (xi_xid info) = true \/
  (TransactionIdIsCurrentTransactionId E (xi_xid info) = true /\
   (locked = true \/ xi_cid info < curcid snapshot)) \/
  (TransactionIdIsCurrentTransactionId E (xi_xid info) = false /\
   XidInMVCCSnapshot E (xi_xid info) snapshot = false /\
   TransactionIdDidCommit E (xi_xid info) = true).

(** A run of [GetTupleFromUndo] and a run of [UndoTupleSatisfiesUpdate]
    that made the same fetches and ended alike: a version found against
    true, NULL against false, a fault against a fault. *)
Definition walks_agree (walk : Run ZHeapTuple)
    (probe : Run (bool * option ItemPointerData * bool)) : Prop :=
  fetches probe = fetches walk /\
  match result walk, result probe with
  | Returned (Some _), Returned (visible, _, _) => visible = true
  | Returned None, Returned (visible, _, _) => visible = false
  | NullDereference, NullDereference => True
  | OutOfFuel, OutOfFuel => True
  | _, _ => False
  end.

(** What a run of [UndoTupleSatisfiesUpdate] keeps of the [ctid] and of
    the flag it was called with: a NULL [ctid] stays NULL, another one
    stays a pointer, and a flag that is set stays set. *)
Definition outputs_kept (ctid : option ItemPointerData) (flag : bool)
    (probe : Run (bool * option ItemPointerData * bool)) : Prop :=
  match result probe with
  | Returned (_, ctid', flag') =>
      (ctid = None <-> ctid' = None) /\ (flag = true -> flag' = true)
  | _ => True
  end.

(** A run of [ZHeapTupleSatisfiesMVCC] and a run of
    [ZHeapTupleSatisfiesUpdate] that made the same fetches and ended alike:
    a version against a verdict other than invisible, NULL against
    [HeapTupleInvisible], a fault against a fault. *)
Definition seen_agrees (seen : Run ZHeapTuple)
    (verdict : Run (HTSU_Result * UpdateOutputs)) : Prop :=
  fetches verdict = fetches seen /\
  match result seen, result verdict with
  | Returned (Some _), Returned (v, _) => v <> HeapTupleInvisible
  | Returned None, Returned (v, _) => v = HeapTupleInvisible
  | NullDereference, NullDereference => True
  | OutOfFuel, OutOfFuel => True
  | _, _ => False
  end.

(** The rule by which [GetTupleFromUndo] gives up at the first version of
    a row: inserted by the current transaction at or after the command of
    the snapshot, or by a transaction that the snapshot holds in progress,
    or by one that did not commit. *)
Definition hidden_by_rule (E : Collaborators) (snapshot : SnapshotData)
    (info : XactInfo) : Prop :=
  (TransactionIdIsCurrentTransactionId E (xi_xid info) = true /\
   curcid snapshot <= xi_cid info) \/
  (TransactionIdIsCurrentTransactionId E (xi_xid info) = false /\
   (XidInMVCCSnapshot E (xi_xid info) snapshot = true \/
    TransactionIdDidCommit E (xi_xid info) = false)).

(** The rule of [UndoTupleSatisfiesUpdate] (lines 405-433), which is
    [visible_by_rule] with the command id of the caller for the one of the
    snapshot and the transaction manager for the snapshot. *)
Definition visible_to_update (E : Collaborators) (curcid : CommandId)
    (tup : ZHeapTupleData) (locked : bool) (info : XactInfo) : Prop :=
  all_visible E (t_data tup) (xi_xid info) = true \/
  (TransactionIdIsCurrentTransactionId E (xi_xid info) = true /\
   (locked = true \/ xi_cid info < curcid)) \/
  (TransactionIdIsCurrentTransactionId E (xi_xid info) = false /\
   TransactionIdIsInProgress E (xi_xid info) = false /\
   TransactionIdDidCommit E (xi_xid info) = true).

(** How a step of [GetTupleFromUndo] ends once its undo tuple [undo_tup]
    has the identity [info], [tr] being the fetches made up to there: with
    the undo tuple when the identity makes it visible by rule; else with
    NULL when it is the first version of the row; else as the walk for the
    older versions does, which is started at the pointer of the identity
    with the xid of the identity as previous xid. *)
Definition walk_answer (E : Collaborators) (snapshot : SnapshotData)
    (buffer : Buffer) (fuel : nat) (undo_tup : ZHeapTupleData)
    (info : XactInfo) (tr : list FetchCall) (walk : Run ZHeapTuple) : Prop :=
  let rule :=
    visible_by_rule E snapshot undo_tup
      (undo_operation undo_tup =? ZHEAP_XID_LOCK_ONLY) info in
  let older :=
    GetTupleFromUndo E fuel (xi_urec_ptr info) undo_tup snapshot buffer
      (xi_xid info) in
  (rule /\ walk = (tr, Returned (Some undo_tup))) \/
  (~ rule /\ has_older_version undo_tup = false /\
   walk = (tr, Returned None)) \/
  (~ rule /\ has_older_version undo_tup = true /\
   walk = (tr ++ fetches older, result older)).

(** The same for a step of [UndoTupleSatisfiesUpdate], [ctid] and [flag]
    being what the step has put in [*ctid] and in
    [*in_place_updated_or_locked]. *)
Definition probe_answer (E : Collaborators) (curcid : CommandId)
    (buffer : Buffer) (fuel : nat) (undo_tup : ZHeapTupleData)
    (info : XactInfo) (ctid : option ItemPointerData) (flag : bool)
    (tr : list FetchCall)
    (probe : Run (bool * option ItemPointerData * bool)) : Prop :=
  let rule :=
    visible_to_update E curcid undo_tup
      (undo_operation undo_tup =? ZHEAP_XID_LOCK_ONLY) info in
  let older :=
    UndoTupleSatisfiesUpdate E fuel (xi_urec_ptr info) undo_tup curcid buffer
      ctid (xi_xid info) true flag in
  (rule /\ probe = (tr, Returned (true, ctid, flag))) \/
  (~ rule /\ has_older_version undo_tup = false /\
   probe = (tr, Returned (false, ctid, flag))) \/
  (~ rule /\ has_older_version undo_tup = true /\
   probe = (tr ++ fetches older, result older)).

(** ** Worlds for the examples *)

(** Modelled from the spec: TransactionIdPrecedes of transam.c, which is not
    among the sources: "totally ordered with wraparound-safe comparison".
    Ids below the first normal one compare as plain numbers, the others
    modulo 2^32. *)
Definition FirstNormalTransactionId : TransactionId := 3.

Definition wraparound_precedes (id1 id2 : TransactionId) : bool :=
  if (id1 <? FirstNormalTransactionId) || (id2 <? FirstNormalTransactionId)
  then id1 <? id2
  else 2147483648 <=? (id1 - id2) mod 4294967296.

Fixpoint log_lookup (log : list (UndoRecPtr * UnpackedUndoRecord))
    (urec_ptr : UndoRecPtr) : option UnpackedUndoRecord :=
  match log with
  | [] => None
  | (p, urec) :: log' =>
      if p =? urec_ptr then Some urec else log_lookup log' urec_ptr
  end.

Definition member (xid : TransactionId) (l : list TransactionId) : bool :=
  existsb (Z.eqb xid) l.

(** A world with horizon 100: the current transaction, the transactions in
    progress, the committed ones, and the undo log as a list of records by
    pointer.  Every other xid is aborted; the prior image of a record is its
    [uur_tuple] at the place of the tuple; the cid of a tuple is the one of
    the record its slot points to. *)
Definition world (current : TransactionId)
    (in_progress committed : list TransactionId)
    (log : list (UndoRecPtr * UnpackedUndoRecord)) : Collaborators :=
  {| RecentGlobalXmin := 100;
     TransactionIdPrecedes := wraparound_precedes;
     TransactionIdIsCurrentTransactionId := fun xid => xid =? current;
     TransactionIdIsInProgress := fun xid => member xid in_progress;
     TransactionIdDidCommit := fun xid => member xid committed;
     XidInMVCCSnapshot := fun xid snapshot => member xid (xip snapshot);
     UndoFetchRecord := fun urec_ptr _ _ _ => log_lookup log urec_ptr;
     CopyTupleFromUndoRecord := fun urec zhtup =>
       mkTuple (t_self zhtup) (t_tableOid zhtup) (uur_tuple urec);
     ZHeapTupleGetCid := fun zhtup buffer =>
       match log_lookup log
               (ZHeapTupleHeaderGetRawUndoPtr (t_data zhtup) buffer) with
       | Some urec => uur_cid urec
       | None => InvalidCommandId
       end |}.

(** A page whose slots all hold the same xid and undo pointer. *)
Definition page (xid : TransactionId) (urec_ptr : UndoRecPtr) : Buffer :=
  mkOpaque (fun _ => mkTransInfo xid urec_ptr).

(** A page with the two slots 1 and 2. *)
Definition page2 (xid1 : TransactionId) (ptr1 : UndoRecPtr)
    (xid2 : TransactionId) (ptr2 : UndoRecPtr) : Buffer :=
  mkOpaque (fun slot =>
    if slot =? 1 then mkTransInfo xid1 ptr1 else mkTransInfo xid2 ptr2).

Definition row (infomask slot : Z) : ZHeapTupleData :=
  mkTuple (mkItemPointer 1 1) 16384 (mkHeader infomask slot 0).

(** An undo log of three records for a row whose slot was reused: the
    slot-reuse record 11 keeps xid 170 of the in-place update whose prior
    image is in record 10, and record 9 is older. *)
Definition reused_slot_log : list (UndoRecPtr * UnpackedUndoRecord) :=
  [(11, mkUndoRecord UNDO_INVALID_XACT_SLOT 170 2 10 (mkItemPointer 0 0)
          (mkHeader 0 2 0));
   (10, mkUndoRecord UNDO_INPLACE_UPDATE 160 1 9 (mkItemPointer 0 0)
          (mkHeader 0 2 11));
   (9, mkUndoRecord UNDO_INSERT 160 1 0 (mkItemPointer 0 0)
         (mkHeader 0 2 10))].

(** The snapshot of the scenarios of the spec: command 5, xid 50 in flight. *)
Definition snapshot_S : SnapshotData := mkSnapshot 0 0 5 0 [50].

(** * Properties *)

(** ** Runs *)

Lemma bind_ret_l {A B} (a : A) (k : A -> Run B) : bind (ret a) k = k a.
Proof. unfold bind, ret. destruct (k a) as [tr o]. reflexivity. Qed.

Lemma bind_returned {A B} (tr : list FetchCall) (a : A) (k : A -> Run B) :
  bind (tr, Returned a) k = (tr ++ fetches (k a), result (k a)).
Proof. unfold bind. destruct (k a) as [tr' o]. reflexivity. Qed.

Lemma result_bind {A B} (m : Run A) (k : A -> Run B) :
  result (bind m k)
  = match result m with
    | Returned a => result (k a)
    | NullDereference => NullDereference
    | OutOfFuel => OutOfFuel
    end.
Proof.
  destruct m as [tr [a | | ]]; [rewrite bind_returned | | ]; reflexivity.
Qed.

Lemma fetches_bind {A B} (m : Run A) (k : A -> Run B) :
  fetches (bind m k)
  = match result m with
    | Returned a => fetches m ++ fetches (k a)
    | _ => fetches m
    end.
Proof.
  destruct m as [tr [a | | ]]; [rewrite bind_returned | | ]; reflexivity.
Qed.

Ltac finish_run :=
  repeat rewrite bind_returned; simpl; rewrite ?app_nil_r; try reflexivity.

Ltac split_decisions :=
  repeat match goal with
         | |- context [if ?b then _ else _] => destruct b
         end.

(** ** Identity of a frozen tuple *)

Section Frozen.

Context (E : Collaborators) (fuel : nat) (zhtup : ZHeapTupleData)
  (buffer : Buffer).
Hypothesis frozen :
  ZHeapTupleHeaderGetXactSlot (t_data zhtup) = ZHTUP_SLOT_FROZEN.

Lemma frozen_slot_test :
  (ZHeapTupleHeaderGetXactSlot (t_data zhtup) =? ZHTUP_SLOT_FROZEN) = true.
Proof. rewrite frozen. apply Z.eqb_refl. Qed.

Lemma mvcc_xact_info_frozen :
  mvcc_xact_info E fuel zhtup buffer
  = ret (mkXactInfo InvalidTransactionId InvalidCommandId InvalidUndoRecPtr).
Proof. unfold mvcc_xact_info. now rewrite frozen_slot_test. Qed.

Lemma raw_xact_xid_frozen :
  raw_xact_xid E fuel zhtup buffer = ret InvalidTransactionId.
Proof. unfold raw_xact_xid. now rewrite frozen_slot_test. Qed.

Lemma all_visible_frozen (xid : TransactionId) :
  all_visible E (t_data zhtup) xid = true.
Proof. unfold all_visible. now rewrite frozen_slot_test. Qed.

End Frozen.

(** C1, as the code has it: a tuple whose slot is frozen and whose infomask
    has neither DELETED nor UPDATED is returned by ZHeapTupleSatisfiesMVCC
    and ZHeapTupleSatisfiesDirty whatever the snapshot, without a fetch;
    ZHeapTupleSatisfiesAny returns every tuple; a frozen tuple with DELETED
    or UPDATED is all-visible dead, and ZHeapTupleSatisfiesMVCC returns NULL
    for it. *)
Theorem frozen_tuple_visible (E : Collaborators) (fuel : nat)
    (zhtup : ZHeapTupleData) (snapshot : SnapshotData) (buffer : Buffer)
    (ctid : option ItemPointerData) :
  ZHeapTupleHeaderGetXactSlot (t_data zhtup) = ZHTUP_SLOT_FROZEN ->
  ZHeapTupleSatisfiesAny zhtup snapshot buffer ctid = Some zhtup /\
  (deleted_or_updated (t_data zhtup) = false ->
   ZHeapTupleSatisfiesMVCC E fuel zhtup snapshot buffer ctid
   = ([], Returned (Some zhtup)) /\
   ZHeapTupleSatisfiesDirty E fuel zhtup snapshot buffer ctid
   = ([], Returned (Some zhtup, dirty_entry snapshot, ctid))) /\
  (deleted_or_updated (t_data zhtup) = true ->
   ZHeapTupleSatisfiesMVCC E fuel zhtup snapshot buffer ctid
   = ([], Returned None)).
Proof.
  intros frozen. split; [reflexivity | split]; intros class.
  - split.
    + unfold ZHeapTupleSatisfiesMVCC.
      rewrite mvcc_xact_info_frozen, bind_ret_l by assumption.
      rewrite class, all_visible_frozen by assumption.
      destruct (inplace_updated_or_locked (t_data zhtup)); reflexivity.
    + unfold ZHeapTupleSatisfiesDirty.
      rewrite raw_xact_xid_frozen, bind_ret_l by assumption.
      rewrite class, all_visible_frozen by assumption.
      destruct (inplace_updated_or_locked (t_data zhtup)); reflexivity.
  - unfold ZHeapTupleSatisfiesMVCC.
    rewrite mvcc_xact_info_frozen, bind_ret_l by assumption.
    rewrite class, all_visible_frozen by assumption.
    reflexivity.
Qed.

Lemma frozen_tuple_visible_witness :
  ZHeapTupleSatisfiesMVCC (world 150 [50] [30] []) 0
    (row ZHEAP_INPLACE_UPDATED 0) snapshot_S (page 50 7) None
  = ([], Returned (Some (row ZHEAP_INPLACE_UPDATED 0))).
Proof.
  apply (frozen_tuple_visible (world 150 [50] [30] []) 0
           (row ZHEAP_INPLACE_UPDATED 0) snapshot_S (page 50 7) None);
    reflexivity.
Defined.

(** C1, as stated, fails: a frozen tuple with DELETED set is not returned by
    ZHeapTupleSatisfiesMVCC, which answers NULL, nor by
    ZHeapTupleSatisfiesDirty on a build without assertions, where the
    invalid xid of the frozen slot is taken for an aborted one. *)
Lemma frozen_deleted_tuple_not_returned :
  let E := world 150 [50] [30] [] in
  let zhtup := row ZHEAP_DELETED ZHTUP_SLOT_FROZEN in
  ZHeapTupleHeaderGetXactSlot (t_data zhtup) = ZHTUP_SLOT_FROZEN
  /\ ZHeapTupleSatisfiesMVCC E 1 zhtup snapshot_S (page 50 7) None
     = ([], Returned None)
  /\ result (ZHeapTupleSatisfiesMVCC E 1 zhtup snapshot_S (page 50 7) None)
     <> Returned (Some zhtup)
  /\ ZHeapTupleSatisfiesDirty E 1 zhtup snapshot_S (page 50 7) None
     = ([], Returned (None, dirty_entry snapshot_S, None)).
Proof. repeat split. discriminate. Qed.

(** ** The identity loop of the walkers *)

Lemma undo_type_eqb_eq (a b : UndoRecType) :
  undo_type_eqb a b = true <-> a = b.
Proof. destruct a, b; simpl; split; congruence. Qed.

Lemma owner_boundary_test (urec : UnpackedUndoRecord)
    (undo_tup_xid : TransactionId) :
  negb (undo_type_eqb (uur_type urec) UNDO_INVALID_XACT_SLOT)
  || negb (undo_tup_xid =? uur_prevxid urec) = false <->
  uur_type urec = UNDO_INVALID_XACT_SLOT /\ uur_prevxid urec = undo_tup_xid.
Proof.
  rewrite orb_false_iff, !negb_false_iff, undo_type_eqb_eq, Z.eqb_eq.
  intuition congruence.
Qed.

(** The loop fetches along uur_blkprev, for the undo tuple and without a
    previous xid; it goes round again after every fetch but its last and
    ends at the first fetch that meets one of the three conditions.  It
    never reads through NULL. *)
Lemma undo_tuple_xact_info_exit (E : Collaborators) (fuel : nat)
    (undo_tup : ZHeapTupleData) (undo_tup_xid : TransactionId)
    (urec_ptr : UndoRecPtr) :
  let run := undo_tuple_xact_info E fuel undo_tup undo_tup_xid urec_ptr in
  along_blkprev E urec_ptr (fetches run) /\
  Forall (fetch_for undo_tup) (fetches run) /\
  match result run with
  | Returned info =>
      exists before c,
        fetches run = before ++ [c] /\
        Forall (identity_loop_continues E undo_tup_xid) before /\
        identity_loop_exits E undo_tup_xid c info
  | OutOfFuel =>
      Forall (identity_loop_continues E undo_tup_xid) (fetches run) /\
      length (fetches run) = fuel
  | NullDereference => False
  end.
Proof.
  intros run. subst run.
  split; [ | split ].
  - revert urec_ptr.
    induction fuel as [ | fuel IH ]; intros urec_ptr; [ exact I | ].
    cbn [undo_tuple_xact_info]. unfold fetch. rewrite bind_returned.
    cbn [fetches fst app along_blkprev fc_ptr].
    split; [ reflexivity | ].
    unfold fetched_record. cbn [fc_ptr fc_blk fc_off fc_xid].
    destruct (UndoFetchRecord E urec_ptr _ _ _) as [urec | ];
      [ | reflexivity ].
    destruct (TransactionIdPrecedes E _ _); [ exact I | ].
    destruct (_ || _); [ apply IH | exact I ].
  - revert urec_ptr.
    induction fuel as [ | fuel IH ]; intros urec_ptr; [ constructor | ].
    cbn [undo_tuple_xact_info]. unfold fetch. rewrite bind_returned.
    cbn [fetches fst app].
    constructor; [ now repeat split | ].
    destruct (UndoFetchRecord E urec_ptr _ _ _) as [urec | ];
      [ | constructor ].
    destruct (TransactionIdPrecedes E _ _); [ constructor | ].
    destruct (_ || _); [ apply IH | constructor ].
  - revert urec_ptr.
    induction fuel as [ | fuel IH ]; intros urec_ptr.
    { simpl. split; [ constructor | reflexivity ]. }
    cbn [undo_tuple_xact_info]. unfold fetch. rewrite bind_returned.
    cbn [fetches result fst snd app].
    set (c := mkFetch urec_ptr _ _ _).
    destruct (UndoFetchRecord E urec_ptr _ _ _) as [urec | ] eqn:got.
    + destruct (TransactionIdPrecedes E _ _) eqn:horizon.
      * exists [], c. repeat split; [ constructor | ].
        right; left. exists urec. repeat split; assumption.
      * destruct (_ || _) eqn:round.
        -- assert (again : identity_loop_continues E undo_tup_xid c).
           { exists urec. repeat split; try assumption.
             intros boundary. apply owner_boundary_test in boundary.
             congruence. }
           specialize (IH (uur_blkprev urec)).
           destruct (undo_tuple_xact_info E fuel undo_tup undo_tup_xid
                       (uur_blkprev urec)) as [tr [info | | ]];
             cbn [fetches result fst snd] in *.
           ++ destruct IH as [before [c' [-> [rounds last]]]].
              exists (c :: before), c'. repeat split; auto.
           ++ exact IH.
           ++ destruct IH as [rounds used]. split; [ auto | ].
              simpl. now rewrite used.
        -- apply owner_boundary_test in round as [kind owner].
           exists [], c. repeat split; [ constructor | ].
           right; right. exists urec. repeat split; assumption.
    + exists [], c. repeat split; [ constructor | ].
      left. split; [ assumption | reflexivity ].
Qed.

(** ** The decision of a step *)

Ltac decide_by_rule :=
  repeat match goal with
         | |- context [if ?b then _ else _] => destruct b eqn:?
         end;
  repeat match goal with
         | H : (_ <=? _) = true |- _ => apply Z.leb_le in H
         | H : (_ <=? _) = false |- _ => apply Z.leb_gt in H
         end;
  cbn [ret fetches result fst snd];
  rewrite ?app_nil_r, ?app_assoc;
  first
    [ left; split;
      [ solve [ intuition (try congruence; try lia) ] | reflexivity ]
    | right; left; split;
      [ solve [ intuition (try congruence; try lia) ]
      | split; reflexivity ]
    | right; right; split;
      [ solve [ intuition (try congruence; try lia) ]
      | split; reflexivity ] ].

(** A step of GetTupleFromUndo decides by the identity that lines 112-175
    resolved for its undo tuple. *)
Lemma GetTupleFromUndo_step (E : Collaborators) (snapshot : SnapshotData)
    (buffer : Buffer) (fuel : nat) (urec_ptr : UndoRecPtr)
    (zhtup : ZHeapTupleData) (prev_undo_xid : TransactionId)
    (tr1 tr2 : list FetchCall) (urec : UnpackedUndoRecord)
    (info : XactInfo) :
  fetch_undo_record E (S fuel) urec_ptr zhtup prev_undo_xid
  = (tr1, Returned urec) ->
  let undo_tup := CopyTupleFromUndoRecord E urec zhtup in
  resolve_undo_tuple E (S fuel) undo_tup (uur_prevxid urec)
    (switch_undo_chain urec undo_tup
       (ZHeapTupleHeaderGetXactSlot (t_data zhtup)) buffer) buffer
  = (tr2, Returned info) ->
  walk_answer E snapshot buffer fuel undo_tup info (tr1 ++ tr2)
    (GetTupleFromUndo E (S fuel) urec_ptr zhtup snapshot buffer
       prev_undo_xid).
Proof.
  intros read undo_tup resolved.
  cbn [GetTupleFromUndo]. rewrite read, bind_returned.
  fold undo_tup. rewrite resolved, bind_returned.
  cbn [fetches result fst snd].
  unfold walk_answer, visible_by_rule, has_older_version, all_visible.
  decide_by_rule.
Qed.

(** So does a step of UndoTupleSatisfiesUpdate, which has by then written
    the caller's ctid and flag (lines 300-323). *)
Lemma UndoTupleSatisfiesUpdate_step (E : Collaborators) (curcid : CommandId)
    (buffer : Buffer) (fuel : nat) (urec_ptr : UndoRecPtr)
    (zhtup : ZHeapTupleData) (ctid : option ItemPointerData)
    (prev_undo_xid : TransactionId) (free_zhtup flag : bool)
    (tr1 tr2 : list FetchCall) (urec : UnpackedUndoRecord)
    (info : XactInfo) :
  fetch_undo_record E (S fuel) urec_ptr zhtup prev_undo_xid
  = (tr1, Returned urec) ->
  let undo_tup := CopyTupleFromUndoRecord E urec zhtup in
  resolve_undo_tuple E (S fuel) undo_tup (uur_prevxid urec)
    (switch_undo_chain urec undo_tup
       (ZHeapTupleHeaderGetXactSlot (t_data zhtup)) buffer) buffer
  = (tr2, Returned info) ->
  let ctid' :=
    match ctid with
    | Some _ =>
        if undo_type_eqb (uur_type urec) UNDO_UPDATE
        then Some (uur_payload urec)
        else Some (t_self undo_tup)
    | None => None
    end in
  let flag' := if has_older_version undo_tup then true else flag in
  probe_answer E curcid buffer fuel undo_tup info ctid' flag' (tr1 ++ tr2)
    (UndoTupleSatisfiesUpdate E (S fuel) urec_ptr zhtup curcid buffer ctid
       prev_undo_xid free_zhtup flag).
Proof.
  intros read undo_tup resolved ctid' flag'.
  cbn [UndoTupleSatisfiesUpdate]. rewrite read, bind_returned.
  fold undo_tup. fold ctid'. rewrite resolved, bind_returned.
  cbn [fetches result fst snd].
  unfold probe_answer, visible_to_update, all_visible.
  subst flag'. unfold has_older_version. clearbody ctid'.
  decide_by_rule.
Qed.

(** C2, as the code has it.  In a step of GetTupleFromUndo and of
    UndoTupleSatisfiesUpdate whose undo tuple has a slot that is not
    frozen, an xid that does not precede RecentGlobalXmin and
    INVALID_XACT_SLOT set, the identity loop fetches along uur_blkprev from
    the pointer chosen at lines 104-110, for the undo tuple and without a
    previous xid; it goes round again after every fetch but its last, and
    ends at the first fetch that finds the record discarded, or a prev xid
    preceding RecentGlobalXmin - in both cases xid and cid become invalid
    and the pointer stays the one of that fetch - or a slot-reuse record
    whose prev xid is the xid captured before the loop, whose xid, cid and
    uur_blkprev are taken.  The identity so resolved is the one the step
    decides by: the undo tuple is the answer when the identity makes it
    visible by rule; otherwise the answer is NULL (false) at a first
    version, and at an in-place update or a lock it is the answer of the
    walk started at the pointer of the identity with the xid of the
    identity as previous xid.  The loop never reads through NULL; when it
    uses up the fuel, so does the step. *)
Theorem identity_loop_exit (E : Collaborators) (fuel : nat)
    (urec_ptr : UndoRecPtr) (zhtup : ZHeapTupleData)
    (snapshot : SnapshotData) (buffer : Buffer)
    (prev_undo_xid : TransactionId) (curcid : CommandId)
    (ctid : option ItemPointerData) (free_zhtup flag : bool)
    (tr : list FetchCall) (urec : UnpackedUndoRecord) :
  fetch_undo_record E (S fuel) urec_ptr zhtup prev_undo_xid
  = (tr, Returned urec) ->
  let undo_tup := CopyTupleFromUndoRecord E urec zhtup in
  let undo_tup_xid := uur_prevxid urec in
  let start :=
    switch_undo_chain urec undo_tup
      (ZHeapTupleHeaderGetXactSlot (t_data zhtup)) buffer in
  ZHeapTupleHeaderGetXactSlot (t_data undo_tup) <> ZHTUP_SLOT_FROZEN ->
  TransactionIdPrecedes E undo_tup_xid (RecentGlobalXmin E) = false ->
  flag_set (t_infomask (t_data undo_tup)) ZHEAP_INVALID_XACT_SLOT = true ->
  let loop := undo_tuple_xact_info E (S fuel) undo_tup undo_tup_xid start in
  let walk :=
    GetTupleFromUndo E (S fuel) urec_ptr zhtup snapshot buffer
      prev_undo_xid in
  let probe :=
    UndoTupleSatisfiesUpdate E (S fuel) urec_ptr zhtup curcid buffer ctid
      prev_undo_xid free_zhtup flag in
  let ctid' :=
    match ctid with
    | Some _ =>
        if undo_type_eqb (uur_type urec) UNDO_UPDATE
        then Some (uur_payload urec)
        else Some (t_self undo_tup)
    | None => None
    end in
  let flag' := if has_older_version undo_tup then true else flag in
  along_blkprev E start (fetches loop) /\
  Forall (fetch_for undo_tup) (fetches loop) /\
  match result loop with
  | Returned info =>
      (exists before c,
         fetches loop = before ++ [c] /\
         Forall (identity_loop_continues E undo_tup_xid) before /\
         identity_loop_exits E undo_tup_xid c info) /\
      walk_answer E snapshot buffer fuel undo_tup info
        (tr ++ fetches loop) walk /\
      probe_answer E curcid buffer fuel undo_tup info ctid' flag'
        (tr ++ fetches loop) probe
  | OutOfFuel =>
      Forall (identity_loop_continues E undo_tup_xid) (fetches loop) /\
      length (fetches loop) = S fuel /\
      walk = (tr ++ fetches loop, OutOfFuel) /\
      probe = (tr ++ fetches loop, OutOfFuel)
  | NullDereference => False
  end.
Proof.
  intros read undo_tup undo_tup_xid start valid recent reused loop walk probe
    ctid' flag'.
  assert (resolved :
    resolve_undo_tuple E (S fuel) undo_tup undo_tup_xid start buffer = loop).
  { unfold resolve_undo_tuple. apply Z.eqb_neq in valid.
    now rewrite valid, recent, reused. }
  destruct (undo_tuple_xact_info_exit E (S fuel) undo_tup undo_tup_xid start)
    as [along [asked ended]].
  fold loop in along, asked, ended.
  split; [ exact along | split; [ exact asked | ] ].
  destruct loop as [tr2 [info | | ]] eqn:ran;
    cbn [fetches result fst snd] in *.
  - split; [ exact ended | split ].
    + exact (GetTupleFromUndo_step E snapshot buffer fuel urec_ptr zhtup
               prev_undo_xid tr tr2 urec info read resolved).
    + exact (UndoTupleSatisfiesUpdate_step E curcid buffer fuel urec_ptr
               zhtup ctid prev_undo_xid free_zhtup flag tr tr2 urec info
               read resolved).
  - contradiction.
  - destruct ended as [rounds used].
    split; [ exact rounds | split; [ exact used | ] ].
    subst walk probe.
    cbn [GetTupleFromUndo UndoTupleSatisfiesUpdate].
    rewrite read, !bind_returned. fold undo_tup. fold undo_tup_xid.
    fold start. rewrite resolved.
    split; reflexivity.
Qed.

Lemma identity_loop_exit_witness :
  let E :=
    world 150 [50] [30; 170]
      [(5, mkUndoRecord UNDO_INPLACE_UPDATE 170 1 3 (mkItemPointer 0 0)
             (mkHeader (ZHEAP_INVALID_XACT_SLOT + ZHEAP_INPLACE_UPDATED) 2
                11));
       (3, mkUndoRecord UNDO_INPLACE_UPDATE 160 1 2 (mkItemPointer 0 0)
             (mkHeader 0 2 11));
       (2, mkUndoRecord UNDO_INVALID_XACT_SLOT 170 4 1 (mkItemPointer 0 0)
             (mkHeader 0 2 11))] in
  let undo_tup :=
    mkTuple (mkItemPointer 1 1) 16384
      (mkHeader (ZHEAP_INVALID_XACT_SLOT + ZHEAP_INPLACE_UPDATED) 2 11) in
  (exists before c,
     [mkFetch 3 1 1 0; mkFetch 2 1 1 0] = before ++ [c] /\
     Forall (identity_loop_continues E 170) before /\
     identity_loop_exits E 170 c (mkXactInfo 170 4 1)) /\
  walk_answer E snapshot_S (page 180 5) 3 undo_tup (mkXactInfo 170 4 1)
    ([mkFetch 5 1 1 0] ++ [mkFetch 3 1 1 0; mkFetch 2 1 1 0])
    (GetTupleFromUndo E 4 5 (row ZHEAP_INPLACE_UPDATED 2) snapshot_S
       (page 180 5) 0) /\
  probe_answer E 5 (page 180 5) 3 undo_tup (mkXactInfo 170 4 1) None true
    ([mkFetch 5 1 1 0] ++ [mkFetch 3 1 1 0; mkFetch 2 1 1 0])
    (UndoTupleSatisfiesUpdate E 4 5 (row ZHEAP_INPLACE_UPDATED 2) 5
       (page 180 5) None 0 true false).
Proof.
  intros E undo_tup.
  refine (proj2 (proj2 (identity_loop_exit E 3 5
                          (row ZHEAP_INPLACE_UPDATED 2) snapshot_S
                          (page 180 5) 0 5 None true false
                          [mkFetch 5 1 1 0]
                          (mkUndoRecord UNDO_INPLACE_UPDATE 170 1 3
                             (mkItemPointer 0 0)
                             (mkHeader (ZHEAP_INVALID_XACT_SLOT
                                        + ZHEAP_INPLACE_UPDATED) 2 11))
                          eq_refl _ eq_refl eq_refl)));
    discriminate.
Defined.

(** C2, as stated, fails where the loop ends on the horizon: the last
    record fetched, at pointer 2, has xid 30, cid 4 and uur_blkprev 1, and
    the identity that the step decides by is the invalid xid, the invalid
    cid and the pointer 2 of the fetch; the undo tuple is then taken as
    all-visible. *)
Lemma horizon_exit_keeps_the_pointer :
  let E :=
    world 150 [50] [30; 170]
      [(5, mkUndoRecord UNDO_INPLACE_UPDATE 170 1 3 (mkItemPointer 0 0)
             (mkHeader (ZHEAP_INVALID_XACT_SLOT + ZHEAP_INPLACE_UPDATED) 2
                11));
       (3, mkUndoRecord UNDO_INPLACE_UPDATE 160 1 2 (mkItemPointer 0 0)
             (mkHeader 0 2 11));
       (2, mkUndoRecord UNDO_INVALID_XACT_SLOT 30 4 1 (mkItemPointer 0 0)
             (mkHeader 0 2 11))] in
  let undo_tup :=
    mkTuple (mkItemPointer 1 1) 16384
      (mkHeader (ZHEAP_INVALID_XACT_SLOT + ZHEAP_INPLACE_UPDATED) 2 11) in
  let last := mkUndoRecord UNDO_INVALID_XACT_SLOT 30 4 1 (mkItemPointer 0 0)
                (mkHeader 0 2 11) in
  let info := mkXactInfo InvalidTransactionId InvalidCommandId 2 in
  flag_set (t_infomask (t_data undo_tup)) ZHEAP_INVALID_XACT_SLOT = true
  /\ TransactionIdPrecedes E 170 (RecentGlobalXmin E) = false
  /\ undo_tuple_xact_info E 4 undo_tup 170 3
     = ([mkFetch 3 1 1 0; mkFetch 2 1 1 0], Returned info)
  /\ fetched_record E (mkFetch 2 1 1 0) = Some last
  /\ info <> mkXactInfo (uur_prevxid last) (uur_cid last) (uur_blkprev last)
  /\ xi_urec_ptr info <> uur_blkprev last
  /\ GetTupleFromUndo E 4 5 (row ZHEAP_INPLACE_UPDATED 2) snapshot_S
       (page 180 5) 0
     = ([mkFetch 5 1 1 0; mkFetch 3 1 1 0; mkFetch 2 1 1 0],
        Returned (Some undo_tup)).
Proof. repeat split; discriminate. Qed.

(** The loop of the witness inside a step of GetTupleFromUndo: record 5 gives
    an undo tuple of xid 170 stamped with a reused slot; the loop passes the
    in-place update record 3 and stops at the slot-reuse record 2 of xid
    170, which committed, so the undo tuple is the visible version. *)
Example identity_loop_walk :
  GetTupleFromUndo
    (world 150 [50] [30; 170]
       [(5, mkUndoRecord UNDO_INPLACE_UPDATE 170 1 3 (mkItemPointer 0 0)
              (mkHeader (ZHEAP_INVALID_XACT_SLOT + ZHEAP_INPLACE_UPDATED) 2
                 11));
        (3, mkUndoRecord UNDO_INPLACE_UPDATE 160 1 2 (mkItemPointer 0 0)
              (mkHeader 0 2 11));
        (2, mkUndoRecord UNDO_INVALID_XACT_SLOT 170 4 1 (mkItemPointer 0 0)
              (mkHeader 0 2 11))])
    4 5 (row ZHEAP_INPLACE_UPDATED 2) snapshot_S (page 180 5) 0
  = ([mkFetch 5 1 1 0; mkFetch 3 1 1 0; mkFetch 2 1 1 0],
     Returned (Some (mkTuple (mkItemPointer 1 1) 16384
                       (mkHeader (ZHEAP_INVALID_XACT_SLOT
                                  + ZHEAP_INPLACE_UPDATED) 2 11)))).
Proof. reflexivity. Qed.

(** ** A discarded first record *)

(** C3 fails on the code: when the first fetch of a walk finds its record
    discarded, GetTupleFromUndo and UndoTupleSatisfiesUpdate read
    [urec->uur_type] through the NULL pointer; no answer is produced. *)
Theorem discarded_first_record_faults (E : Collaborators) (fuel : nat)
    (urec_ptr : UndoRecPtr) (zhtup : ZHeapTupleData)
    (snapshot : SnapshotData) (buffer : Buffer)
    (prev_undo_xid : TransactionId) (curcid : CommandId)
    (ctid : option ItemPointerData) (free_zhtup flag : bool) :
  UndoFetchRecord E urec_ptr
    (ItemPointerGetBlockNumber (t_self zhtup))
    (ItemPointerGetOffsetNumber (t_self zhtup)) prev_undo_xid = None ->
  let first_fetch :=
    mkFetch urec_ptr (ItemPointerGetBlockNumber (t_self zhtup))
      (ItemPointerGetOffsetNumber (t_self zhtup)) prev_undo_xid in
  GetTupleFromUndo E (S fuel) urec_ptr zhtup snapshot buffer prev_undo_xid
  = ([first_fetch], NullDereference) /\
  UndoTupleSatisfiesUpdate E (S fuel) urec_ptr zhtup curcid buffer ctid
    prev_undo_xid free_zhtup flag
  = ([first_fetch], NullDereference).
Proof.
  intros discarded first_fetch.
  assert (fault :
    fetch_undo_record E (S fuel) urec_ptr zhtup prev_undo_xid
    = ([first_fetch], NullDereference)).
  { cbn [fetch_undo_record]. unfold fetch.
    rewrite bind_returned, discarded. reflexivity. }
  split.
  - cbn [GetTupleFromUndo]. rewrite fault. reflexivity.
  - cbn [UndoTupleSatisfiesUpdate]. rewrite fault. reflexivity.
Qed.

Lemma discarded_first_record_faults_witness :
  GetTupleFromUndo (world 150 [120] [30] []) 2 7 (row ZHEAP_DELETED 2)
    (mkSnapshot 0 0 5 0 [120]) (page 120 7) 0
  = ([mkFetch 7 1 1 0], NullDereference).
Proof.
  exact (proj1 (discarded_first_record_faults (world 150 [120] [30] []) 1
                  7 (row ZHEAP_DELETED 2) (mkSnapshot 0 0 5 0 [120])
                  (page 120 7) 0 5 None true false eq_refl)).
Defined.

(** The same input reached through ZHeapTupleSatisfiesMVCC: xid 120
    deleted the tuple and is in the snapshot, the slot points to undo record
    7, and that record is discarded. *)
Example mvcc_discarded_undo_faults :
  ZHeapTupleSatisfiesMVCC (world 150 [120] [30] []) 2 (row ZHEAP_DELETED 2)
    (mkSnapshot 0 0 5 0 [120]) (page 120 7) None
  = ([mkFetch 7 1 1 0], NullDereference).
Proof. reflexivity. Qed.

(** ** Where a walk fetches next *)

Section FirstFetch.

Context (E : Collaborators).

Lemma first_fetch_at_nil (p : UndoRecPtr) : first_fetch_at p [].
Proof. intros c absurd. discriminate. Qed.

Lemma first_fetch_at_app (p : UndoRecPtr) (tr1 tr2 : list FetchCall) :
  first_fetch_at p tr1 ->
  (tr1 = [] -> first_fetch_at p tr2) ->
  first_fetch_at p (tr1 ++ tr2).
Proof.
  intros first1 first2. destruct tr1 as [ | c tr1 ]; [ now apply first2 | ].
  exact first1.
Qed.

Lemma first_fetch_at_bind {A B} (p : UndoRecPtr) (m : Run A)
    (k : A -> Run B) :
  first_fetch_at p (fetches m) ->
  (forall a, m = ([], Returned a) -> first_fetch_at p (fetches (k a))) ->
  first_fetch_at p (fetches (bind m k)).
Proof.
  intros first1 first2. rewrite fetches_bind.
  destruct m as [tr [a | | ]]; cbn [result fetches fst snd] in *; auto.
  apply first_fetch_at_app; [ assumption | ].
  intros ->. now apply first2.
Qed.

Lemma fetch_first (p : UndoRecPtr) (blk : BlockNumber) (off : OffsetNumber)
    (xid : TransactionId) :
  first_fetch_at p (fetches (fetch E p blk off xid)).
Proof. intros c got. injection got as <-. reflexivity. Qed.

Lemma fetch_undo_record_first (fuel : nat) (p : UndoRecPtr)
    (zhtup : ZHeapTupleData) (xid : TransactionId) :
  first_fetch_at p (fetches (fetch_undo_record E fuel p zhtup xid)).
Proof.
  destruct fuel as [ | fuel ]; [ apply first_fetch_at_nil | ].
  cbn [fetch_undo_record]. apply first_fetch_at_bind.
  - apply fetch_first.
  - discriminate.
Qed.

Lemma fetch_undo_record_not_silent (fuel : nat) (p : UndoRecPtr)
    (zhtup : ZHeapTupleData) (xid : TransactionId)
    (urec : UnpackedUndoRecord) :
  fetch_undo_record E fuel p zhtup xid <> ([], Returned urec).
Proof.
  destruct fuel as [ | fuel ]; [ discriminate | ].
  cbn [fetch_undo_record]. unfold fetch. rewrite bind_returned.
  discriminate.
Qed.

Lemma undo_tuple_xact_info_first (fuel : nat) (undo_tup : ZHeapTupleData)
    (xid : TransactionId) (p : UndoRecPtr) :
  first_fetch_at p (fetches (undo_tuple_xact_info E fuel undo_tup xid p)).
Proof.
  destruct fuel as [ | fuel ]; [ apply first_fetch_at_nil | ].
  cbn [undo_tuple_xact_info]. apply first_fetch_at_bind.
  - apply fetch_first.
  - discriminate.
Qed.

Lemma undo_tuple_xact_info_not_silent (fuel : nat)
    (undo_tup : ZHeapTupleData) (xid : TransactionId) (p : UndoRecPtr)
    (info : XactInfo) :
  undo_tuple_xact_info E fuel undo_tup xid p <> ([], Returned info).
Proof.
  destruct fuel as [ | fuel ]; [ discriminate | ].
  cbn [undo_tuple_xact_info]. unfold fetch. rewrite bind_returned.
  discriminate.
Qed.

Lemma resolve_undo_tuple_first (fuel : nat) (undo_tup : ZHeapTupleData)
    (xid : TransactionId) (p : UndoRecPtr) (buffer : Buffer) :
  first_fetch_at p (fetches (resolve_undo_tuple E fuel undo_tup xid p buffer))
  /\ forall info,
       resolve_undo_tuple E fuel undo_tup xid p buffer = ([], Returned info)
       -> xi_urec_ptr info = p.
Proof.
  unfold resolve_undo_tuple.
  destruct (_ && _); [ destruct (flag_set _ _) | ].
  - split; [ apply undo_tuple_xact_info_first | ].
    intros info silent. now apply undo_tuple_xact_info_not_silent in silent.
  - split; [ apply first_fetch_at_nil | ].
    intros info silent. now inversion silent.
  - split; [ apply first_fetch_at_nil | ].
    intros info silent. now inversion silent.
Qed.

Ltac walker_first_fetch :=
  apply first_fetch_at_bind;
  [ apply fetch_undo_record_first
  | intros urec silent; now apply fetch_undo_record_not_silent in silent ].

Lemma GetTupleFromUndo_first (fuel : nat) (p : UndoRecPtr)
    (zhtup : ZHeapTupleData) (snapshot : SnapshotData) (buffer : Buffer)
    (xid : TransactionId) :
  first_fetch_at p
    (fetches (GetTupleFromUndo E fuel p zhtup snapshot buffer xid)).
Proof.
  destruct fuel as [ | fuel ]; [ apply first_fetch_at_nil | ].
  cbn [GetTupleFromUndo]. walker_first_fetch.
Qed.

Lemma UndoTupleSatisfiesUpdate_first (fuel : nat) (p : UndoRecPtr)
    (zhtup : ZHeapTupleData) (curcid : CommandId) (buffer : Buffer)
    (ctid : option ItemPointerData) (xid : TransactionId)
    (free_zhtup flag : bool) :
  first_fetch_at p
    (fetches (UndoTupleSatisfiesUpdate E fuel p zhtup curcid buffer ctid xid
                free_zhtup flag)).
Proof.
  destruct fuel as [ | fuel ]; [ apply first_fetch_at_nil | ].
  cbn [UndoTupleSatisfiesUpdate]. walker_first_fetch.
Qed.

End FirstFetch.

(** C4: in a step of GetTupleFromUndo and of UndoTupleSatisfiesUpdate, when
    the undo tuple built from the record just read has a slot that is not
    frozen and differs from the slot of the tuple the step started from, the
    next fetch of the walk, whether made by the identity loop or by the next
    step, is made at the undo pointer that the page keeps for the undo
    tuple's slot, whatever the uur_blkprev of the record. *)
Theorem slot_switch_next_fetch (E : Collaborators) (fuel : nat)
    (urec_ptr : UndoRecPtr) (zhtup : ZHeapTupleData)
    (snapshot : SnapshotData) (buffer : Buffer)
    (prev_undo_xid : TransactionId) (curcid : CommandId)
    (ctid : option ItemPointerData) (free_zhtup flag : bool)
    (tr : list FetchCall) (urec : UnpackedUndoRecord) :
  fetch_undo_record E fuel urec_ptr zhtup prev_undo_xid
  = (tr, Returned urec) ->
  let undo_tup := CopyTupleFromUndoRecord E urec zhtup in
  let slot_ptr := ZHeapTupleHeaderGetRawUndoPtr (t_data undo_tup) buffer in
  ZHeapTupleHeaderGetXactSlot (t_data undo_tup) <> ZHTUP_SLOT_FROZEN ->
  ZHeapTupleHeaderGetXactSlot (t_data undo_tup)
  <> ZHeapTupleHeaderGetXactSlot (t_data zhtup) ->
  (exists rest,
     fetches (GetTupleFromUndo E fuel urec_ptr zhtup snapshot buffer
                prev_undo_xid) = tr ++ rest /\
     first_fetch_at slot_ptr rest) /\
  (exists rest,
     fetches (UndoTupleSatisfiesUpdate E fuel urec_ptr zhtup curcid buffer
                ctid prev_undo_xid free_zhtup flag) = tr ++ rest /\
     first_fetch_at slot_ptr rest).
Proof.
  intros read undo_tup slot_ptr valid other.
  destruct fuel as [ | fuel ]; [ discriminate | ].
  assert (switched :
    switch_undo_chain urec undo_tup
      (ZHeapTupleHeaderGetXactSlot (t_data zhtup)) buffer = slot_ptr).
  { unfold switch_undo_chain.
    apply Z.eqb_neq in valid. apply Z.eqb_neq in other.
    now rewrite valid, other. }
  pose proof (resolve_undo_tuple_first E (S fuel) undo_tup
                (uur_prevxid urec) slot_ptr buffer) as [first silent].
  split.
  - cbn [GetTupleFromUndo]. rewrite read, bind_returned.
    cbn [fetches fst]. eexists. split; [ reflexivity | ].
    fold undo_tup. rewrite switched.
    apply first_fetch_at_bind; [ exact first | ].
    intros info quiet. apply silent in quiet. rewrite quiet.
    split_decisions;
      first [ apply first_fetch_at_nil | apply GetTupleFromUndo_first ].
  - cbn [UndoTupleSatisfiesUpdate]. rewrite read, bind_returned.
    cbn [fetches fst]. eexists. split; [ reflexivity | ].
    fold undo_tup. rewrite switched.
    apply first_fetch_at_bind; [ exact first | ].
    intros info quiet. apply silent in quiet. rewrite quiet.
    split_decisions;
      first [ apply first_fetch_at_nil
            | apply UndoTupleSatisfiesUpdate_first ].
Qed.

Lemma slot_switch_next_fetch_witness :
  let E :=
    world 150 [160] [30]
      [(7, mkUndoRecord UNDO_INPLACE_UPDATE 160 1 6 (mkItemPointer 0 0)
             (mkHeader ZHEAP_INPLACE_UPDATED 1 11));
       (4, mkUndoRecord UNDO_INPLACE_UPDATE 30 1 0 (mkItemPointer 0 0)
             (mkHeader 0 1 10))] in
  exists rest,
    fetches (GetTupleFromUndo E 3 7 (row ZHEAP_INPLACE_UPDATED 2)
               (mkSnapshot 0 0 5 0 [160]) (page2 160 4 170 7) 0)
    = [mkFetch 7 1 1 0] ++ rest /\
    first_fetch_at 4 rest.
Proof.
  intros E.
  refine (proj1 (slot_switch_next_fetch E 3 7 (row ZHEAP_INPLACE_UPDATED 2)
                   (mkSnapshot 0 0 5 0 [160]) (page2 160 4 170 7) 0 5 None
                   true false [mkFetch 7 1 1 0]
                   (mkUndoRecord UNDO_INPLACE_UPDATE 160 1 6
                      (mkItemPointer 0 0)
                      (mkHeader ZHEAP_INPLACE_UPDATED 1 11))
                   eq_refl _ _));
    discriminate.
Defined.

(** The walk of the witness: record 7 is read for slot 2, its undo tuple is
    stamped with slot 1, and the walk goes on at 4, the undo pointer of slot
    1, not at 6, the blkprev of the record. *)
Example slot_switch_walk :
  GetTupleFromUndo
    (world 150 [160] [30]
       [(7, mkUndoRecord UNDO_INPLACE_UPDATE 160 1 6 (mkItemPointer 0 0)
              (mkHeader ZHEAP_INPLACE_UPDATED 1 11));
        (4, mkUndoRecord UNDO_INPLACE_UPDATE 30 1 0 (mkItemPointer 0 0)
              (mkHeader 0 1 10))])
    3 7 (row ZHEAP_INPLACE_UPDATED 2) (mkSnapshot 0 0 5 0 [160])
    (page2 160 4 170 7) 0
  = ([mkFetch 7 1 1 0; mkFetch 4 1 1 160],
     Returned (Some (mkTuple (mkItemPointer 1 1) 16384 (mkHeader 0 1 10)))).
Proof. reflexivity. Qed.

(** ** Sure death *)

(** The xid that ZHeapTupleIsSurelyDead and ZHeapTupleSatisfiesDirty resolve
    is the one ZHeapTupleSatisfiesMVCC resolves, by the same fetches. *)
Lemma raw_xact_xid_mvcc (E : Collaborators) (fuel : nat)
    (zhtup : ZHeapTupleData) (buffer : Buffer) :
  raw_xact_xid E fuel zhtup buffer
  = (info <- mvcc_xact_info E fuel zhtup buffer ;; ret (xi_xid info)).
Proof.
  unfold raw_xact_xid, mvcc_xact_info.
  destruct (negb _); [ | now rewrite bind_ret_l ].
  destruct (flag_set _ _); [ reflexivity | now rewrite bind_ret_l ].
Qed.

Lemma all_visible_cases (E : Collaborators) (tuple : ZHeapTupleHeaderData)
    (xid : TransactionId) :
  all_visible E tuple xid = true <->
  ZHeapTupleHeaderGetXactSlot tuple = ZHTUP_SLOT_FROZEN \/
  TransactionIdPrecedes E xid (RecentGlobalXmin E) = true.
Proof.
  unfold all_visible. rewrite orb_true_iff, Z.eqb_eq. reflexivity.
Qed.

(** C5: ZHeapTupleIsSurelyDead answers true exactly when the infomask has
    DELETED or UPDATED and the slot is frozen or the resolved xid precedes
    RecentGlobalXmin; and whenever it answers true, ZHeapTupleSatisfiesMVCC
    returns NULL for the tuple, for every snapshot. *)
Theorem surely_dead_sound (E : Collaborators) (fuel : nat)
    (zhtup : ZHeapTupleData) (OldestXmin : TransactionId) (buffer : Buffer)
    (snapshot : SnapshotData) (ctid : option ItemPointerData) :
  (result (ZHeapTupleIsSurelyDead E fuel zhtup OldestXmin buffer)
   = Returned true <->
   deleted_or_updated (t_data zhtup) = true /\
   exists xid,
     result (raw_xact_xid E fuel zhtup buffer) = Returned xid /\
     (ZHeapTupleHeaderGetXactSlot (t_data zhtup) = ZHTUP_SLOT_FROZEN \/
      TransactionIdPrecedes E xid (RecentGlobalXmin E) = true)) /\
  (result (ZHeapTupleIsSurelyDead E fuel zhtup OldestXmin buffer)
   = Returned true ->
   result (ZHeapTupleSatisfiesMVCC E fuel zhtup snapshot buffer ctid)
   = Returned None).
Proof.
  assert (dead :
    result (ZHeapTupleIsSurelyDead E fuel zhtup OldestXmin buffer)
    = Returned true <->
    deleted_or_updated (t_data zhtup) = true /\
    exists xid,
      result (raw_xact_xid E fuel zhtup buffer) = Returned xid /\
      all_visible E (t_data zhtup) xid = true).
  { unfold ZHeapTupleIsSurelyDead. rewrite result_bind.
    destruct (result (raw_xact_xid E fuel zhtup buffer)) as [xid | | ].
    - destruct (deleted_or_updated (t_data zhtup)).
      + destruct (all_visible E (t_data zhtup) xid) eqn:vis; simpl.
        * split; [ intros _; split; eauto | reflexivity ].
        * split; [ discriminate | ].
          intros [_ [xid' [same vis']]]. congruence.
      + split; [ discriminate | intros [absurd _]; discriminate ].
    - split; [ discriminate | intros [_ [xid [absurd _]]]; discriminate ].
    - split; [ discriminate | intros [_ [xid [absurd _]]]; discriminate ]. }
  split.
  - rewrite dead. split; intros [class [xid [resolved vis]]];
      (split; [ assumption | exists xid; split; [ assumption | ] ]);
      now apply all_visible_cases.
  - rewrite dead. intros [class [xid [resolved vis]]].
    rewrite raw_xact_xid_mvcc, result_bind in resolved.
    unfold ZHeapTupleSatisfiesMVCC. rewrite result_bind.
    destruct (result (mvcc_xact_info E fuel zhtup buffer)) as [info | | ];
      try discriminate.
    simpl in resolved. injection resolved as <-.
    now rewrite class, vis.
Qed.

Lemma surely_dead_sound_witness :
  result (ZHeapTupleSatisfiesMVCC (world 150 [50] [30] []) 1
            (row ZHEAP_DELETED 2) snapshot_S (page 40 7) None)
  = Returned None.
Proof.
  apply (surely_dead_sound (world 150 [50] [30] []) 1 (row ZHEAP_DELETED 2)
           100 (page 40 7) snapshot_S None).
  reflexivity.
Defined.

(** ** Changes of the current transaction *)

Lemma raw_xact_xid_of_info (E : Collaborators) (fuel : nat)
    (zhtup : ZHeapTupleData) (buffer : Buffer) (tr : list FetchCall)
    (info : XactInfo) :
  mvcc_xact_info E fuel zhtup buffer = (tr, Returned info) ->
  raw_xact_xid E fuel zhtup buffer = (tr, Returned (xi_xid info)).
Proof.
  intros resolved. rewrite raw_xact_xid_mvcc, resolved, bind_returned.
  simpl. now rewrite app_nil_r.
Qed.

(** C6, as the code has it: when the resolved xid of a tuple is the current
    transaction and its cid is below the curcid of the snapshot,
    ZHeapTupleSatisfiesMVCC and ZHeapTupleSatisfiesDirty return the tuple
    itself if the change was an in-place update, a lock or the insert; if it
    was a delete or a non-in-place update, ZHeapTupleSatisfiesMVCC returns
    NULL, and so does ZHeapTupleSatisfiesDirty once the ctid is looked up. *)
Theorem own_change_before_curcid (E : Collaborators) (fuel : nat)
    (zhtup : ZHeapTupleData) (snapshot : SnapshotData) (buffer : Buffer)
    (ctid : option ItemPointerData) (tr : list FetchCall) (info : XactInfo) :
  mvcc_xact_info E fuel zhtup buffer = (tr, Returned info) ->
  TransactionIdIsCurrentTransactionId E (xi_xid info) = true ->
  xi_cid info < curcid snapshot ->
  (deleted_or_updated (t_data zhtup) = false ->
   ZHeapTupleSatisfiesMVCC E fuel zhtup snapshot buffer ctid
   = (tr, Returned (Some zhtup)) /\
   ZHeapTupleSatisfiesDirty E fuel zhtup snapshot buffer ctid
   = (tr, Returned (Some zhtup, dirty_entry snapshot, ctid))) /\
  (deleted_or_updated (t_data zhtup) = true ->
   ZHeapTupleSatisfiesMVCC E fuel zhtup snapshot buffer ctid
   = (tr, Returned None) /\
   forall tr' ctid',
     get_ctid_if_updated E fuel zhtup buffer ctid = (tr', Returned ctid') ->
     ZHeapTupleSatisfiesDirty E fuel zhtup snapshot buffer ctid
     = (tr ++ tr', Returned (None, dirty_entry snapshot, ctid'))).
Proof.
  intros resolved current before.
  pose proof (raw_xact_xid_of_info _ _ _ _ _ _ resolved) as raw.
  apply Z.leb_gt in before.
  split; intros class.
  - split.
    + unfold ZHeapTupleSatisfiesMVCC.
      rewrite resolved, bind_returned, class, current, before.
      destruct (inplace_updated_or_locked (t_data zhtup));
        destruct (all_visible E (t_data zhtup) (xi_xid info));
        try destruct (ZHEAP_XID_IS_LOCKED_ONLY _); finish_run.
    + unfold ZHeapTupleSatisfiesDirty.
      rewrite raw, bind_returned, class, current.
      destruct (inplace_updated_or_locked (t_data zhtup));
        destruct (all_visible E (t_data zhtup) (xi_xid info)); finish_run.
  - split.
    + unfold ZHeapTupleSatisfiesMVCC.
      rewrite resolved, bind_returned, class, current, before.
      destruct (all_visible E (t_data zhtup) (xi_xid info)); finish_run.
    + intros tr' ctid' looked_up.
      unfold ZHeapTupleSatisfiesDirty.
      rewrite raw, bind_returned, class, current, looked_up. finish_run.
Qed.

Lemma own_change_before_curcid_witness :
  ZHeapTupleSatisfiesMVCC
    (world 150 [50] [30]
       [(7, mkUndoRecord UNDO_INPLACE_UPDATE 30 3 0 (mkItemPointer 0 0)
              (mkHeader 0 2 11))])
    1 (row ZHEAP_INPLACE_UPDATED 2) snapshot_S (page 150 7) None
  = ([], Returned (Some (row ZHEAP_INPLACE_UPDATED 2))).
Proof.
  apply (own_change_before_curcid
           (world 150 [50] [30]
              [(7, mkUndoRecord UNDO_INPLACE_UPDATE 30 3 0
                     (mkItemPointer 0 0) (mkHeader 0 2 11))])
           1 (row ZHEAP_INPLACE_UPDATED 2) snapshot_S (page 150 7) None
           [] (mkXactInfo 150 3 7));
    reflexivity.
Defined.

(** C6, as stated, fails for a delete: the current transaction (xid 150)
    deleted the tuple at command 3, the snapshot is at command 5, and both
    predicates return NULL, not an image of the tuple. *)
Lemma own_delete_before_curcid_is_null :
  let E :=
    world 150 [50] [30]
      [(7, mkUndoRecord UNDO_DELETE 30 3 0 (mkItemPointer 0 0)
             (mkHeader 0 2 11))] in
  let zhtup := row ZHEAP_DELETED 2 in
  mvcc_xact_info E 1 zhtup (page 150 7) = ([], Returned (mkXactInfo 150 3 7))
  /\ TransactionIdIsCurrentTransactionId E 150 = true
  /\ 3 < curcid snapshot_S
  /\ ZHeapTupleSatisfiesMVCC E 1 zhtup snapshot_S (page 150 7) None
     = ([], Returned None)
  /\ ZHeapTupleSatisfiesDirty E 1 zhtup snapshot_S (page 150 7) None
     = ([], Returned (None, dirty_entry snapshot_S, None)).
Proof. repeat split. Qed.

(** ** A committed delete or move, seen by an updater *)

(** C7: for a tuple with DELETED or UPDATED whose resolved xid is neither
    the current transaction nor in progress and did commit,
    ZHeapTupleSatisfiesUpdate answers HeapTupleUpdated; when the tuple is
    UPDATED and the caller gave a ctid, the ctid it leaves is the moved-to
    pointer of the most recent UPDATE record of the tuple's undo chain;
    otherwise the ctid is left as given and no further record is fetched. *)
Theorem committed_delete_is_updated (E : Collaborators) (fuel : nat)
    (zhtup : ZHeapTupleData) (curcid : CommandId) (buffer : Buffer)
    (out : UpdateOutputs) (free_zhtup lock_allowed : bool)
    (snapshot : SnapshotData) (tr tr' : list FetchCall) (info : XactInfo)
    (ctid' : option ItemPointerData) :
  update_xact_info E fuel zhtup buffer (uo_cid out) = (tr, Returned info) ->
  deleted_or_updated (t_data zhtup) = true ->
  TransactionIdIsCurrentTransactionId E (xi_xid info) = false ->
  TransactionIdIsInProgress E (xi_xid info) = false ->
  TransactionIdDidCommit E (xi_xid info) = true ->
  get_ctid_if_updated E fuel zhtup buffer (uo_ctid out)
  = (tr', Returned ctid') ->
  ZHeapTupleSatisfiesUpdate E fuel zhtup curcid buffer out free_zhtup
    lock_allowed snapshot
  = (tr ++ tr',
     Returned (HeapTupleUpdated,
               mkUpdateOutputs ctid' (xi_xid info) (xi_cid info) false)) /\
  (flag_set (t_infomask (t_data zhtup)) ZHEAP_UPDATED = true ->
   uo_ctid out <> None ->
   forall moved_to,
     result (most_recent_update E fuel zhtup
               (ZHeapTupleHeaderGetRawUndoPtr (t_data zhtup) buffer))
     = Returned (Some moved_to) ->
     ctid' = Some moved_to) /\
  (flag_set (t_infomask (t_data zhtup)) ZHEAP_UPDATED = false \/
   uo_ctid out = None ->
   ctid' = uo_ctid out /\ tr' = []).
Proof.
  intros resolved class current progress commit looked_up.
  split; [ | split ].
  - unfold ZHeapTupleSatisfiesUpdate.
    rewrite resolved, bind_returned, class, current, progress, commit,
      looked_up.
    finish_run.
  - intros updated given moved_to found.
    unfold get_ctid_if_updated, ZHeapTupleGetCtid in looked_up.
    destruct (uo_ctid out) as [c | ]; [ | congruence ].
    rewrite updated in looked_up.
    destruct (most_recent_update E fuel zhtup _) as [tr1 [f | | ]];
      try discriminate.
    simpl in found. injection found as ->.
    rewrite !bind_returned in looked_up. simpl in looked_up. congruence.
  - intros unchanged. unfold get_ctid_if_updated in looked_up.
    destruct (uo_ctid out) as [c | ]; [ | now inversion looked_up ].
    destruct unchanged as [no | ]; [ | discriminate ].
    rewrite no in looked_up. now inversion looked_up.
Qed.

Lemma committed_delete_is_updated_witness :
  let E :=
    world 150 [50] [30; 80]
      [(7, mkUndoRecord UNDO_UPDATE 30 3 0 (mkItemPointer 5 9)
             (mkHeader 0 2 11))] in
  ZHeapTupleSatisfiesUpdate E 1 (row ZHEAP_UPDATED 2) 5 (page 80 7)
    (mkUpdateOutputs (Some (mkItemPointer 0 0)) 0 0 false) false false
    snapshot_S
  = ([mkFetch 7 1 1 0],
     Returned (HeapTupleUpdated,
               mkUpdateOutputs (Some (mkItemPointer 5 9)) 80 3 false)).
Proof.
  intros E.
  apply (committed_delete_is_updated E 1 (row ZHEAP_UPDATED 2) 5 (page 80 7)
           (mkUpdateOutputs (Some (mkItemPointer 0 0)) 0 0 false) false false
           snapshot_S [] [mkFetch 7 1 1 0] (mkXactInfo 80 3 7)
           (Some (mkItemPointer 5 9)));
    reflexivity.
Defined.

(** ** Termination of the walks *)

Section Termination.

Context (E : Collaborators) (buffer : Buffer).

(** *** The count of a finite chain *)

Lemma walk_chain_step_ext
    (rest1 rest2 : WalkPosition -> UndoRecPtr -> ZHeapTupleData -> nat)
    (pos : WalkPosition) (p : UndoRecPtr) (t : ZHeapTupleData) (n : nat) :
  (walk_chain_step E buffer rest1 pos p t < S n)%nat ->
  (forall pos' p' t',
     (rest1 pos' p' t' < n)%nat -> rest2 pos' p' t' = rest1 pos' p' t') ->
  walk_chain_step E buffer rest2 pos p t
  = walk_chain_step E buffer rest1 pos p t.
Proof.
  unfold walk_chain_step, chain_after_record. intros small same.
  destruct pos; destruct (UndoFetchRecord E p _ _ _);
    try reflexivity; f_equal; revert small; split_decisions; intros small;
    try reflexivity; apply same; lia.
Qed.

(** A count that stays below the fuel is the count for any larger fuel. *)
Lemma walk_chain_length_stable (fuel : nat) :
  forall (fuel' : nat) (pos : WalkPosition) (p : UndoRecPtr)
         (t : ZHeapTupleData),
    (walk_chain_length E buffer fuel pos p t < fuel)%nat ->
    (fuel <= fuel')%nat ->
    walk_chain_length E buffer fuel' pos p t
    = walk_chain_length E buffer fuel pos p t.
Proof.
  induction fuel as [ | fuel IH ]; intros fuel' pos p t small more; [ lia | ].
  destruct fuel' as [ | fuel' ]; [ lia | ].
  cbn [walk_chain_length] in *.
  apply walk_chain_step_ext with (n := fuel); [ exact small | ].
  intros pos' p' t' below. apply IH; [ exact below | lia ].
Qed.

(** A finite chain is one record longer than the chain from the next
    position. *)
Lemma walk_chain_length_unfold (fuel : nat) (pos : WalkPosition)
    (p : UndoRecPtr) (t : ZHeapTupleData) :
  (walk_chain_length E buffer fuel pos p t < fuel)%nat ->
  walk_chain_length E buffer fuel pos p t
  = walk_chain_step E buffer (walk_chain_length E buffer fuel) pos p t.
Proof.
  intros small. destruct fuel as [ | fuel ]; [ lia | ].
  change (walk_chain_length E buffer (S fuel) pos p t)
    with (walk_chain_step E buffer (walk_chain_length E buffer fuel) pos p t)
    in *.
  symmetry.
  apply walk_chain_step_ext with (n := fuel); [ exact small | ].
  intros pos' p' t' below.
  apply walk_chain_length_stable; [ exact below | lia ].
Qed.

(** *** The loops on a finite chain *)

Section FiniteChain.

(** [records] counts the records of the chains shorter than [chain_fuel],
    as [walk_chain_length] does with that fuel. *)
Variable records : WalkPosition -> UndoRecPtr -> ZHeapTupleData -> nat.
Variable chain_fuel : nat.
Hypothesis records_unfold :
  forall pos p t,
    (records pos p t < chain_fuel)%nat ->
    records pos p t = walk_chain_step E buffer records pos p t.

(** The skip loop ends, by a fault at a discarded record or with the record
    of a version, having fetched the records counted up to there. *)
Lemma fetch_undo_record_ends (fuel : nat) :
  forall (p : UndoRecPtr) (zhtup : ZHeapTupleData) (xid : TransactionId),
    (records (AtRecord xid) p zhtup < chain_fuel)%nat ->
    (records (AtRecord xid) p zhtup < fuel)%nat ->
    match fetch_undo_record E fuel p zhtup xid with
    | (tr, Returned urec) =>
        (1 <= length tr)%nat /\
        records (AtRecord xid) p zhtup
        = (length tr + chain_after_record E buffer records urec zhtup)%nat
    | (tr, NullDereference) =>
        (length tr <= records (AtRecord xid) p zhtup + 1)%nat
    | (tr, OutOfFuel) => False
    end.
Proof.
  induction fuel as [ | fuel IH ]; intros p zhtup xid finite enough;
    [ lia | ].
  pose proof (records_unfold _ _ _ finite) as way.
  cbn [walk_chain_step] in way.
  cbn [fetch_undo_record]. unfold fetch. rewrite bind_returned.
  destruct (UndoFetchRecord E p _ _ xid) as [urec | ].
  - destruct (undo_type_eqb _ _).
    + assert (below := IH (uur_blkprev urec) zhtup xid).
      destruct (fetch_undo_record E fuel (uur_blkprev urec) zhtup xid)
        as [tr [urec' | | ]];
        cbn [fetches result fst snd app length];
        [ destruct below as [some far]; [ lia | lia | ];
          split; [ lia | rewrite way, far; lia ]
        | assert (few := below ltac:(lia) ltac:(lia)); lia
        | apply below; lia ].
    + cbn. split; lia.
  - cbn. lia.
Qed.

(** The loop that opens a predicate ends: on a discarded record, with the
    invalid xid, or on a slot-reuse record, having fetched the records
    counted up to there. *)
Lemma tuple_xact_info_ends (then_walk : bool) (fuel : nat) :
  forall (p : UndoRecPtr) (zhtup : ZHeapTupleData),
    (records (InTupleLoop then_walk) p zhtup < chain_fuel)%nat ->
    (records (InTupleLoop then_walk) p zhtup < fuel)%nat ->
    exists tr info,
      tuple_xact_info E fuel zhtup p = (tr, Returned info) /\
      ((xi_xid info = InvalidTransactionId /\
        (length tr <= records (InTupleLoop then_walk) p zhtup + 1)%nat) \/
       records (InTupleLoop then_walk) p zhtup
       = (length tr
          + if then_walk
               && negb (all_visible E (t_data zhtup) (xi_xid info))
               && (deleted_or_updated (t_data zhtup)
                   || inplace_updated_or_locked (t_data zhtup))
            then records (AtRecord InvalidTransactionId) (xi_urec_ptr info)
                   zhtup
            else O)%nat).
Proof.
  induction fuel as [ | fuel IH ]; intros p zhtup finite enough; [ lia | ].
  pose proof (records_unfold _ _ _ finite) as way.
  cbn [walk_chain_step] in way.
  cbn [tuple_xact_info]. unfold fetch. rewrite bind_returned.
  destruct (UndoFetchRecord E p _ _ _) as [urec | ].
  - destruct (negb _).
    + destruct (IH (uur_blkprev urec) zhtup) as [tr [info [-> far]]];
        [ lia | lia | ].
      do 2 eexists. split; [ reflexivity | ].
      cbn [fetches fst app length].
      destruct far as [[invalid far] | far]; [ left | right ];
        repeat split; try assumption; lia.
    + do 2 eexists. split; [ reflexivity | ]. right.
      cbn [fetches ret fst app length xi_xid xi_urec_ptr]. lia.
  - do 2 eexists. split; [ reflexivity | ]. left. cbn. split; [ easy | lia ].
Qed.

Hypothesis invalid_precedes_horizon :
  TransactionIdPrecedes E InvalidTransactionId (RecentGlobalXmin E) = true.

(** The identity loop of a walker ends: on a discarded record or on the
    horizon, with an xid that precedes the horizon, or on the slot-reuse
    record of the captured xid, having fetched the records counted up to
    there. *)
Lemma undo_tuple_xact_info_ends (fuel : nat) :
  forall (p : UndoRecPtr) (undo_tup : ZHeapTupleData)
         (xid : TransactionId),
    (records (InIdentityLoop xid) p undo_tup < chain_fuel)%nat ->
    (records (InIdentityLoop xid) p undo_tup < fuel)%nat ->
    exists tr info,
      undo_tuple_xact_info E fuel undo_tup xid p = (tr, Returned info) /\
      ((TransactionIdPrecedes E (xi_xid info) (RecentGlobalXmin E) = true /\
        (length tr <= records (InIdentityLoop xid) p undo_tup + 1)%nat) \/
       records (InIdentityLoop xid) p undo_tup
       = (length tr
          + if has_older_version undo_tup
            then records (AtRecord (xi_xid info)) (xi_urec_ptr info) undo_tup
            else O)%nat).
Proof.
  induction fuel as [ | fuel IH ]; intros p undo_tup xid finite enough;
    [ lia | ].
  pose proof (records_unfold _ _ _ finite) as way.
  cbn [walk_chain_step] in way.
  cbn [undo_tuple_xact_info]. unfold fetch. rewrite bind_returned.
  destruct (UndoFetchRecord E p _ _ _) as [urec | ].
  - destruct (TransactionIdPrecedes E (uur_prevxid urec) _).
    + do 2 eexists. split; [ reflexivity | ]. left.
      cbn. split; [ exact invalid_precedes_horizon | lia ].
    + destruct (_ || _).
      * destruct (IH (uur_blkprev urec) undo_tup xid)
          as [tr [info [-> far]]]; [ lia | lia | ].
        do 2 eexists. split; [ reflexivity | ].
        cbn [fetches fst app length].
        destruct far as [[old far] | far]; [ left | right ];
          repeat split; try assumption; lia.
      * do 2 eexists. split; [ reflexivity | ]. right.
        cbn [fetches ret fst app length xi_xid xi_urec_ptr]. lia.
  - do 2 eexists. split; [ reflexivity | ]. left.
    cbn. split; [ exact invalid_precedes_horizon | lia ].
Qed.

(** Lines 112-175 end: with an identity that makes the undo tuple
    all-visible, or having fetched the records counted up to there. *)
Lemma resolve_undo_tuple_ends (fuel : nat) (urec : UnpackedUndoRecord)
    (zhtup : ZHeapTupleData) :
  let undo_tup := CopyTupleFromUndoRecord E urec zhtup in
  let next :=
    switch_undo_chain urec undo_tup
      (ZHeapTupleHeaderGetXactSlot (t_data zhtup)) buffer in
  let left_over := chain_after_record E buffer records urec zhtup in
  (left_over < chain_fuel)%nat ->
  (left_over < fuel)%nat ->
  exists tr info,
    resolve_undo_tuple E fuel undo_tup (uur_prevxid urec) next buffer
    = (tr, Returned info) /\
    ((all_visible E (t_data undo_tup) (xi_xid info) = true /\
      (length tr <= left_over + 1)%nat) \/
     left_over
     = (length tr
        + if has_older_version undo_tup
          then records (AtRecord (xi_xid info)) (xi_urec_ptr info) undo_tup
          else O)%nat).
Proof.
  intros undo_tup next left_over. subst left_over.
  unfold chain_after_record, resolve_undo_tuple, all_visible.
  fold undo_tup. fold next.
  destruct (ZHeapTupleHeaderGetXactSlot (t_data undo_tup)
            =? ZHTUP_SLOT_FROZEN);
    destruct (TransactionIdPrecedes E (uur_prevxid urec) _) eqn:old;
    cbn [negb andb orb]; intros finite enough;
    try (do 2 eexists; split; [ reflexivity | ]; left;
         cbn [xi_xid]; rewrite ?old, ?orb_true_r;
         split; [ reflexivity | cbn; lia ]).
  destruct (flag_set _ _).
  - destruct (undo_tuple_xact_info_ends fuel next undo_tup
                (uur_prevxid urec) finite enough)
      as [tr [info [-> [[horizon far] | far]]]];
      do 2 eexists; (split; [ reflexivity | ]); [ left | right ].
    + split; [ now rewrite horizon | assumption ].
    + exact far.
  - do 2 eexists. split; [ reflexivity | ]. right.
    cbn [xi_xid xi_urec_ptr length]. reflexivity.
Qed.

Lemma GetTupleFromUndo_ends (snapshot : SnapshotData) (fuel : nat) :
  forall (p : UndoRecPtr) (zhtup : ZHeapTupleData) (xid : TransactionId),
    (records (AtRecord xid) p zhtup < chain_fuel)%nat ->
    (records (AtRecord xid) p zhtup < fuel)%nat ->
    ends_within (records (AtRecord xid) p zhtup + 1)
      (GetTupleFromUndo E fuel p zhtup snapshot buffer xid).
Proof.
  induction fuel as [ | fuel IH ]; intros p zhtup xid finite enough;
    [ lia | ].
  cbn [GetTupleFromUndo].
  pose proof (fetch_undo_record_ends (S fuel) p zhtup xid finite enough)
    as read.
  destruct (fetch_undo_record E (S fuel) p zhtup xid)
    as [tr1 [urec | | ]]; [ | | contradiction ].
  2: { split; [ discriminate | exact read ]. }
  destruct read as [some read]. rewrite bind_returned.
  destruct (resolve_undo_tuple_ends (S fuel) urec zhtup)
    as [tr2 [info [-> far]]]; [ lia | lia | ].
  rewrite bind_returned.
  unfold ends_within, fetch_count. cbn [fetches result fst snd].
  rewrite !length_app.
  destruct far as [[vis few] | far].
  - unfold all_visible in vis. rewrite vis. cbn. split; [ discriminate | lia ].
  - unfold has_older_version in far. revert far.
    split_decisions; intros far; cbn [ret fetches result fst snd length];
      try (split; [ discriminate | lia ]);
      (destruct (IH (xi_urec_ptr info)
                   (CopyTupleFromUndoRecord E urec zhtup) (xi_xid info))
         as [ended few]; [ lia | lia | ];
       split; [ exact ended | unfold fetch_count, ZHeapTuple in *; lia ]).
Qed.

Lemma UndoTupleSatisfiesUpdate_ends (curcid : CommandId) (fuel : nat) :
  forall (p : UndoRecPtr) (zhtup : ZHeapTupleData)
         (ctid : option ItemPointerData) (xid : TransactionId)
         (free_zhtup flag : bool),
    (records (AtRecord xid) p zhtup < chain_fuel)%nat ->
    (records (AtRecord xid) p zhtup < fuel)%nat ->
    ends_within (records (AtRecord xid) p zhtup + 1)
      (UndoTupleSatisfiesUpdate E fuel p zhtup curcid buffer ctid xid
         free_zhtup flag).
Proof.
  induction fuel as [ | fuel IH ];
    intros p zhtup ctid xid free_zhtup flag finite enough; [ lia | ].
  cbn [UndoTupleSatisfiesUpdate].
  pose proof (fetch_undo_record_ends (S fuel) p zhtup xid finite enough)
    as read.
  destruct (fetch_undo_record E (S fuel) p zhtup xid)
    as [tr1 [urec | | ]]; [ | | contradiction ].
  2: { split; [ discriminate | exact read ]. }
  destruct read as [some read]. rewrite bind_returned.
  destruct (resolve_undo_tuple_ends (S fuel) urec zhtup)
    as [tr2 [info [-> far]]]; [ lia | lia | ].
  rewrite bind_returned.
  unfold ends_within, fetch_count. cbn [fetches result fst snd].
  rewrite !length_app.
  set (ctid' := match ctid with Some _ => _ | None => None end).
  clearbody ctid'.
  destruct far as [[vis few] | far].
  - unfold all_visible in vis. rewrite vis. cbn. split; [ discriminate | lia ].
  - unfold has_older_version in far. revert far.
    split_decisions; intros far; cbn [ret fetches result fst snd length];
      try (split; [ discriminate | lia ]);
      (destruct (IH (xi_urec_ptr info)
                   (CopyTupleFromUndoRecord E urec zhtup) ctid' (xi_xid info)
                   true true)
         as [ended few]; [ lia | lia | ];
       split; [ exact ended | unfold fetch_count, ZHeapTuple in *; lia ]).
Qed.

End FiniteChain.

End Termination.

(** C8, as the code has it: when the undo chain of the tuple is finite -
    the records that a walk can meet from its starting pointer, going from
    a record to its uur_blkprev and, where the undo tuple is stamped with
    another slot, to the undo pointer of that slot, up to a discarded
    record, an all-visible version or a first version - and the invalid xid
    precedes RecentGlobalXmin, every walk of GetTupleFromUndo and of
    UndoTupleSatisfiesUpdate ends, with an answer or in the NULL
    dereference of a discarded first record, after at most one fetch more
    than the chain has records, slot-invalidation records included: the
    fetch that finds a record discarded. *)
Theorem undo_walks_end (E : Collaborators) (buffer : Buffer) (fuel : nat)
    (urec_ptr : UndoRecPtr) (zhtup : ZHeapTupleData)
    (snapshot : SnapshotData) (curcid : CommandId)
    (ctid : option ItemPointerData) (prev_undo_xid : TransactionId)
    (free_zhtup flag : bool) :
  let records :=
    walk_chain_length E buffer fuel (AtRecord prev_undo_xid) urec_ptr zhtup in
  TransactionIdPrecedes E InvalidTransactionId (RecentGlobalXmin E) = true ->
  (records < fuel)%nat ->
  let walk :=
    GetTupleFromUndo E fuel urec_ptr zhtup snapshot buffer prev_undo_xid in
  let probe :=
    UndoTupleSatisfiesUpdate E fuel urec_ptr zhtup curcid buffer ctid
      prev_undo_xid free_zhtup flag in
  (result walk <> OutOfFuel /\ (fetch_count walk <= records + 1)%nat) /\
  (result probe <> OutOfFuel /\ (fetch_count probe <= records + 1)%nat).
Proof.
  intros records horizon finite. split.
  - now apply (GetTupleFromUndo_ends E buffer _ fuel
                 (walk_chain_length_unfold E buffer fuel) horizon).
  - now apply (UndoTupleSatisfiesUpdate_ends E buffer _ fuel
                 (walk_chain_length_unfold E buffer fuel) horizon).
Qed.

(** The walk of C4, which changes the chain: record 7 and, from the undo
    pointer of slot 1, record 4. *)
Lemma undo_walks_end_witness :
  let E :=
    world 150 [160] [30]
      [(7, mkUndoRecord UNDO_INPLACE_UPDATE 160 1 6 (mkItemPointer 0 0)
             (mkHeader ZHEAP_INPLACE_UPDATED 1 11));
       (4, mkUndoRecord UNDO_INPLACE_UPDATE 30 1 0 (mkItemPointer 0 0)
             (mkHeader 0 1 10))] in
  let zhtup := row ZHEAP_INPLACE_UPDATED 2 in
  let walk :=
    GetTupleFromUndo E 5 7 zhtup (mkSnapshot 0 0 5 0 [160])
      (page2 160 4 170 7) 0 in
  result walk <> OutOfFuel /\ (fetch_count walk <= 2 + 1)%nat.
Proof.
  intros E zhtup walk.
  refine (proj1 (undo_walks_end E (page2 160 4 170 7) 5 7 zhtup
                   (mkSnapshot 0 0 5 0 [160]) 5 None 0 true false
                   eq_refl _)).
  vm_compute. lia.
Defined.

(** C8, as stated, fails: the chain of the tuple holds one record and no
    slot-invalidation record, and both walks make two fetches, the second
    one for the discarded record 4, which makes the undo tuple all-visible. *)
Lemma discarded_record_costs_a_fetch :
  let E :=
    world 150 [50] [30]
      [(9, mkUndoRecord UNDO_INPLACE_UPDATE 200 0 4 (mkItemPointer 0 0)
             (mkHeader ZHEAP_INVALID_XACT_SLOT 2 11))] in
  let zhtup := row ZHEAP_INPLACE_UPDATED 2 in
  let walk := GetTupleFromUndo E 5 9 zhtup snapshot_S (page 200 9) 0 in
  let probe :=
    UndoTupleSatisfiesUpdate E 5 9 zhtup 5 (page 200 9) None 0 true false in
  let records := chain_length E 5 9 zhtup in
  walk = ([mkFetch 9 1 1 0; mkFetch 4 1 1 0],
          Returned (Some (mkTuple (mkItemPointer 1 1) 16384
                            (mkHeader ZHEAP_INVALID_XACT_SLOT 2 11))))
  /\ probe = ([mkFetch 9 1 1 0; mkFetch 4 1 1 0], Returned (true, None, false))
  /\ records = 1%nat
  /\ walk_chain_length E (page 200 9) 5 (AtRecord 0) 9 zhtup = 1%nat
  /\ slot_invalidations E walk = 0%nat
  /\ slot_invalidations E probe = 0%nat
  /\ ~ (fetch_count walk <= records + slot_invalidations E walk)%nat
  /\ ~ (fetch_count probe <= records + slot_invalidations E probe)%nat.
Proof.
  vm_compute. repeat split; intros absurd; apply Nat.nle_succ_0 with 0%nat;
    now apply le_S_n.
Qed.

(** Why C8 needs a finite chain: were a slot-reuse record its own
    predecessor, the first loop of the walkers would fetch it for ever; the
    count of the chain then reaches any fuel. *)
Example walk_on_a_cycle_never_ends (fuel : nat) :
  let E :=
    world 150 [50] [30]
      [(9, mkUndoRecord UNDO_INVALID_XACT_SLOT 200 0 9
             (mkItemPointer 0 0) (mkHeader 0 2 11))] in
  let zhtup := row ZHEAP_INPLACE_UPDATED 2 in
  result (GetTupleFromUndo E fuel 9 zhtup snapshot_S (page 200 9) 0)
  = OutOfFuel
  /\ walk_chain_length E (page 200 9) fuel (AtRecord 0) 9 zhtup = fuel.
Proof.
  intros E zhtup. split.
  - destruct fuel as [ | fuel ]; [ reflexivity | ].
    cbn [GetTupleFromUndo]. rewrite result_bind.
    assert (skip : forall n,
      result (fetch_undo_record E n 9 zhtup 0) = OutOfFuel).
    { induction n as [ | n IH ]; [ reflexivity | ].
      cbn [fetch_undo_record]. unfold fetch. rewrite bind_returned.
      exact IH. }
    now rewrite skip.
  - induction fuel as [ | fuel IH ]; [ reflexivity | ].
    cbn [walk_chain_length]. unfold walk_chain_step.
    cbn [UndoFetchRecord E world log_lookup]. cbn. now rewrite IH.
Qed.

(** ** The dirty snapshot *)

(** C9: ZHeapTupleSatisfiesDirty leaves the snapshot as set on entry (xmin
    and xmax invalid, speculativeToken 0, the rest as given) except for one
    field: xmax is the resolved xid exactly when a transaction in progress
    elsewhere deleted or non-in-place updated the tuple, or in-place updated
    it (not lock-only, the all-visible test having failed); xmin is the xid
    exactly when such a transaction inserted it (same test failed). *)
Theorem dirty_snapshot_writes (E : Collaborators) (fuel : nat)
    (zhtup : ZHeapTupleData) (snapshot : SnapshotData) (buffer : Buffer)
    (ctid : option ItemPointerData) (tr : list FetchCall)
    (visible : ZHeapTuple) (snapshot' : SnapshotData)
    (ctid' : option ItemPointerData) :
  ZHeapTupleSatisfiesDirty E fuel zhtup snapshot buffer ctid
  = (tr, Returned (visible, snapshot', ctid')) ->
  exists xid,
    result (raw_xact_xid E fuel zhtup buffer) = Returned xid /\
    let tuple := t_data zhtup in
    let writes_xmax :=
      in_progress_elsewhere E xid
      && (deleted_or_updated tuple
          || (inplace_updated_or_locked tuple
              && negb (all_visible E tuple xid)
              && negb (ZHEAP_XID_IS_LOCKED_ONLY (t_infomask tuple)))) in
    let writes_xmin :=
      in_progress_elsewhere E xid
      && negb (deleted_or_updated tuple)
      && negb (inplace_updated_or_locked tuple)
      && negb (all_visible E tuple xid) in
    speculativeToken snapshot' = 0 /\
    curcid snapshot' = curcid snapshot /\
    xip snapshot' = xip snapshot /\
    xmax snapshot' = (if writes_xmax then xid else InvalidTransactionId) /\
    xmin snapshot' = (if writes_xmin then xid else InvalidTransactionId) /\
    (writes_xmax = false -> writes_xmin = false ->
     snapshot' = dirty_entry snapshot).
Proof.
  unfold ZHeapTupleSatisfiesDirty, in_progress_elsewhere. intros run.
  destruct (raw_xact_xid E fuel zhtup buffer) as [tr0 [xid | | ]] eqn:raw;
    try discriminate.
  exists xid. split; [ reflexivity | ].
  rewrite bind_returned in run.
  destruct (deleted_or_updated (t_data zhtup));
    destruct (inplace_updated_or_locked (t_data zhtup));
    destruct (all_visible E (t_data zhtup) xid);
    destruct (TransactionIdIsCurrentTransactionId E xid);
    destruct (TransactionIdIsInProgress E xid);
    destruct (TransactionIdDidCommit E xid);
    destruct (ZHEAP_XID_IS_LOCKED_ONLY (t_infomask (t_data zhtup)));
    cbn [negb andb orb] in *;
    try (destruct (get_ctid_if_updated E fuel zhtup buffer ctid)
           as [tr1 [c1 | | ]];
         rewrite ?bind_returned in run);
    cbn [result fetches ret bind fst snd] in run;
    try discriminate;
    injection run as _ _ <- _;
    repeat split; intros; congruence.
Qed.

Lemma dirty_snapshot_writes_witness :
  exists xid,
    result (raw_xact_xid (world 150 [120] [30] []) 1
              (row ZHEAP_INPLACE_UPDATED 2) (page 120 7)) = Returned xid /\
    xmax (mkSnapshot 0 120 5 0 [50]) = xid.
Proof.
  destruct (dirty_snapshot_writes (world 150 [120] [30] []) 1
              (row ZHEAP_INPLACE_UPDATED 2) snapshot_S (page 120 7) None []
              (Some (row ZHEAP_INPLACE_UPDATED 2))
              (mkSnapshot 0 120 5 0 [50]) None eq_refl)
    as [xid [resolved [_ [_ [_ [written _]]]]]].
  exists xid. split; [ exact resolved | ].
  rewrite written. injection resolved as <-. reflexivity.
Defined.

(** ** An aborted transaction under a dirty snapshot *)

(** C10, as the code has it: with assertions disabled, when the resolved xid
    is of an aborted transaction (not current, not in progress, not
    committed) and the tuple is deleted or non-in-place updated, or the
    all-visible test fails (slot not frozen and xid not preceding
    RecentGlobalXmin), ZHeapTupleSatisfiesDirty returns NULL; it fetches no
    undo record beyond those that resolved the xid and leaves xmin and xmax
    invalid, as set on entry. *)
Theorem dirty_aborted_is_null (E : Collaborators) (fuel : nat)
    (zhtup : ZHeapTupleData) (snapshot : SnapshotData) (buffer : Buffer)
    (ctid : option ItemPointerData) (tr : list FetchCall)
    (xid : TransactionId) :
  raw_xact_xid E fuel zhtup buffer = (tr, Returned xid) ->
  TransactionIdIsCurrentTransactionId E xid = false ->
  TransactionIdIsInProgress E xid = false ->
  TransactionIdDidCommit E xid = false ->
  deleted_or_updated (t_data zhtup) = true \/
  all_visible E (t_data zhtup) xid = false ->
  ZHeapTupleSatisfiesDirty E fuel zhtup snapshot buffer ctid
  = (tr, Returned (None, dirty_entry snapshot, ctid)).
Proof.
  intros raw current progress commit guard.
  unfold ZHeapTupleSatisfiesDirty.
  rewrite raw, bind_returned, current, progress, commit.
  destruct (deleted_or_updated (t_data zhtup)); [ finish_run | ].
  destruct guard as [ | ->]; [ discriminate | ].
  destruct (inplace_updated_or_locked (t_data zhtup)); finish_run.
Qed.

Lemma dirty_aborted_is_null_witness :
  ZHeapTupleSatisfiesDirty (world 150 [50] [30] []) 1
    (row ZHEAP_INPLACE_UPDATED 2) snapshot_S (page 140 7) None
  = ([], Returned (None, dirty_entry snapshot_S, None)).
Proof.
  apply (dirty_aborted_is_null (world 150 [50] [30] []) 1
           (row ZHEAP_INPLACE_UPDATED 2) snapshot_S (page 140 7) None []
           140);
    try reflexivity.
  right. reflexivity.
Defined.

(** C10, as stated, fails: xid 40 is aborted (not current, not in progress,
    not committed) and precedes the horizon 100, and the in-place updated
    tuple is returned; so is a tuple with a frozen slot, whose resolved xid
    is the invalid one, of which the transaction manager says the same. *)
Lemma dirty_aborted_all_visible_returned :
  let E := world 150 [50] [30] [] in
  let zhtup := row ZHEAP_INPLACE_UPDATED 2 in
  let frozen := row 0 ZHTUP_SLOT_FROZEN in
  raw_xact_xid E 1 zhtup (page 40 7) = ([], Returned 40)
  /\ TransactionIdIsCurrentTransactionId E 40 = false
  /\ TransactionIdIsInProgress E 40 = false
  /\ TransactionIdDidCommit E 40 = false
  /\ ZHeapTupleSatisfiesDirty E 1 zhtup snapshot_S (page 40 7) None
     = ([], Returned (Some zhtup, dirty_entry snapshot_S, None))
  /\ raw_xact_xid E 1 frozen (page 40 7)
     = ([], Returned InvalidTransactionId)
  /\ TransactionIdIsCurrentTransactionId E InvalidTransactionId = false
  /\ TransactionIdIsInProgress E InvalidTransactionId = false
  /\ TransactionIdDidCommit E InvalidTransactionId = false
  /\ ZHeapTupleSatisfiesDirty E 1 frozen snapshot_S (page 40 7) None
     = ([], Returned (Some frozen, dirty_entry snapshot_S, None)).
Proof. repeat split. Qed.

(** ** Scenarios of the specification

    Horizon 100, snapshot S at command 5 with xid 50 in flight; the current
    transaction is 150. *)

(** Scenario 1: an in-place update by xid 40, which precedes the horizon. *)
Example scenario_1 :
  ZHeapTupleSatisfiesMVCC (world 150 [50] [30; 40] []) 3
    (row ZHEAP_INPLACE_UPDATED 2) snapshot_S (page 40 7) None
  = ([], Returned (Some (row ZHEAP_INPLACE_UPDATED 2))).
Proof. reflexivity. Qed.

(** Scenario 3: the current transaction deleted the tuple at command 7; the
    walker restores the prior image and the updater sees its own change. *)
Example scenario_3 :
  let E :=
    world 150 [50] [30]
      [(7, mkUndoRecord UNDO_DELETE 30 7 0 (mkItemPointer 0 0)
             (mkHeader 0 2 11))] in
  ZHeapTupleSatisfiesMVCC E 3 (row ZHEAP_DELETED 2) snapshot_S (page 150 7)
    None
  = ([mkFetch 7 1 1 0],
     Returned (Some (mkTuple (mkItemPointer 1 1) 16384 (mkHeader 0 2 11))))
  /\ result (ZHeapTupleSatisfiesUpdate E 3 (row ZHEAP_DELETED 2) 5
               (page 150 7) (mkUpdateOutputs None 0 0 false) false false
               snapshot_S)
     = Returned (HeapTupleSelfUpdated, mkUpdateOutputs None 150 7 false).
Proof. split; reflexivity. Qed.

(** Scenario 4: the same delete at command 3. *)
Example scenario_4 :
  let E :=
    world 150 [50] [30]
      [(7, mkUndoRecord UNDO_DELETE 30 3 0 (mkItemPointer 0 0)
             (mkHeader 0 2 11))] in
  ZHeapTupleSatisfiesMVCC E 3 (row ZHEAP_DELETED 2) snapshot_S (page 150 7)
    None
  = ([], Returned None)
  /\ result (ZHeapTupleSatisfiesUpdate E 3 (row ZHEAP_DELETED 2) 5
               (page 150 7) (mkUpdateOutputs None 0 0 false) false false
               snapshot_S)
     = Returned (HeapTupleInvisible, mkUpdateOutputs None 150 3 false).
Proof. split; reflexivity. Qed.

(** Scenario 5: the slot of the tuple was reused; the identity is read from
    the slot-reuse record R1 (pointer 11): xid 70, next pointer R2 (10). *)
Example scenario_5 :
  let E :=
    world 150 [50] [30; 70]
      [(11, mkUndoRecord UNDO_INVALID_XACT_SLOT 70 2 10 (mkItemPointer 0 0)
              (mkHeader 0 2 0));
       (10, mkUndoRecord UNDO_INPLACE_UPDATE 60 1 9 (mkItemPointer 0 0)
              (mkHeader 0 2 11));
       (9, mkUndoRecord UNDO_INVALID_XACT_SLOT 60 1 0 (mkItemPointer 0 0)
             (mkHeader 0 2 0))] in
  let zhtup := row (ZHEAP_INVALID_XACT_SLOT + ZHEAP_INPLACE_UPDATED) 2 in
  mvcc_xact_info E 3 zhtup (page 180 11)
  = ([mkFetch 11 1 1 0], Returned (mkXactInfo 70 2 10))
  /\ result (ZHeapTupleSatisfiesMVCC E 3 zhtup snapshot_S (page 180 11) None)
     = Returned (Some zhtup).
Proof. split; reflexivity. Qed.

(** Scenario 6: xid 80 moved the tuple to (5,9) and committed. *)
Example scenario_6 :
  let E :=
    world 150 [50] [30; 80]
      [(7, mkUndoRecord UNDO_UPDATE 30 3 0 (mkItemPointer 5 9)
             (mkHeader 0 2 11))] in
  result (ZHeapTupleSatisfiesUpdate E 3 (row ZHEAP_UPDATED 2) 5 (page 80 7)
            (mkUpdateOutputs (Some (mkItemPointer 0 0)) 0 0 false) false
            false snapshot_S)
  = Returned (HeapTupleUpdated,
              mkUpdateOutputs (Some (mkItemPointer 5 9)) 80 3 false)
  /\ result (ZHeapTupleSatisfiesMVCC E 3 (row ZHEAP_UPDATED 2) snapshot_S
               (page 80 7) None)
     = Returned None.
Proof. split; reflexivity. Qed.

(** * Further properties of the code *)

(** ** The identity of a tuple on the page *)

(** X10: the loop that opens the predicates reads the records of the tuple
    from the undo pointer of its slot along uur_blkprev, each fetch made for
    the place of the tuple and without a previous xid; it passes every
    record that is not of the slot-reuse kind, whatever its xid, and ends at
    the first slot-reuse record, taking its prev xid, cid and blkprev, or at
    the first discarded record, with the invalid xid and cid.  It never
    reads through NULL. *)
Theorem tuple_identity_loop (E : Collaborators) (fuel : nat)
    (zhtup : ZHeapTupleData) (urec_ptr : UndoRecPtr) :
  let run := tuple_xact_info E fuel zhtup urec_ptr in
  along_blkprev E urec_ptr (fetches run) /\
  Forall (fetch_for zhtup) (fetches run) /\
  match result run with
  | Returned info =>
      exists before c,
        fetches run = before ++ [c] /\
        Forall (tuple_loop_continues E) before /\
        tuple_loop_exits E c info
  | OutOfFuel =>
      Forall (tuple_loop_continues E) (fetches run) /\
      length (fetches run) = fuel
  | NullDereference => False
  end.
Proof.
  intros run. subst run. revert urec_ptr.
  induction fuel as [ | fuel IH ]; intros urec_ptr.
  { cbn. repeat split; constructor. }
  cbn [tuple_xact_info]. unfold fetch. rewrite bind_returned.
  cbn [fetches result fst snd app along_blkprev fc_ptr].
  set (c := mkFetch urec_ptr _ _ _).
  assert (mine : fetch_for zhtup c) by (repeat split).
  unfold fetched_record at 1. cbn [fc_ptr fc_blk fc_off fc_xid c].
  destruct (UndoFetchRecord E urec_ptr _ _ _) as [urec | ] eqn:got.
  - destruct (undo_type_eqb _ _) eqn:kind; cbn [negb].
    + apply undo_type_eqb_eq in kind.
      repeat split; [ repeat constructor; exact mine | ].
      exists [], c. repeat split; [ constructor | ].
      right. exists urec. repeat split; assumption.
    + assert (again : tuple_loop_continues E c).
      { exists urec. split; [ exact got | ].
        intros same. apply undo_type_eqb_eq in same. congruence. }
      destruct (IH (uur_blkprev urec)) as [linked [mines ended]].
      destruct (tuple_xact_info E fuel zhtup (uur_blkprev urec))
        as [tr [info | | ]]; cbn [fetches result fst snd] in *.
      * repeat split; [ assumption | now constructor | ].
        destruct ended as [before [c' [-> [rounds last]]]].
        exists (c :: before), c'. repeat split; auto.
      * contradiction.
      * repeat split; [ assumption | now constructor | | ].
        -- constructor; [ assumption | apply ended ].
        -- simpl. f_equal. apply ended.
  - repeat split; [ repeat constructor; exact mine | ].
    exists [], c. repeat split; [ constructor | ].
    left. split; [ exact got | reflexivity ].
Qed.

(** ** The vacuum predicate *)

Lemma oldest_xmin_xact_xid_cases (E : Collaborators) (fuel : nat)
    (zhtup : ZHeapTupleData) (buffer : Buffer) :
  (ZHeapTupleHeaderGetXactSlot (t_data zhtup) = ZHTUP_SLOT_FROZEN /\
   oldest_xmin_xact_xid E fuel zhtup buffer = ret InvalidTransactionId) \/
  (ZHeapTupleHeaderGetXactSlot (t_data zhtup) <> ZHTUP_SLOT_FROZEN /\
   TransactionIdPrecedes E (ZHeapTupleHeaderGetRawXid (t_data zhtup) buffer)
     (RecentGlobalXmin E) = true /\
   oldest_xmin_xact_xid E fuel zhtup buffer
   = ret (ZHeapTupleHeaderGetRawXid (t_data zhtup) buffer)) \/
  (ZHeapTupleHeaderGetXactSlot (t_data zhtup) <> ZHTUP_SLOT_FROZEN /\
   TransactionIdPrecedes E (ZHeapTupleHeaderGetRawXid (t_data zhtup) buffer)
     (RecentGlobalXmin E) = false /\
   oldest_xmin_xact_xid E fuel zhtup buffer
   = raw_xact_xid E fuel zhtup buffer).
Proof.
  unfold oldest_xmin_xact_xid, raw_xact_xid.
  destruct (ZHeapTupleHeaderGetXactSlot (t_data zhtup) =? ZHTUP_SLOT_FROZEN)
    eqn:frozen; cbn [negb andb].
  - left. apply Z.eqb_eq in frozen. now split.
  - right. apply Z.eqb_neq in frozen.
    destruct (TransactionIdPrecedes E _ _); cbn [negb]; [ left | right ];
      repeat split; assumption.
Qed.

Lemma surely_dead_cases (E : Collaborators) (fuel : nat)
    (zhtup : ZHeapTupleData) (OldestXmin : TransactionId) (buffer : Buffer) :
  result (ZHeapTupleIsSurelyDead E fuel zhtup OldestXmin buffer)
  = Returned true ->
  deleted_or_updated (t_data zhtup) = true /\
  exists xid,
    result (raw_xact_xid E fuel zhtup buffer) = Returned xid /\
    all_visible E (t_data zhtup) xid = true.
Proof.
  unfold ZHeapTupleIsSurelyDead. rewrite result_bind.
  destruct (result (raw_xact_xid E fuel zhtup buffer)) as [xid | | ];
    try discriminate.
  destruct (deleted_or_updated (t_data zhtup)); [ | discriminate ].
  destruct (all_visible E (t_data zhtup) xid) eqn:vis; [ | discriminate ].
  intros _. split; [ reflexivity | eauto ].
Qed.

(** X1: a tuple that ZHeapTupleIsSurelyDead calls dead is HEAPTUPLE_DEAD for
    ZHeapTupleSatisfiesOldestXmin, whatever OldestXmin the two are given,
    although the latter resolves the xid by a shorter way. *)
Theorem surely_dead_is_dead_for_vacuum (E : Collaborators) (fuel : nat)
    (zhtup : ZHeapTupleData) (OldestXmin OldestXmin' : TransactionId)
    (buffer : Buffer) :
  result (ZHeapTupleIsSurelyDead E fuel zhtup OldestXmin buffer)
  = Returned true ->
  exists xid,
    result (ZHeapTupleSatisfiesOldestXmin E fuel zhtup OldestXmin' buffer)
    = Returned (HEAPTUPLE_DEAD, xid).
Proof.
  intros dead.
  destruct (surely_dead_cases _ _ _ _ _ dead) as [class [xid [raw vis]]].
  unfold ZHeapTupleSatisfiesOldestXmin. rewrite result_bind, class.
  destruct (oldest_xmin_xact_xid_cases E fuel zhtup buffer)
    as [[frozen ->] | [[valid [old ->]] | [valid [recent ->]]]].
  - cbn [result ret snd]. rewrite all_visible_frozen by assumption.
    eexists. reflexivity.
  - cbn [result ret snd]. unfold all_visible. rewrite old, orb_true_r.
    eexists. reflexivity.
  - rewrite raw, vis. eexists. reflexivity.
Qed.

Lemma surely_dead_is_dead_for_vacuum_witness :
  exists xid,
    result (ZHeapTupleSatisfiesOldestXmin (world 150 [50] [30] []) 1
              (row ZHEAP_DELETED 2) 120 (page 40 7))
    = Returned (HEAPTUPLE_DEAD, xid).
Proof.
  apply (surely_dead_is_dead_for_vacuum (world 150 [50] [30] []) 1
           (row ZHEAP_DELETED 2) 100 120 (page 40 7)).
  reflexivity.
Defined.

(** X2: what a verdict of ZHeapTupleSatisfiesOldestXmin says of the tuple
    and of the xid it hands back.  DEAD: deleted or moved and all-visible
    or by a committed xid preceding OldestXmin - or an insert or in-place
    update of an aborted xid.  RECENTLY_DEAD: deleted or moved by a
    committed xid not preceding OldestXmin.  The in-progress verdicts: the
    xid is the current transaction or in progress.  LIVE: a deletion by an
    aborted xid, a lock, an all-visible tuple or the change of a committed
    xid. *)
Theorem oldest_xmin_verdict (E : Collaborators) (fuel : nat)
    (zhtup : ZHeapTupleData) (OldestXmin : TransactionId) (buffer : Buffer)
    (tr : list FetchCall) (verdict : HTSV_Result) (xid : TransactionId) :
  ZHeapTupleSatisfiesOldestXmin E fuel zhtup OldestXmin buffer
  = (tr, Returned (verdict, xid)) ->
  let tuple := t_data zhtup in
  let running :=
    TransactionIdIsCurrentTransactionId E xid
    || TransactionIdIsInProgress E xid in
  let committed := negb running && TransactionIdDidCommit E xid in
  let aborted := negb running && negb (TransactionIdDidCommit E xid) in
  oldest_xmin_xact_xid E fuel zhtup buffer = (tr, Returned xid) /\
  match verdict with
  | HEAPTUPLE_DEAD =>
      (deleted_or_updated tuple = true /\
       (all_visible E tuple xid = true \/
        (committed = true /\
         TransactionIdPrecedes E xid OldestXmin = true))) \/
      (deleted_or_updated tuple = false /\
       flag_set (t_infomask tuple) ZHEAP_XID_LOCK_ONLY = false /\
       all_visible E tuple xid = false /\ aborted = true)
  | HEAPTUPLE_RECENTLY_DEAD =>
      deleted_or_updated tuple = true /\
      all_visible E tuple xid = false /\ committed = true /\
      TransactionIdPrecedes E xid OldestXmin = false
  | HEAPTUPLE_DELETE_IN_PROGRESS =>
      deleted_or_updated tuple = true /\
      all_visible E tuple xid = false /\ running = true
  | HEAPTUPLE_INSERT_IN_PROGRESS =>
      deleted_or_updated tuple = false /\
      flag_set (t_infomask tuple) ZHEAP_XID_LOCK_ONLY = false /\
      all_visible E tuple xid = false /\ running = true
  | HEAPTUPLE_LIVE =>
      (deleted_or_updated tuple = true /\
       all_visible E tuple xid = false /\ aborted = true) \/
      (deleted_or_updated tuple = false /\
       (flag_set (t_infomask tuple) ZHEAP_XID_LOCK_ONLY = true \/
        all_visible E tuple xid = true \/ committed = true))
  end.
Proof.
  unfold ZHeapTupleSatisfiesOldestXmin. intros run.
  destruct (oldest_xmin_xact_xid E fuel zhtup buffer)
    as [tr0 [xid0 | | ]]; try discriminate.
  rewrite bind_returned in run.
  destruct (deleted_or_updated (t_data zhtup));
    destruct (flag_set (t_infomask (t_data zhtup)) ZHEAP_XID_LOCK_ONLY);
    destruct (all_visible E (t_data zhtup) xid0) eqn:vis;
    destruct (TransactionIdIsCurrentTransactionId E xid0) eqn:current;
    destruct (TransactionIdIsInProgress E xid0) eqn:progress;
    destruct (TransactionIdDidCommit E xid0) eqn:commit;
    destruct (TransactionIdPrecedes E xid0 OldestXmin) eqn:old;
    cbn [negb fetches result ret fst snd] in run;
    rewrite app_nil_r in run;
    injection run as -> <- <-;
    rewrite ?vis, ?current, ?progress, ?commit, ?old;
    cbn [negb andb orb]; intuition congruence.
Qed.

Lemma oldest_xmin_verdict_witness :
  TransactionIdPrecedes (world 150 [50] [30; 130] []) 130 120 = false.
Proof.
  apply (oldest_xmin_verdict (world 150 [50] [30; 130] []) 1
           (row ZHEAP_DELETED 2) 120 (page 130 7) []
           HEAPTUPLE_RECENTLY_DEAD 130 eq_refl).
Defined.

(** ** What the MVCC predicate sees without a walk *)

Lemma direct_answer {A} (tr : list FetchCall) (r : Run A) (a : A) :
  (tr ++ fetches r, result r) = (tr, Returned a) -> r = ([], Returned a).
Proof.
  intros same. injection same as no_fetch returned.
  rewrite <- (app_nil_r tr) in no_fetch at 2.
  apply app_inv_head in no_fetch.
  destruct r as [tr' o]. cbn in *. congruence.
Qed.

Lemma GetTupleFromUndo_not_silent (E : Collaborators) (fuel : nat)
    (p : UndoRecPtr) (zhtup : ZHeapTupleData) (snapshot : SnapshotData)
    (buffer : Buffer) (xid : TransactionId) (v : ZHeapTuple) :
  GetTupleFromUndo E fuel p zhtup snapshot buffer xid <> ([], Returned v).
Proof.
  destruct fuel as [ | fuel ]; [ discriminate | ].
  cbn [GetTupleFromUndo]. intros silent.
  destruct (fetch_undo_record E (S fuel) p zhtup xid)
    as [tr [urec | | ]] eqn:read; try discriminate.
  rewrite bind_returned in silent. injection silent as no_fetch _.
  apply app_eq_nil in no_fetch as [-> _].
  now apply fetch_undo_record_not_silent in read.
Qed.

(** When ZHeapTupleSatisfiesMVCC answers with a tuple after no other fetch
    than those that resolved the identity, the tuple is the one it was
    given, it is neither deleted nor moved, and it is visible by rule. *)
Lemma mvcc_direct_cases (E : Collaborators) (fuel : nat)
    (zhtup : ZHeapTupleData) (snapshot : SnapshotData) (buffer : Buffer)
    (ctid : option ItemPointerData) (tr : list FetchCall) (info : XactInfo)
    (v : ZHeapTupleData) :
  mvcc_xact_info E fuel zhtup buffer = (tr, Returned info) ->
  ZHeapTupleSatisfiesMVCC E fuel zhtup snapshot buffer ctid
  = (tr, Returned (Some v)) ->
  v = zhtup /\
  deleted_or_updated (t_data zhtup) = false /\
  visible_by_rule E snapshot zhtup
    (ZHEAP_XID_IS_LOCKED_ONLY (t_infomask (t_data zhtup))) info.
Proof.
  intros resolved run. unfold ZHeapTupleSatisfiesMVCC in run.
  rewrite resolved, bind_returned in run. apply direct_answer in run.
  unfold visible_by_rule.
  destruct (deleted_or_updated (t_data zhtup));
    destruct (inplace_updated_or_locked (t_data zhtup));
    destruct (all_visible E (t_data zhtup) (xi_xid info));
    destruct (TransactionIdIsCurrentTransactionId E (xi_xid info));
    destruct (ZHEAP_XID_IS_LOCKED_ONLY (t_infomask (t_data zhtup)));
    destruct (curcid snapshot <=? xi_cid info) eqn:late;
    destruct (XidInMVCCSnapshot E (xi_xid info) snapshot);
    destruct (TransactionIdDidCommit E (xi_xid info));
    try (now apply GetTupleFromUndo_not_silent in run);
    try discriminate;
    injection run as <-;
    try apply Z.leb_gt in late;
    intuition congruence.
Qed.

(** X3: a tuple that ZHeapTupleSatisfiesMVCC shows to some snapshot as it
    stands on the page is never dead for vacuum: the verdict of
    ZHeapTupleSatisfiesOldestXmin is LIVE or INSERT_IN_PROGRESS, for every
    OldestXmin. *)
Theorem seen_tuple_is_not_dead (E : Collaborators) (fuel : nat)
    (zhtup : ZHeapTupleData) (snapshot : SnapshotData) (buffer : Buffer)
    (ctid : option ItemPointerData) (tr : list FetchCall) (info : XactInfo)
    (v : ZHeapTupleData) (OldestXmin : TransactionId) :
  mvcc_xact_info E fuel zhtup buffer = (tr, Returned info) ->
  ZHeapTupleSatisfiesMVCC E fuel zhtup snapshot buffer ctid
  = (tr, Returned (Some v)) ->
  exists verdict xid,
    result (ZHeapTupleSatisfiesOldestXmin E fuel zhtup OldestXmin buffer)
    = Returned (verdict, xid) /\
    (verdict = HEAPTUPLE_LIVE \/ verdict = HEAPTUPLE_INSERT_IN_PROGRESS).
Proof.
  intros resolved run.
  destruct (mvcc_direct_cases _ _ _ _ _ _ _ _ _ resolved run)
    as [_ [class rule]].
  unfold ZHeapTupleSatisfiesOldestXmin. rewrite result_bind, class.
  destruct (oldest_xmin_xact_xid_cases E fuel zhtup buffer)
    as [[frozen ->] | [[valid [old ->]] | [valid [recent ->]]]].
  - cbn [result ret snd]. rewrite all_visible_frozen by assumption.
    destruct (flag_set _ ZHEAP_XID_LOCK_ONLY);
      do 2 eexists; (split; [ reflexivity | now left ]).
  - cbn [result ret snd]. unfold all_visible. rewrite old, orb_true_r.
    destruct (flag_set _ ZHEAP_XID_LOCK_ONLY);
      do 2 eexists; (split; [ reflexivity | now left ]).
  - rewrite (raw_xact_xid_of_info _ _ _ _ _ _ resolved).
    cbn [result snd]. unfold visible_by_rule in rule.
    destruct (flag_set _ ZHEAP_XID_LOCK_ONLY);
      destruct (all_visible E (t_data zhtup) (xi_xid info));
      destruct (TransactionIdIsCurrentTransactionId E (xi_xid info));
      destruct (TransactionIdIsInProgress E (xi_xid info));
      destruct (TransactionIdDidCommit E (xi_xid info));
      try (do 2 eexists; split; [ reflexivity | ]; tauto);
      exfalso; intuition congruence.
Qed.

Lemma seen_tuple_is_not_dead_witness :
  exists verdict xid,
    result (ZHeapTupleSatisfiesOldestXmin (world 150 [50] [30; 130] []) 1
              (row ZHEAP_INPLACE_UPDATED 2) 140 (page 130 7))
    = Returned (verdict, xid) /\
    (verdict = HEAPTUPLE_LIVE \/ verdict = HEAPTUPLE_INSERT_IN_PROGRESS).
Proof.
  apply (seen_tuple_is_not_dead (world 150 [50] [30; 130] []) 1
           (row ZHEAP_INPLACE_UPDATED 2) snapshot_S (page 130 7) None []
           (mkXactInfo 130 InvalidCommandId 7)
           (row ZHEAP_INPLACE_UPDATED 2) 140);
    reflexivity.
Defined.

(** X9: a dirty snapshot sees at least what an MVCC snapshot sees on the
    page: when ZHeapTupleSatisfiesMVCC answers with the tuple as it stands,
    ZHeapTupleSatisfiesDirty returns that tuple too, after the same fetches
    and leaving the caller's ctid alone. *)
Theorem mvcc_seen_is_dirty_seen (E : Collaborators) (fuel : nat)
    (zhtup : ZHeapTupleData) (snapshot dirty : SnapshotData)
    (buffer : Buffer) (ctid ctid' : option ItemPointerData)
    (tr : list FetchCall) (info : XactInfo) (v : ZHeapTupleData) :
  mvcc_xact_info E fuel zhtup buffer = (tr, Returned info) ->
  ZHeapTupleSatisfiesMVCC E fuel zhtup snapshot buffer ctid
  = (tr, Returned (Some v)) ->
  v = zhtup /\
  exists dirty',
    ZHeapTupleSatisfiesDirty E fuel zhtup dirty buffer ctid'
    = (tr, Returned (Some zhtup, dirty', ctid')).
Proof.
  intros resolved run.
  destruct (mvcc_direct_cases _ _ _ _ _ _ _ _ _ resolved run)
    as [same [class rule]].
  split; [ exact same | ].
  unfold ZHeapTupleSatisfiesDirty.
  rewrite (raw_xact_xid_of_info _ _ _ _ _ _ resolved), bind_returned, class.
  unfold visible_by_rule in rule.
  destruct (inplace_updated_or_locked (t_data zhtup));
    destruct (all_visible E (t_data zhtup) (xi_xid info));
    destruct (TransactionIdIsCurrentTransactionId E (xi_xid info));
    destruct (TransactionIdIsInProgress E (xi_xid info));
    destruct (TransactionIdDidCommit E (xi_xid info));
    destruct (ZHEAP_XID_IS_LOCKED_ONLY (t_infomask (t_data zhtup)));
    cbn [negb fetches result ret fst snd]; rewrite app_nil_r;
    try (eexists; reflexivity);
    exfalso; intuition congruence.
Qed.

Lemma mvcc_seen_is_dirty_seen_witness :
  exists dirty',
    ZHeapTupleSatisfiesDirty (world 150 [50] [30; 130] []) 1
      (row ZHEAP_INPLACE_UPDATED 2) snapshot_S (page 130 7) None
    = ([], Returned (Some (row ZHEAP_INPLACE_UPDATED 2), dirty', None)).
Proof.
  apply (mvcc_seen_is_dirty_seen (world 150 [50] [30; 130] []) 1
           (row ZHEAP_INPLACE_UPDATED 2) snapshot_S snapshot_S (page 130 7)
           None None [] (mkXactInfo 130 InvalidCommandId 7)
           (row ZHEAP_INPLACE_UPDATED 2));
    reflexivity.
Defined.

(** ** All-visible tuples *)

Lemma update_xact_info_of_info (E : Collaborators) (fuel : nat)
    (zhtup : ZHeapTupleData) (buffer : Buffer) (cid : CommandId)
    (tr : list FetchCall) (info : XactInfo) :
  mvcc_xact_info E fuel zhtup buffer = (tr, Returned info) ->
  exists cid',
    update_xact_info E fuel zhtup buffer cid
    = (tr, Returned (mkXactInfo (xi_xid info) cid' (xi_urec_ptr info))).
Proof.
  unfold mvcc_xact_info, update_xact_info.
  destruct (negb _); [ destruct (flag_set _ _) | ]; intros resolved.
  - exists (xi_cid info). rewrite resolved. now destruct info.
  - exists (xi_cid info). rewrite resolved. now destruct info.
  - exists cid. now inversion resolved.
Qed.

(** X4: when the slot of a tuple is frozen or its resolved xid precedes
    RecentGlobalXmin, the answers depend on neither the snapshot nor the
    state of any transaction: ZHeapTupleSatisfiesMVCC returns NULL for a
    deleted or moved tuple and the tuple otherwise; for a tuple neither
    deleted nor moved ZHeapTupleSatisfiesDirty returns it with xmin and xmax
    invalid, and ZHeapTupleSatisfiesUpdate says HeapTupleMayBeUpdated and
    leaves the ctid as given.  None fetches beyond the identity. *)
Theorem all_visible_answers (E : Collaborators) (fuel : nat)
    (zhtup : ZHeapTupleData) (snapshot : SnapshotData) (buffer : Buffer)
    (ctid : option ItemPointerData) (curcid : CommandId)
    (out : UpdateOutputs) (free_zhtup lock_allowed : bool)
    (tr : list FetchCall) (info : XactInfo) :
  mvcc_xact_info E fuel zhtup buffer = (tr, Returned info) ->
  all_visible E (t_data zhtup) (xi_xid info) = true ->
  ZHeapTupleSatisfiesMVCC E fuel zhtup snapshot buffer ctid
  = (tr, Returned (if deleted_or_updated (t_data zhtup)
                   then None else Some zhtup)) /\
  (deleted_or_updated (t_data zhtup) = false ->
   ZHeapTupleSatisfiesDirty E fuel zhtup snapshot buffer ctid
   = (tr, Returned (Some zhtup, dirty_entry snapshot, ctid)) /\
   exists cid',
     ZHeapTupleSatisfiesUpdate E fuel zhtup curcid buffer out free_zhtup
       lock_allowed snapshot
     = (tr, Returned (HeapTupleMayBeUpdated,
                      mkUpdateOutputs (uo_ctid out) (xi_xid info) cid'
                        (inplace_updated_or_locked (t_data zhtup))))).
Proof.
  intros resolved vis. split; [ | intros class; split ].
  - unfold ZHeapTupleSatisfiesMVCC. rewrite resolved, bind_returned, vis.
    destruct (deleted_or_updated (t_data zhtup));
      [ | destruct (inplace_updated_or_locked (t_data zhtup)) ];
      finish_run.
  - unfold ZHeapTupleSatisfiesDirty.
    rewrite (raw_xact_xid_of_info _ _ _ _ _ _ resolved), bind_returned,
      class, vis.
    destruct (inplace_updated_or_locked (t_data zhtup)); finish_run.
  - destruct (update_xact_info_of_info E fuel zhtup buffer (uo_cid out)
                tr info resolved) as [cid' same].
    exists cid'. unfold ZHeapTupleSatisfiesUpdate.
    rewrite same, bind_returned, class. cbn [xi_xid xi_cid xi_urec_ptr].
    rewrite vis.
    destruct (inplace_updated_or_locked (t_data zhtup)); finish_run.
Qed.

Lemma all_visible_answers_witness :
  ZHeapTupleSatisfiesMVCC (world 150 [40] [] []) 1 (row ZHEAP_DELETED 2)
    (mkSnapshot 0 0 5 0 [40]) (page 40 7) None
  = ([], Returned None).
Proof.
  apply (all_visible_answers (world 150 [40] [] []) 1 (row ZHEAP_DELETED 2)
           (mkSnapshot 0 0 5 0 [40]) (page 40 7) None 5
           (mkUpdateOutputs None 0 0 false) false false []
           (mkXactInfo 40 InvalidCommandId 7));
    reflexivity.
Defined.

(** ** Answers of the dirty predicate *)

(** X13: ZHeapTupleSatisfiesDirty never looks for an older version: its
    answer is the tuple it was given or NULL.  With the tuple it leaves the
    caller's ctid alone and fetches nothing beyond the identity; with NULL
    it leaves xmin and xmax invalid, and the xid was not that of a
    transaction in progress elsewhere for a deleted or moved tuple. *)
Theorem dirty_answers (E : Collaborators) (fuel : nat)
    (zhtup : ZHeapTupleData) (snapshot : SnapshotData) (buffer : Buffer)
    (ctid : option ItemPointerData) (tr : list FetchCall)
    (visible : ZHeapTuple) (snapshot' : SnapshotData)
    (ctid' : option ItemPointerData) :
  ZHeapTupleSatisfiesDirty E fuel zhtup snapshot buffer ctid
  = (tr, Returned (visible, snapshot', ctid')) ->
  exists tr0 xid,
    raw_xact_xid E fuel zhtup buffer = (tr0, Returned xid) /\
    match visible with
    | Some v =>
        v = zhtup /\ ctid' = ctid /\ tr = tr0 /\
        (deleted_or_updated (t_data zhtup) = true ->
         in_progress_elsewhere E xid = true)
    | None =>
        snapshot' = dirty_entry snapshot /\
        (deleted_or_updated (t_data zhtup) = true ->
         in_progress_elsewhere E xid = false) /\
        (ctid' <> ctid ->
         flag_set (t_infomask (t_data zhtup)) ZHEAP_UPDATED = true)
    end.
Proof.
  unfold ZHeapTupleSatisfiesDirty, in_progress_elsewhere. intros run.
  destruct (raw_xact_xid E fuel zhtup buffer) as [tr0 [xid | | ]] eqn:raw;
    try discriminate.
  exists tr0, xid. split; [ reflexivity | ].
  rewrite bind_returned in run.
  assert (looked_up : forall tr1 c1,
    get_ctid_if_updated E fuel zhtup buffer ctid = (tr1, Returned c1) ->
    c1 <> ctid ->
    flag_set (t_infomask (t_data zhtup)) ZHEAP_UPDATED = true).
  { unfold get_ctid_if_updated. intros tr1 c1 got changed.
    destruct ctid as [c | ]; [ | inversion got; congruence ].
    destruct (flag_set _ ZHEAP_UPDATED); [ reflexivity | ].
    inversion got; congruence. }
  destruct (deleted_or_updated (t_data zhtup));
    destruct (inplace_updated_or_locked (t_data zhtup));
    destruct (all_visible E (t_data zhtup) xid);
    destruct (TransactionIdIsCurrentTransactionId E xid);
    destruct (TransactionIdIsInProgress E xid);
    destruct (TransactionIdDidCommit E xid);
    destruct (ZHEAP_XID_IS_LOCKED_ONLY (t_infomask (t_data zhtup)));
    cbn [negb andb orb] in *;
    try (destruct (get_ctid_if_updated E fuel zhtup buffer ctid)
           as [tr1 [c1 | | ]] eqn:got;
         rewrite ?bind_returned in run;
         try pose proof (looked_up _ _ eq_refl) as moved);
    cbn [result fetches ret bind fst snd] in run;
    try discriminate;
    injection run as <- <- <- <-;
    rewrite ?app_nil_r;
    repeat split; intros; try congruence; auto.
Qed.

Lemma dirty_answers_witness :
  in_progress_elsewhere (world 150 [120] [30] []) 120 = true.
Proof.
  destruct (dirty_answers (world 150 [120] [30] []) 1 (row ZHEAP_DELETED 2)
              snapshot_S (page 120 7) None []
              (Some (row ZHEAP_DELETED 2)) (mkSnapshot 0 120 5 0 [50]) None
              eq_refl)
    as [tr0 [xid [resolved [_ [_ [_ running]]]]]].
  injection resolved as _ <-. now apply running.
Defined.

(** ** Verdicts of the update predicate *)

(** X8: ZHeapTupleSatisfiesUpdate hands back the resolved xid and cid, and
    its verdict tells of that xid: HeapTupleUpdated only for an xid that is
    neither current nor in progress and did commit (a deletion or move, or
    an in-place change that the snapshot holds in progress while locking is
    not allowed); HeapTupleSelfUpdated only for the current transaction at
    a command not before curcid; HeapTupleBeingUpdated only for a lock of
    the current transaction or an xid in progress elsewhere;
    HeapTupleMayBeUpdated on a deleted or moved tuple only for an aborted
    xid; HeapTupleWouldBlock never. *)
Theorem update_verdict (E : Collaborators) (fuel : nat)
    (zhtup : ZHeapTupleData) (curcid : CommandId) (buffer : Buffer)
    (out : UpdateOutputs) (free_zhtup lock_allowed : bool)
    (snapshot : SnapshotData) (tr : list FetchCall) (verdict : HTSU_Result)
    (out' : UpdateOutputs) :
  ZHeapTupleSatisfiesUpdate E fuel zhtup curcid buffer out free_zhtup
    lock_allowed snapshot
  = (tr, Returned (verdict, out')) ->
  let tuple := t_data zhtup in
  let xid := uo_xid out' in
  (exists tr0 urec_ptr,
     update_xact_info E fuel zhtup buffer (uo_cid out)
     = (tr0, Returned (mkXactInfo xid (uo_cid out') urec_ptr))) /\
  match verdict with
  | HeapTupleWouldBlock => False
  | HeapTupleUpdated =>
      TransactionIdIsCurrentTransactionId E xid = false /\
      TransactionIdIsInProgress E xid = false /\
      TransactionIdDidCommit E xid = true /\
      (deleted_or_updated tuple = true \/
       (lock_allowed = false /\ XidInMVCCSnapshot E xid snapshot = true))
  | HeapTupleSelfUpdated =>
      TransactionIdIsCurrentTransactionId E xid = true /\
      curcid <= uo_cid out'
  | HeapTupleBeingUpdated =>
      (TransactionIdIsCurrentTransactionId E xid = true /\
       deleted_or_updated tuple = false /\
       ZHEAP_XID_IS_LOCKED_ONLY (t_infomask tuple) = true) \/
      in_progress_elsewhere E xid = true
  | HeapTupleMayBeUpdated =>
      deleted_or_updated tuple = true ->
      TransactionIdIsCurrentTransactionId E xid = false /\
      TransactionIdIsInProgress E xid = false /\
      TransactionIdDidCommit E xid = false
  | HeapTupleInvisible => True
  end.
Proof.
  unfold ZHeapTupleSatisfiesUpdate, in_progress_elsewhere. intros run.
  destruct (update_xact_info E fuel zhtup buffer (uo_cid out))
    as [tr0 [[xid cid urec_ptr] | | ]]; try discriminate.
  rewrite bind_returned in run. cbn [xi_xid xi_cid xi_urec_ptr] in run.
  assert (probed : forall p flag if_visible,
    result
      (v <- UndoTupleSatisfiesUpdate E fuel p zhtup curcid buffer
              (uo_ctid out) InvalidTransactionId free_zhtup flag ;;
       match v with
       | (visible, ctid, in_place_updated_or_locked) =>
           if visible
           then ret (if_visible,
                     mkUpdateOutputs ctid xid cid in_place_updated_or_locked)
           else ret (HeapTupleInvisible,
                     mkUpdateOutputs ctid xid cid in_place_updated_or_locked)
       end)
    = Returned (verdict, out') ->
    (verdict = if_visible \/ verdict = HeapTupleInvisible) /\
    uo_xid out' = xid /\ uo_cid out' = cid).
  { intros p flag if_visible. rewrite result_bind.
    destruct (result (UndoTupleSatisfiesUpdate E fuel p zhtup curcid buffer
                        (uo_ctid out) InvalidTransactionId free_zhtup flag))
      as [[[visible c] f] | | ]; try discriminate.
    destruct visible; cbn; intros same; injection same as <- <-; auto. }
  injection run as _ run.
  repeat match type of run with
         | context [if ?b then _ else _] => destruct b eqn:?
         end;
    first
      [ apply probed in run as [[-> | ->] [same_xid same_cid]]
      | rewrite ?result_bind in run;
        try (destruct (result (get_ctid_if_updated E fuel zhtup buffer
                                 (uo_ctid out))) as [c | | ];
             try discriminate);
        cbn in run; injection run as <- <-;
        pose proof (eq_refl xid) as same_xid;
        pose proof (eq_refl cid) as same_cid ];
    cbn [uo_xid uo_cid] in *;
    (split; [ do 2 eexists; rewrite ?same_xid, ?same_cid; reflexivity | ]);
    rewrite ?same_xid, ?same_cid;
    repeat match goal with
           | H : (_ <=? _) = true |- _ => apply Z.leb_le in H
           | H : (_ || _) = false |- _ => apply orb_false_iff in H as [? ?]
           | H : negb _ = false |- _ => apply negb_false_iff in H
           | H : ?b = _ |- context [?b] => rewrite H
           end;
    cbn [negb andb]; try tauto; try (intuition congruence).
Qed.

Lemma update_verdict_witness :
  TransactionIdDidCommit
    (world 150 [50] [30; 80]
       [(7, mkUndoRecord UNDO_UPDATE 30 3 0 (mkItemPointer 5 9)
              (mkHeader 0 2 11))]) 80 = true.
Proof.
  apply (update_verdict
           (world 150 [50] [30; 80]
              [(7, mkUndoRecord UNDO_UPDATE 30 3 0 (mkItemPointer 5 9)
                     (mkHeader 0 2 11))])
           1 (row ZHEAP_UPDATED 2) 5 (page 80 7)
           (mkUpdateOutputs (Some (mkItemPointer 0 0)) 0 0 false) false false
           snapshot_S [mkFetch 7 1 1 0] HeapTupleUpdated
           (mkUpdateOutputs (Some (mkItemPointer 5 9)) 80 3 false) eq_refl).
Defined.

(** ** The two walkers *)

(** The skip loop returns the record of its last fetch, which is not of
    the slot-reuse kind, after fetches that all found slot-reuse records. *)
Lemma fetch_undo_record_returned (E : Collaborators) (fuel : nat)
    (p : UndoRecPtr) (zhtup : ZHeapTupleData) (xid : TransactionId)
    (tr : list FetchCall) (urec : UnpackedUndoRecord) :
  fetch_undo_record E fuel p zhtup xid = (tr, Returned urec) ->
  uur_type urec <> UNDO_INVALID_XACT_SLOT /\
  exists skipped c,
    tr = skipped ++ [c] /\
    Forall (fun c' => is_slot_invalidation E c' = true) skipped /\
    fetched_record E c = Some urec.
Proof.
  revert p tr. induction fuel as [ | fuel IH ]; intros p tr read;
    [ discriminate | ].
  cbn [fetch_undo_record] in read. unfold fetch in read.
  rewrite bind_returned in read.
  destruct (UndoFetchRecord E p _ _ xid) as [urec' | ] eqn:got;
    [ | discriminate ].
  destruct (undo_type_eqb (uur_type urec') UNDO_INVALID_XACT_SLOT) eqn:kind.
  - destruct (fetch_undo_record E fuel (uur_blkprev urec') zhtup xid)
      as [tr' o] eqn:next.
    cbn in read. injection read as <- ->.
    destruct (IH _ _ next) as [other [skipped [c [-> [reuse same]]]]].
    split; [ assumption | ].
    eexists (_ :: skipped), c. split; [ reflexivity | ].
    split; [ | assumption ].
    constructor; [ | assumption ].
    unfold is_slot_invalidation, fetched_record. cbn [fc_ptr fc_blk fc_off
      fc_xid]. now rewrite got.
  - cbn in read. injection read as <- <-.
    split.
    + intros same. apply undo_type_eqb_eq in same. congruence.
    + exists [], (mkFetch p (ItemPointerGetBlockNumber (t_self zhtup))
                    (ItemPointerGetOffsetNumber (t_self zhtup)) xid).
      split; [ reflexivity | ]. split; [ constructor | exact got ].
Qed.

(** X5: a step of GetTupleFromUndo builds its undo tuple from the record
    of its last fetch before the identity is resolved, which is never of
    the slot-reuse kind - the fetches before it all found slot-reuse
    records, which are skipped - and it answers
    with that undo tuple, after no other fetch than those that resolved the
    identity, exactly when the identity resolved in the step makes the undo
    tuple visible by rule: all-visible, or changed by the current
    transaction by a lock or before the command of the snapshot, or changed
    by a committed transaction that the snapshot does not hold in
    progress. *)
Theorem undo_version_is_visible (E : Collaborators)
    (snapshot : SnapshotData) (buffer : Buffer) (fuel : nat)
    (urec_ptr : UndoRecPtr) (zhtup : ZHeapTupleData)
    (prev_undo_xid : TransactionId) (tr1 tr2 : list FetchCall)
    (urec : UnpackedUndoRecord) (info : XactInfo) :
  fetch_undo_record E (S fuel) urec_ptr zhtup prev_undo_xid
  = (tr1, Returned urec) ->
  let undo_tup := CopyTupleFromUndoRecord E urec zhtup in
  resolve_undo_tuple E (S fuel) undo_tup (uur_prevxid urec)
    (switch_undo_chain urec undo_tup
       (ZHeapTupleHeaderGetXactSlot (t_data zhtup)) buffer) buffer
  = (tr2, Returned info) ->
  uur_type urec <> UNDO_INVALID_XACT_SLOT /\
  (exists skipped c,
     tr1 = skipped ++ [c] /\
     Forall (fun c' => is_slot_invalidation E c' = true) skipped /\
     fetched_record E c = Some urec) /\
  (GetTupleFromUndo E (S fuel) urec_ptr zhtup snapshot buffer prev_undo_xid
   = (tr1 ++ tr2, Returned (Some undo_tup)) <->
   visible_by_rule E snapshot undo_tup
     (undo_operation undo_tup =? ZHEAP_XID_LOCK_ONLY) info).
Proof.
  intros read undo_tup resolved.
  destruct (fetch_undo_record_returned _ _ _ _ _ _ _ read) as [kind met].
  split; [ exact kind | split; [ exact met | ] ].
  destruct (GetTupleFromUndo_step E snapshot buffer fuel urec_ptr zhtup
              prev_undo_xid tr1 tr2 urec info read resolved)
    as [[rule ->] | [[hidden [root ->]] | [hidden [older ->]]]].
  - tauto.
  - split; [ discriminate | contradiction ].
  - split; [ | contradiction ].
    intros same. apply direct_answer in same.
    now apply GetTupleFromUndo_not_silent in same.
Qed.

Lemma undo_version_is_visible_witness :
  let E :=
    world 150 [160] [30; 140]
      [(7, mkUndoRecord UNDO_INPLACE_UPDATE 160 1 6 (mkItemPointer 0 0)
             (mkHeader ZHEAP_INPLACE_UPDATED 2 11));
       (6, mkUndoRecord UNDO_INPLACE_UPDATE 140 1 0 (mkItemPointer 0 0)
             (mkHeader 0 2 10))] in
  visible_by_rule E (mkSnapshot 0 0 5 0 [160])
    (mkTuple (mkItemPointer 1 1) 16384 (mkHeader 0 2 10)) false
    (mkXactInfo 140 1 0).
Proof.
  intros E.
  apply (undo_version_is_visible E (mkSnapshot 0 0 5 0 [160]) (page 170 7)
           1 6
           (mkTuple (mkItemPointer 1 1) 16384
              (mkHeader ZHEAP_INPLACE_UPDATED 2 11))
           160 [mkFetch 6 1 1 160] []
           (mkUndoRecord UNDO_INPLACE_UPDATE 140 1 0 (mkItemPointer 0 0)
              (mkHeader 0 2 10))
           (mkXactInfo 140 1 0) eq_refl eq_refl).
  reflexivity.
Defined.

Lemma walks_agree_bind {A} (m : Run A) (k1 : A -> Run ZHeapTuple)
    (k2 : A -> Run (bool * option ItemPointerData * bool)) :
  (forall a, walks_agree (k1 a) (k2 a)) ->
  walks_agree (bind m k1) (bind m k2).
Proof.
  unfold walks_agree. intros agree.
  rewrite !fetches_bind, !result_bind.
  destruct (result m) as [a | | ]; [ | now split | now split ].
  destruct (agree a) as [same ended]. split; [ now f_equal | exact ended ].
Qed.

Lemma walks_agree_all (E : Collaborators) (snapshot : SnapshotData)
    (buffer : Buffer) (fuel : nat) :
  (forall xid,
     XidInMVCCSnapshot E xid snapshot = TransactionIdIsInProgress E xid) ->
  forall (urec_ptr : UndoRecPtr) (zhtup : ZHeapTupleData)
         (ctid : option ItemPointerData) (prev_undo_xid : TransactionId)
         (free_zhtup flag : bool),
    walks_agree
      (GetTupleFromUndo E fuel urec_ptr zhtup snapshot buffer prev_undo_xid)
      (UndoTupleSatisfiesUpdate E fuel urec_ptr zhtup (curcid snapshot)
         buffer ctid prev_undo_xid free_zhtup flag).
Proof.
  intros same_view.
  induction fuel as [ | fuel IH ];
    intros urec_ptr zhtup ctid prev_undo_xid free_zhtup flag;
    [ now split | ].
  cbn [GetTupleFromUndo UndoTupleSatisfiesUpdate].
  apply walks_agree_bind. intros urec.
  apply walks_agree_bind. intros info. cbv zeta.
  rewrite same_view.
  split_decisions; first [ apply IH | now split ].
Qed.

(** X6: the two walkers are one walk.  When the snapshot holds in progress
    exactly the transactions that the transaction manager reports in
    progress, UndoTupleSatisfiesUpdate at the curcid of the snapshot makes
    the fetches of GetTupleFromUndo and answers true exactly when the
    latter finds a version, false when it returns NULL, and reads through
    NULL when it does. *)
Theorem walkers_agree (E : Collaborators) (snapshot : SnapshotData)
    (buffer : Buffer) (fuel : nat) (urec_ptr : UndoRecPtr)
    (zhtup : ZHeapTupleData) (ctid : option ItemPointerData)
    (prev_undo_xid : TransactionId) (free_zhtup flag : bool) :
  (forall xid,
     XidInMVCCSnapshot E xid snapshot = TransactionIdIsInProgress E xid) ->
  walks_agree
    (GetTupleFromUndo E fuel urec_ptr zhtup snapshot buffer prev_undo_xid)
    (UndoTupleSatisfiesUpdate E fuel urec_ptr zhtup (curcid snapshot)
       buffer ctid prev_undo_xid free_zhtup flag).
Proof.
  intros same_view.
  revert urec_ptr zhtup ctid prev_undo_xid free_zhtup flag.
  induction fuel as [ | fuel IH ];
    intros urec_ptr zhtup ctid prev_undo_xid free_zhtup flag;
    [ now split | ].
  cbn [GetTupleFromUndo UndoTupleSatisfiesUpdate].
  apply walks_agree_bind. intros urec.
  apply walks_agree_bind. intros info. cbv zeta.
  rewrite same_view.
  split_decisions; first [ apply IH | now split ].
Qed.

Lemma walkers_agree_witness :
  let E :=
    world 150 [160] [30; 140]
      [(7, mkUndoRecord UNDO_INPLACE_UPDATE 160 1 6 (mkItemPointer 0 0)
             (mkHeader ZHEAP_INPLACE_UPDATED 2 11));
       (6, mkUndoRecord UNDO_INPLACE_UPDATE 140 1 0 (mkItemPointer 0 0)
             (mkHeader 0 2 10))] in
  walks_agree
    (GetTupleFromUndo E 3 7 (row ZHEAP_INPLACE_UPDATED 2)
       (mkSnapshot 0 0 5 0 [160]) (page 170 7) 0)
    (UndoTupleSatisfiesUpdate E 3 7 (row ZHEAP_INPLACE_UPDATED 2) 5
       (page 170 7) None 0 true false).
Proof.
  intros E.
  apply (walkers_agree E (mkSnapshot 0 0 5 0 [160]) (page 170 7) 3 7
           (row ZHEAP_INPLACE_UPDATED 2) None 0 true false).
  intros xid. cbn. now rewrite orb_false_r.
Defined.

Lemma outputs_kept_bind {A} (ctid : option ItemPointerData) (flag : bool)
    (m : Run A) (k : A -> Run (bool * option ItemPointerData * bool)) :
  (forall a, outputs_kept ctid flag (k a)) ->
  outputs_kept ctid flag (bind m k).
Proof.
  unfold outputs_kept. intros kept. rewrite result_bind.
  destruct (result m) as [a | | ]; [ apply kept | exact I | exact I ].
Qed.

Lemma outputs_kept_trans (ctid ctid1 : option ItemPointerData)
    (flag flag1 : bool)
    (probe : Run (bool * option ItemPointerData * bool)) :
  (ctid = None <-> ctid1 = None) ->
  (flag = true -> flag1 = true) ->
  outputs_kept ctid1 flag1 probe ->
  outputs_kept ctid flag probe.
Proof.
  unfold outputs_kept. intros same set.
  destruct (result probe) as [[[visible ctid'] flag'] | | ]; tauto.
Qed.

(** X7: UndoTupleSatisfiesUpdate writes the ctid only through a pointer
    that was given - a NULL ctid stays NULL and a given one comes back
    filled - and it never clears the flag in_place_updated_or_locked: once
    set, by the caller or by an older version, it stays set. *)
Theorem walker_outputs_kept (E : Collaborators) (curcid : CommandId)
    (buffer : Buffer) (fuel : nat) :
  forall (urec_ptr : UndoRecPtr) (zhtup : ZHeapTupleData)
         (ctid : option ItemPointerData) (prev_undo_xid : TransactionId)
         (free_zhtup flag : bool),
    outputs_kept ctid flag
      (UndoTupleSatisfiesUpdate E fuel urec_ptr zhtup curcid buffer ctid
         prev_undo_xid free_zhtup flag).
Proof.
  induction fuel as [ | fuel IH ];
    intros urec_ptr zhtup ctid prev_undo_xid free_zhtup flag; [ exact I | ].
  cbn [UndoTupleSatisfiesUpdate].
  apply outputs_kept_bind. intros urec.
  apply outputs_kept_bind. intros info. cbv zeta.
  set (ctid1 := match ctid with Some _ => _ | None => None end).
  set (flag1 := if (_ =? ZHEAP_INPLACE_UPDATED) || _ then true else flag).
  assert (same : ctid = None <-> ctid1 = None).
  { subst ctid1. destruct ctid; [ | tauto ].
    destruct (undo_type_eqb _ _); split; discriminate. }
  assert (set : flag = true -> flag1 = true).
  { subst flag1. now destruct (_ || _). }
  clearbody ctid1 flag1.
  split_decisions;
    first [ apply (outputs_kept_trans _ ctid1 _ flag1 _ same set), IH
          | exact (conj same set) ].
Qed.

(** ** The predicates on a finite undo chain *)

(** X12: ZHeapTupleIsSurelyDead and ZHeapTupleSatisfiesOldestXmin always
    give an answer - they never read through NULL, a discarded record
    being a result of their loop - when, for a tuple whose identity is
    read from the undo, the chain of that loop is finite: the records
    along uur_blkprev from the undo pointer of the tuple's slot up to the
    first slot-reuse record or to a discarded record.  They answer after
    at most one fetch more than that chain has records. *)
Theorem vacuum_predicates_answer (E : Collaborators) (buffer : Buffer)
    (fuel : nat) (zhtup : ZHeapTupleData) (OldestXmin : TransactionId) :
  let records :=
    walk_chain_length E buffer fuel (InTupleLoop false)
      (ZHeapTupleHeaderGetRawUndoPtr (t_data zhtup) buffer) zhtup in
  (ZHeapTupleHeaderGetXactSlot (t_data zhtup) <> ZHTUP_SLOT_FROZEN ->
   flag_set (t_infomask (t_data zhtup)) ZHEAP_INVALID_XACT_SLOT = true ->
   (records < fuel)%nat) ->
  (exists dead,
     result (ZHeapTupleIsSurelyDead E fuel zhtup OldestXmin buffer)
     = Returned dead /\
     (fetch_count (ZHeapTupleIsSurelyDead E fuel zhtup OldestXmin buffer)
      <= records + 1)%nat) /\
  (exists verdict,
     result (ZHeapTupleSatisfiesOldestXmin E fuel zhtup OldestXmin buffer)
     = Returned verdict /\
     (fetch_count
        (ZHeapTupleSatisfiesOldestXmin E fuel zhtup OldestXmin buffer)
      <= records + 1)%nat).
Proof.
  intros records finite.
  assert (raw : exists xid,
    result (raw_xact_xid E fuel zhtup buffer) = Returned xid /\
    (fetch_count (raw_xact_xid E fuel zhtup buffer) <= records + 1)%nat).
  { unfold raw_xact_xid.
    destruct (ZHeapTupleHeaderGetXactSlot (t_data zhtup)
              =? ZHTUP_SLOT_FROZEN) eqn:frozen; cbn [negb];
      [ | destruct (flag_set _ _) eqn:reused ];
      try (eexists; split; [ reflexivity | cbn; lia ]).
    apply Z.eqb_neq in frozen.
    destruct (tuple_xact_info_ends E buffer _ fuel
                (walk_chain_length_unfold E buffer fuel) false fuel
                (ZHeapTupleHeaderGetRawUndoPtr (t_data zhtup) buffer) zhtup)
      as [tr [info [-> far]]]; [ now apply finite | now apply finite | ].
    exists (xi_xid info). rewrite bind_returned.
    split; [ reflexivity | ].
    unfold fetch_count. cbn [fetches ret fst andb]. rewrite app_nil_r.
    fold records in far. cbn [andb] in far.
    destruct far as [[_ far] | far]; lia. }
  assert (oldest : exists xid,
    result (oldest_xmin_xact_xid E fuel zhtup buffer) = Returned xid /\
    (fetch_count (oldest_xmin_xact_xid E fuel zhtup buffer)
     <= records + 1)%nat).
  { destruct (oldest_xmin_xact_xid_cases E fuel zhtup buffer)
      as [[_ ->] | [[_ [_ ->]] | [_ [_ ->]]]];
      try (eexists; split; [ reflexivity | cbn; lia ]).
    exact raw. }
  split.
  - destruct raw as [xid [returned few]].
    unfold ZHeapTupleIsSurelyDead, fetch_count in *.
    rewrite result_bind, fetches_bind, returned.
    split_decisions; eexists;
      (split; [ reflexivity | cbn [fetches ret fst]; now rewrite app_nil_r ]).
  - destruct oldest as [xid [returned few]].
    unfold ZHeapTupleSatisfiesOldestXmin, fetch_count in *.
    rewrite result_bind, fetches_bind, returned.
    split_decisions; eexists;
      (split; [ reflexivity | cbn [fetches ret fst]; now rewrite app_nil_r ]).
Qed.

(** X11: ZHeapTupleSatisfiesMVCC ends - with an answer, or in the NULL
    dereference of a walker - when the invalid xid precedes
    RecentGlobalXmin and the undo chain of the tuple is finite: the
    records of the loop that resolves the identity, when the tuple points
    to a reused slot, and below them those of the walk for the older
    versions, which the predicate starts for a tuple that is not
    all-visible and not a first version.  It ends after at most one fetch
    more than that chain has records, the records read for the identity
    being counted once. *)
Theorem mvcc_ends (E : Collaborators) (buffer : Buffer) (fuel : nat)
    (zhtup : ZHeapTupleData) (snapshot : SnapshotData)
    (ctid : option ItemPointerData) :
  let records := mvcc_chain_length E buffer fuel zhtup in
  TransactionIdPrecedes E InvalidTransactionId (RecentGlobalXmin E) = true ->
  (records < fuel)%nat ->
  let run := ZHeapTupleSatisfiesMVCC E fuel zhtup snapshot buffer ctid in
  result run <> OutOfFuel /\ (fetch_count run <= records + 1)%nat.
Proof.
  intros records horizon finite run. subst run.
  assert (resolved : exists tr info,
    mvcc_xact_info E fuel zhtup buffer = (tr, Returned info) /\
    ((all_visible E (t_data zhtup) (xi_xid info) = true /\
      (length tr <= records + 1)%nat) \/
     records
     = (length tr
        + if negb (all_visible E (t_data zhtup) (xi_xid info))
             && (deleted_or_updated (t_data zhtup)
                 || inplace_updated_or_locked (t_data zhtup))
          then walk_chain_length E buffer fuel
                 (AtRecord InvalidTransactionId) (xi_urec_ptr info) zhtup
          else O)%nat)).
  { subst records. revert finite.
    unfold mvcc_xact_info, mvcc_chain_length.
    destruct (ZHeapTupleHeaderGetXactSlot (t_data zhtup)
              =? ZHTUP_SLOT_FROZEN) eqn:frozen; cbn [negb]; intros finite.
    - do 2 eexists. split; [ reflexivity | ]. left.
      apply Z.eqb_eq in frozen.
      split; [ now apply all_visible_frozen | cbn; lia ].
    - destruct (flag_set _ _).
      + destruct (tuple_xact_info_ends E buffer _ fuel
                    (walk_chain_length_unfold E buffer fuel) true fuel
                    (ZHeapTupleHeaderGetRawUndoPtr (t_data zhtup) buffer)
                    zhtup finite finite)
          as [tr [info [-> [[invalid far] | far]]]];
          do 2 eexists; (split; [ reflexivity | ]); [ left | right ].
        * split; [ | assumption ].
          unfold all_visible. now rewrite invalid, horizon, orb_true_r.
        * exact far.
      + do 2 eexists. split; [ reflexivity | ]. right. reflexivity. }
  destruct resolved as [tr [info [resolved far]]].
  unfold ZHeapTupleSatisfiesMVCC. rewrite resolved, bind_returned.
  unfold fetch_count. cbn [fetches result fst snd]. rewrite length_app.
  assert (walk :
    all_visible E (t_data zhtup) (xi_xid info) = false ->
    deleted_or_updated (t_data zhtup)
    || inplace_updated_or_locked (t_data zhtup) = true ->
    let from_undo :=
      GetTupleFromUndo E fuel (xi_urec_ptr info) zhtup snapshot buffer
        InvalidTransactionId in
    result from_undo <> OutOfFuel /\
    (length tr + length (fetches from_undo) <= records + 1)%nat).
  { intros hidden class from_undo.
    rewrite hidden, class in far. cbn [negb andb] in far.
    destruct far as [[absurd _] | far]; [ discriminate | ].
    destruct (GetTupleFromUndo_ends E buffer _ fuel
                (walk_chain_length_unfold E buffer fuel) horizon snapshot
                fuel (xi_urec_ptr info) zhtup InvalidTransactionId)
      as [ended few]; [ lia | lia | ].
    split; [ exact ended | ].
    unfold fetch_count, ZHeapTuple in *. subst from_undo. lia. }
  assert (direct : forall v : ZHeapTuple,
    result (ret v) <> OutOfFuel /\
    (length tr + length (fetches (ret v)) <= records + 1)%nat).
  { intros v. split; [ discriminate | ]. cbn.
    destruct far as [[_ far] | far]; lia. }
  destruct (deleted_or_updated (t_data zhtup));
    destruct (inplace_updated_or_locked (t_data zhtup));
    destruct (all_visible E (t_data zhtup) (xi_xid info));
    cbn [orb] in walk; split_decisions;
    first [ apply direct | now apply walk ].
Qed.

(** ** The MVCC predicate against the update predicate *)

Lemma seen_agrees_bind {A} (m : Run A) (k1 : A -> Run ZHeapTuple)
    (k2 : A -> Run (HTSU_Result * UpdateOutputs)) :
  (forall a, seen_agrees (k1 a) (k2 a)) ->
  seen_agrees (bind m k1) (bind m k2).
Proof.
  unfold seen_agrees. intros agree.
  rewrite !fetches_bind, !result_bind.
  destruct (result m) as [a | | ]; [ | now split | now split ].
  destruct (agree a) as [same ended]. split; [ now f_equal | exact ended ].
Qed.

Lemma seen_agrees_probe (walk : Run ZHeapTuple)
    (probe : Run (bool * option ItemPointerData * bool))
    (if_visible : HTSU_Result) (xid : TransactionId) (cid : CommandId) :
  walks_agree walk probe ->
  if_visible <> HeapTupleInvisible ->
  seen_agrees walk
    (v <- probe ;;
     match v with
     | (visible, ctid, in_place_updated_or_locked) =>
         if visible
         then ret (if_visible,
                   mkUpdateOutputs ctid xid cid in_place_updated_or_locked)
         else ret (HeapTupleInvisible,
                   mkUpdateOutputs ctid xid cid in_place_updated_or_locked)
     end).
Proof.
  unfold walks_agree, seen_agrees. intros [same ended] other.
  rewrite fetches_bind, result_bind.
  destruct (result walk) as [[u | ] | | ];
    destruct (result probe) as [[[visible c] f] | | ]; try contradiction;
    subst; cbn [fetches result ret fst snd]; rewrite ?app_nil_r;
    split; auto.
Qed.

(** X14: for a tuple that is neither deleted nor moved, and a snapshot that
    holds in progress exactly what the transaction manager reports in
    progress, ZHeapTupleSatisfiesUpdate at the curcid of the snapshot says
    HeapTupleInvisible exactly when ZHeapTupleSatisfiesMVCC returns NULL;
    both make the same fetches and fault together. *)
Theorem invisible_iff_unseen (E : Collaborators) (fuel : nat)
    (zhtup : ZHeapTupleData) (snapshot : SnapshotData) (buffer : Buffer)
    (ctid : option ItemPointerData) (out : UpdateOutputs)
    (free_zhtup lock_allowed : bool) :
  (forall xid,
     XidInMVCCSnapshot E xid snapshot = TransactionIdIsInProgress E xid) ->
  deleted_or_updated (t_data zhtup) = false ->
  seen_agrees
    (ZHeapTupleSatisfiesMVCC E fuel zhtup snapshot buffer ctid)
    (ZHeapTupleSatisfiesUpdate E fuel zhtup (curcid snapshot) buffer out
       free_zhtup lock_allowed snapshot).
Proof.
  intros same_view class.
  unfold ZHeapTupleSatisfiesMVCC, ZHeapTupleSatisfiesUpdate.
  unfold mvcc_xact_info, update_xact_info. rewrite class.
  pose proof (fun p flag => walks_agree_all E snapshot buffer fuel same_view
                              p zhtup (uo_ctid out) InvalidTransactionId
                              free_zhtup flag) as walks.
  destruct (ZHeapTupleHeaderGetXactSlot (t_data zhtup) =? ZHTUP_SLOT_FROZEN)
    eqn:frozen; cbn [negb].
  - rewrite !bind_ret_l. cbn [xi_xid xi_cid xi_urec_ptr].
    apply Z.eqb_eq in frozen. rewrite all_visible_frozen by assumption.
    destruct (inplace_updated_or_locked (t_data zhtup));
      (split; [ reflexivity | cbn; discriminate ]).
  - destruct (flag_set (t_infomask (t_data zhtup)) ZHEAP_INVALID_XACT_SLOT);
      apply seen_agrees_bind; intros info; cbv zeta; rewrite !same_view;
      destruct (inplace_updated_or_locked (t_data zhtup));
      destruct (all_visible E (t_data zhtup) (xi_xid info));
      destruct (TransactionIdIsCurrentTransactionId E (xi_xid info));
      destruct (ZHEAP_XID_IS_LOCKED_ONLY (t_infomask (t_data zhtup)));
      destruct (curcid snapshot <=? xi_cid info);
      destruct (TransactionIdIsInProgress E (xi_xid info));
      destruct (TransactionIdDidCommit E (xi_xid info));
      destruct lock_allowed;
      cbn [negb orb];
      first
        [ apply seen_agrees_probe; [ apply walks | discriminate ]
        | split; [ reflexivity | cbn; try discriminate; reflexivity ] ].
Qed.

(** ** Where a walk gives up *)

Lemma hidden_at_first_version (E : Collaborators) (snapshot : SnapshotData)
    (tup : ZHeapTupleData) (info : XactInfo) :
  has_older_version tup = false ->
  (~ visible_by_rule E snapshot tup
       (undo_operation tup =? ZHEAP_XID_LOCK_ONLY) info <->
   all_visible E (t_data tup) (xi_xid info) = false /\
   hidden_by_rule E snapshot info).
Proof.
  unfold has_older_version, visible_by_rule, hidden_by_rule.
  intros root. apply orb_false_iff in root as [_ ->].
  destruct (all_visible E (t_data tup) (xi_xid info));
    destruct (TransactionIdIsCurrentTransactionId E (xi_xid info));
    destruct (XidInMVCCSnapshot E (xi_xid info) snapshot);
    destruct (TransactionIdDidCommit E (xi_xid info));
    intuition (try congruence; try lia).
Qed.

(** X15: a step of GetTupleFromUndo answers NULL, after no other fetch
    than those that resolved the identity, exactly at a first version of
    the row - an undo tuple that is neither the image before an in-place
    update nor before a lock - that is not all-visible and was inserted by
    the current transaction at or after the command of the snapshot, or by
    a transaction that the snapshot holds in progress or that did not
    commit.  At an in-place update or a lock that is not visible by rule
    the step gives the answer of the walk for the older versions, started
    at the pointer of the identity with its xid as previous xid. *)
Theorem undo_walk_gives_up_at_insert (E : Collaborators)
    (snapshot : SnapshotData) (buffer : Buffer) (fuel : nat)
    (urec_ptr : UndoRecPtr) (zhtup : ZHeapTupleData)
    (prev_undo_xid : TransactionId) (tr1 tr2 : list FetchCall)
    (urec : UnpackedUndoRecord) (info : XactInfo) :
  fetch_undo_record E (S fuel) urec_ptr zhtup prev_undo_xid
  = (tr1, Returned urec) ->
  let undo_tup := CopyTupleFromUndoRecord E urec zhtup in
  resolve_undo_tuple E (S fuel) undo_tup (uur_prevxid urec)
    (switch_undo_chain urec undo_tup
       (ZHeapTupleHeaderGetXactSlot (t_data zhtup)) buffer) buffer
  = (tr2, Returned info) ->
  let walk :=
    GetTupleFromUndo E (S fuel) urec_ptr zhtup snapshot buffer
      prev_undo_xid in
  let older :=
    GetTupleFromUndo E fuel (xi_urec_ptr info) undo_tup snapshot buffer
      (xi_xid info) in
  (walk = (tr1 ++ tr2, Returned None) <->
   has_older_version undo_tup = false /\
   all_visible E (t_data undo_tup) (xi_xid info) = false /\
   hidden_by_rule E snapshot info) /\
  (has_older_version undo_tup = true ->
   ~ visible_by_rule E snapshot undo_tup
       (undo_operation undo_tup =? ZHEAP_XID_LOCK_ONLY) info ->
   walk = (tr1 ++ tr2 ++ fetches older, result older)).
Proof.
  intros read undo_tup resolved walk older. subst walk older undo_tup.
  destruct (GetTupleFromUndo_step E snapshot buffer fuel urec_ptr zhtup
              prev_undo_xid tr1 tr2 urec info read resolved)
    as [[rule ->] | [[hidden [root ->]] | [hidden [further ->]]]].
  - split; [ split; [ discriminate | ] | contradiction ].
    intros [root rest].
    destruct (proj2 (hidden_at_first_version E snapshot _ info root) rest
                rule).
  - split; [ | congruence ].
    split; [ intros _ | reflexivity ].
    split; [ exact root | ].
    exact (proj1 (hidden_at_first_version E snapshot _ info root) hidden).
  - split; [ split | intros _ _; now rewrite app_assoc ].
    + intros silent. apply direct_answer in silent.
      now apply GetTupleFromUndo_not_silent in silent.
    + intros [root _]. congruence.
Qed.

Lemma undo_walk_gives_up_at_insert_witness :
  let E := world 150 [170] [] reused_slot_log in
  let zhtup := row (ZHEAP_INVALID_XACT_SLOT + ZHEAP_INPLACE_UPDATED) 2 in
  GetTupleFromUndo E 3 10 zhtup (mkSnapshot 0 0 5 0 [170]) (page 180 11) 0
  = ([mkFetch 10 1 1 0] ++ [], Returned None).
Proof.
  intros E zhtup.
  apply (undo_walk_gives_up_at_insert E (mkSnapshot 0 0 5 0 [170])
           (page 180 11) 2 10 zhtup 0 [mkFetch 10 1 1 0] []
           (mkUndoRecord UNDO_INPLACE_UPDATE 160 1 9 (mkItemPointer 0 0)
              (mkHeader 0 2 11))
           (mkXactInfo 160 2 9) eq_refl eq_refl).
  repeat split. right. split; [ reflexivity | now right ].
Defined.

(** ** Witnesses on the log of a changed chain and of a reused slot *)

(** The page of the walk of C4: the tuple of slot 2 was updated in place
    by xid 170, in record 7, over a version of slot 1, whose record is 4.
    The walk reads both records. *)
Lemma mvcc_ends_witness :
  let E :=
    world 150 [160; 170] [30]
      [(7, mkUndoRecord UNDO_INPLACE_UPDATE 160 1 6 (mkItemPointer 0 0)
             (mkHeader ZHEAP_INPLACE_UPDATED 1 11));
       (4, mkUndoRecord UNDO_INPLACE_UPDATE 30 1 0 (mkItemPointer 0 0)
             (mkHeader 0 1 10))] in
  let run :=
    ZHeapTupleSatisfiesMVCC E 5 (row ZHEAP_INPLACE_UPDATED 2)
      (mkSnapshot 0 0 5 0 [160; 170]) (page2 160 4 170 7) None in
  result run <> OutOfFuel /\ (fetch_count run <= 2 + 1)%nat.
Proof.
  intros E run.
  refine (mvcc_ends E (page2 160 4 170 7) 5 (row ZHEAP_INPLACE_UPDATED 2)
            (mkSnapshot 0 0 5 0 [160; 170]) None eq_refl _).
  vm_compute. lia.
Defined.

(** The run of that witness. *)
Example mvcc_on_changed_chain :
  ZHeapTupleSatisfiesMVCC
    (world 150 [160; 170] [30]
       [(7, mkUndoRecord UNDO_INPLACE_UPDATE 160 1 6 (mkItemPointer 0 0)
              (mkHeader ZHEAP_INPLACE_UPDATED 1 11));
        (4, mkUndoRecord UNDO_INPLACE_UPDATE 30 1 0 (mkItemPointer 0 0)
              (mkHeader 0 1 10))])
    5 (row ZHEAP_INPLACE_UPDATED 2) (mkSnapshot 0 0 5 0 [160; 170])
    (page2 160 4 170 7) None
  = ([mkFetch 7 1 1 0; mkFetch 4 1 1 160],
     Returned (Some (mkTuple (mkItemPointer 1 1) 16384 (mkHeader 0 1 10)))).
Proof. reflexivity. Qed.

(** On the log of a reused slot: one fetch for the identity, one for the
    walk. *)
Example mvcc_on_reused_slot :
  ZHeapTupleSatisfiesMVCC (world 150 [170] [160] reused_slot_log) 12
    (row (ZHEAP_INVALID_XACT_SLOT + ZHEAP_INPLACE_UPDATED) 2)
    (mkSnapshot 0 0 5 0 [170]) (page 180 11) None
  = ([mkFetch 11 1 1 0; mkFetch 10 1 1 0],
     Returned (Some (mkTuple (mkItemPointer 1 1) 16384 (mkHeader 0 2 11))))
  /\ mvcc_chain_length (world 150 [170] [160] reused_slot_log) (page 180 11)
       12 (row (ZHEAP_INVALID_XACT_SLOT + ZHEAP_INPLACE_UPDATED) 2)
     = 2%nat.
Proof. split; reflexivity. Qed.

(** On the page of the walk of C4 the loop of the vacuum predicates reads
    record 7 and finds record 6 discarded. *)
Lemma vacuum_predicates_answer_witness :
  let E :=
    world 150 [160; 170] [30]
      [(7, mkUndoRecord UNDO_INPLACE_UPDATE 160 1 6 (mkItemPointer 0 0)
             (mkHeader ZHEAP_INPLACE_UPDATED 1 11));
       (4, mkUndoRecord UNDO_INPLACE_UPDATE 30 1 0 (mkItemPointer 0 0)
             (mkHeader 0 1 10))] in
  let zhtup := row (ZHEAP_INVALID_XACT_SLOT + ZHEAP_DELETED) 2 in
  let run :=
    ZHeapTupleSatisfiesOldestXmin E 5 zhtup 120 (page2 160 4 170 7) in
  exists verdict,
    result run = Returned verdict /\ (fetch_count run <= 1 + 1)%nat.
Proof.
  intros E zhtup run.
  refine (proj2 (vacuum_predicates_answer E (page2 160 4 170 7) 5 zhtup 120
                   _)).
  intros _ _. vm_compute. lia.
Defined.

(** The runs of that witness: two fetches each. *)
Example vacuum_on_changed_chain :
  let E :=
    world 150 [160; 170] [30]
      [(7, mkUndoRecord UNDO_INPLACE_UPDATE 160 1 6 (mkItemPointer 0 0)
             (mkHeader ZHEAP_INPLACE_UPDATED 1 11));
       (4, mkUndoRecord UNDO_INPLACE_UPDATE 30 1 0 (mkItemPointer 0 0)
             (mkHeader 0 1 10))] in
  let zhtup := row (ZHEAP_INVALID_XACT_SLOT + ZHEAP_DELETED) 2 in
  ZHeapTupleIsSurelyDead E 5 zhtup 120 (page2 160 4 170 7)
  = ([mkFetch 7 1 1 0; mkFetch 6 1 1 0], Returned true)
  /\ ZHeapTupleSatisfiesOldestXmin E 5 zhtup 120 (page2 160 4 170 7)
     = ([mkFetch 7 1 1 0; mkFetch 6 1 1 0], Returned (HEAPTUPLE_DEAD, 0)).
Proof. split; reflexivity. Qed.

Lemma invisible_iff_unseen_witness :
  let E := world 150 [170] [160] reused_slot_log in
  let zhtup := row (ZHEAP_INVALID_XACT_SLOT + ZHEAP_INPLACE_UPDATED) 2 in
  seen_agrees
    (ZHeapTupleSatisfiesMVCC E 12 zhtup (mkSnapshot 0 0 5 0 [170])
       (page 180 11) None)
    (ZHeapTupleSatisfiesUpdate E 12 zhtup 5 (page 180 11)
       (mkUpdateOutputs None 0 0 false) false false
       (mkSnapshot 0 0 5 0 [170])).
Proof.
  intros E zhtup.
  apply (invisible_iff_unseen E 12 zhtup (mkSnapshot 0 0 5 0 [170])
           (page 180 11) None (mkUpdateOutputs None 0 0 false) false false).
  - intros xid. cbn. now rewrite orb_false_r.
  - reflexivity.
Defined.
